(** * Trade execution and liquidity routing engine: a shallow embedding

    The TypeScript sources modelled here are
    - [src/lib/liquidity.ts]  ([checkLiquidityFast]),
    - [src/lib/trading.ts]    ([estimateGasWithBuffer], [executeBuy], [executeSell]),
    - [src/lib/tokens.ts]     ([ensureApproval]),
    - [src/lib/provider.ts]   ([getGasData]),
    - [src/lib/prices.ts]     ([fetchEthPrice]),
    - [src/lib/wallet.ts]     (key custody) and [src/hooks/useWallet.ts].

    Asynchronous code that talks to the chain is embedded in a small free
    monad [Prog]: a program either returns, throws a JavaScript error, calls
    one provider or contract method (and continues with its answer, which may
    be a rejection, by the chain or by the library before anything is sent)
    or reads the clock.  Running a program against a [World] yields the list
    of calls that were actually made, in order and with their answers,
    together with the outcome.  Module-level variables ([_ethPriceCache],
    [localStorage], the entropy of [crypto.getRandomValues]) are passed
    explicitly.  Strings are sequences of code units below 256; the slippage
    of a trade is the IEEE 754 binary64 number the code receives.

    The file has three parts: the embedding, the scenarios and predicates the
    statements use, and the properties. *)

From Stdlib Require Import ZArith QArith String Ascii List Lia SpecFloat.
From Stdlib Require Strings.Byte.
From stdpp Require Import base option list gmap strings.

Local Open Scope string_scope.
Local Open Scope Z_scope.

(** ** JavaScript values used by the engine *)

(** Addresses and transaction hashes are hexadecimal strings. *)
Definition address := string.
Definition TxHash := string.

(** A thrown [Error]; only its [message] is ever inspected by the code. *)
Definition Error := string.

(** [String.prototype.includes]. *)
Fixpoint includes (needle s : string) : bool :=
  if String.prefix needle s then true
  else match s with
       | EmptyString => false
       | String _ s' => includes needle s'
       end.

(** BigInt division truncates toward zero. *)
Definition bigint_div (a b : Z) : Z := Z.quot a b.

(** A JavaScript [number] is an IEEE 754 binary64 value: 53 bits of
    precision, exponents below 1024. *)
Definition JsNumber := spec_float.

Definition js_of_Z (z : Z) : JsNumber := binary_normalize 53 1024 z 0 false.
Definition js_sub (x y : JsNumber) : JsNumber := SFsub 53 1024 x y.
Definition NaN : JsNumber := S754_nan.

(** Message of the RangeError raised by [BigInt(x)] for a number that is not
    an integer (V8 words it so and names the number; the text is only ever
    searched for the markers of the [catch] blocks below). *)
Definition range_error : Error :=
  "The number NaN cannot be converted to a BigInt because it is not an integer".

(** [BigInt(x)] for a number [x]: the integer [x] stands for, or a RangeError
    when [x] is NaN, an infinity or has a fractional part. *)
Definition BigInt (x : JsNumber) : Error + Z :=
  match x with
  | S754_zero _ => inr 0
  | S754_finite sign m e =>
      if 0 <=? e then inr ((if sign then -1 else 1) * (Z.pos m * 2 ^ e))
      else if Z.pos m mod 2 ^ (- e) =? 0
           then inr ((if sign then -1 else 1) * (Z.pos m / 2 ^ (- e)))
           else inl range_error
  | S754_infinity _ | S754_nan => inl range_error
  end.

(** [ethers.ZeroAddress] and [ethers.MaxUint256]. *)
Definition ZeroAddress : address := "0x0000000000000000000000000000000000000000".
Definition MaxUint256 : Z := 2 ^ 256 - 1.

(** Aerodrome hop descriptor [{ from, to, stable }]. *)
Record Route := mkRoute { r_from : address; r_to : address; r_stable : bool }.

(** Argument tuple of the V3 router's [exactInputSingle]. *)
Record V3Params := mkV3Params {
  tokenIn : address;
  tokenOut : address;
  v3fee : Z;
  recipient : address;
  amountIn : Z;
  amountOutMinimum : Z;
  sqrtPriceLimitX96 : Z
}.

(** A swap invocation: router contract, method, positional arguments and the
    [value] override (absent on the sell path). *)
Inductive SwapCall : Type :=
| ExactInputSingle (router : address) (params : V3Params) (value : option Z)
| AeroSwapExactETHForTokens (router : address) (amountOutMin : Z)
    (routes : list Route) (to : address) (deadline : Z) (value : Z)
| AeroSwapExactTokensForETH (router : address) (amountIn amountOutMin : Z)
    (routes : list Route) (to : address) (deadline : Z)
| V2SwapExactETHForTokens (router : address) (amountOutMin : Z)
    (path : list address) (to : address) (deadline : Z) (value : Z)
| V2SwapExactTokensForETH (router : address) (amountIn amountOutMin : Z)
    (path : list address) (to : address) (deadline : Z).

(** Every request the engine sends to an RPC endpoint. *)
Inductive Call : Type :=
| GetFeeData
| GetBalance (addr : address)
| Erc20Decimals (token : address)
| Erc20BalanceOf (token owner : address)
| Erc20Allowance (token owner spender : address)
| Erc20Approve (token spender : address) (amount : Z)
| TxWait (tx : TxHash)
| V2GetAmountsOut (router : address) (amountIn : Z) (path : list address)
| AeroGetAmountsOut (router : address) (amountIn : Z) (routes : list Route)
| EstimateGas (s : SwapCall)
| SendSwap (s : SwapCall) (gasLimit : Z) (maxFeePerGas : option Z)
    (maxPriorityFeePerGas : Z)
| FactoryGetPair (factory tokenA tokenB : address)
| FactoryGetPool (factory tokenA tokenB : address) (fee : Z)
| FeedLatestRoundData (feed : address)
| FeedDecimals (feed : address).

(** [provider.getFeeData()]: both fields are nullable. *)
Record FeeData := mkFeeData { fd_maxFeePerGas : option Z; fd_gasPrice : option Z }.

(** What an endpoint can answer: a rejection, or a decoded result. *)
Inductive Value : Type :=
| VErr (e : Error)
| VNum (n : Z)
| VNums (ns : list Z)
| VAddr (a : address)
| VFee (fd : FeeData)
| VTx (tx : TxHash)
| VUnit.

Definition Event : Type := Call * Value.

(** ** The program monad *)

Inductive Prog (A : Type) : Type :=
| Ret (a : A)
| Throw (e : Error)
| Vis (c : Call) (k : Value -> Prog A)
| GetTime (k : Z -> Prog A).

Arguments Ret {A} a.
Arguments Throw {A} e.
Arguments Vis {A} c k.
Arguments GetTime {A} k.

Fixpoint bind {A B : Type} (p : Prog A) (f : A -> Prog B) : Prog B :=
  match p with
  | Ret a => f a
  | Throw e => Throw e
  | Vis c k => Vis c (fun v => bind (k v) f)
  | GetTime k => GetTime (fun t => bind (k t) f)
  end.

#[global] Instance Prog_ret : MRet Prog := @Ret.
#[global] Instance Prog_bind : MBind Prog := fun A B f p => bind p f.

(** [try { p } catch (e) { h e }]. *)
Fixpoint try_catch {A : Type} (p : Prog A) (h : Error -> Prog A) : Prog A :=
  match p with
  | Ret a => Ret a
  | Throw e => h e
  | Vis c k => Vis c (fun v => try_catch (k v) h)
  | GetTime k => GetTime (fun t => try_catch (k t) h)
  end.

(** Message of the error ethers raises when a result does not decode. *)
Definition decode_error : Error := "could not decode result data".

(** Decoding an answer: a rejection is rethrown, a result of the wrong shape
    is a decoding error. *)
Definition decodeNum (v : Value) : Error + Z :=
  match v with VNum n => inr n | VErr e => inl e | _ => inl decode_error end.
Definition decodeNums (v : Value) : Error + list Z :=
  match v with VNums l => inr l | VErr e => inl e | _ => inl decode_error end.
Definition decodeAddr (v : Value) : Error + address :=
  match v with VAddr a => inr a | VErr e => inl e | _ => inl decode_error end.
Definition decodeFee (v : Value) : Error + FeeData :=
  match v with VFee fd => inr fd | VErr e => inl e | _ => inl decode_error end.
Definition decodeTx (v : Value) : Error + TxHash :=
  match v with VTx tx => inr tx | VErr e => inl e | _ => inl decode_error end.
Definition decodeUnit (v : Value) : Error + unit :=
  match v with VErr e => inl e | _ => inr tt end.

Definition liftE {A : Type} (r : Error + A) : Prog A :=
  match r with inl e => Throw e | inr a => Ret a end.

(** Awaited calls, one per result type. *)
Definition callNum (c : Call) : Prog Z := Vis c (fun v => liftE (decodeNum v)).
Definition callNums (c : Call) : Prog (list Z) := Vis c (fun v => liftE (decodeNums v)).
Definition callAddr (c : Call) : Prog address := Vis c (fun v => liftE (decodeAddr v)).
Definition callFee (c : Call) : Prog FeeData := Vis c (fun v => liftE (decodeFee v)).
Definition callTx (c : Call) : Prog TxHash := Vis c (fun v => liftE (decodeTx v)).
Definition callUnit (c : Call) : Prog unit := Vis c (fun v => liftE (decodeUnit v)).

(** A call that is issued now and awaited later (as under [Promise.all]). *)
Definition rawCall (c : Call) : Prog Value := Vis c Ret.
Definition asNum (v : Value) : Prog Z := liftE (decodeNum v).

(** [Date.now()]. *)
Definition dateNow : Prog Z := GetTime Ret.

(** The chain and the clock as the program sees them.  Answers may depend on
    everything that happened before (balances change after a transaction). *)
Record World := mkWorld {
  rpc : list Event -> Call -> Value;
  clock : list Event -> Z
}.

(** [run w h p]: execute [p] in world [w] after history [h]; returns the
    extended history and the outcome ([inl] is a rejected promise). *)
Fixpoint run {A : Type} (w : World) (h : list Event) (p : Prog A)
  : list Event * (Error + A) :=
  match p with
  | Ret a => (h, inr a)
  | Throw e => (h, inl e)
  | Vis c k => let v := rpc w h c in run w (h ++ [(c, v)]) (k v)
  | GetTime k => run w h (k (clock w h))
  end.

(** The calls of a history, without the answers. *)
Definition calls (h : list Event) : list Call := map fst h.

(** ** src/lib/tokens.ts and src/lib/liquidity.ts *)

Definition WETH_BASE : address := "0x4200000000000000000000000000000000000006".

Definition UNISWAP_V2_FACTORY : address := "0x8909Dc15e40173Ff4699343b6eB8132c65e18eC6".
Definition AERODROME_FACTORY : address := "0x420DD381b31aEf6683db6B902084cB0FFECe40Da".
Definition UNISWAP_V3_FACTORY : address := "0x33128a8fC17869897dcE68Ed026d694621f6FDfD".

Definition UNISWAP_V2_ROUTER : address := "0x4752ba5DBc23f44D87826276BF6Fd6b1C372aD24".
Definition AERODROME_ROUTER : address := "0xcF77a3Ba9A5CA399B7c97c74d54e5b1Beb874E43".
Definition UNISWAP_V3_ROUTER : address := "0x2626664c2603336E57B271c5C0b26F421741e481".

Record LiquidityResult := mkLiquidityResult {
  dex : string;
  router : address;
  pairAddress : address;
  hasLiquidity : bool;
  fee : option Z;
  isStable : option bool
}.

(** One V2-style probe ([try { ... } catch { /* continue */ }]); [Some] is an
    early [return] from the enclosing function. *)
Definition probeV2Style (factory : address) (name : string) (rtr : address)
    (tokenAddress : address) : Prog (option LiquidityResult) :=
  try_catch
    (pair ← callAddr (FactoryGetPair factory tokenAddress WETH_BASE);
     if negb (String.eqb pair ZeroAddress) then
       wethBalance ← callNum (Erc20BalanceOf WETH_BASE pair);
       if 0 <? wethBalance then
         Ret (Some (mkLiquidityResult name rtr pair true None None))
       else Ret None
     else Ret None)
    (fun _ => Ret None).

(** The [for (const fee of feeTiers)] loop. *)
Fixpoint probeV3 (tokenAddress : address) (feeTiers : list Z)
  : Prog (option LiquidityResult) :=
  match feeTiers with
  | [] => Ret None
  | fee :: rest =>
      r ← try_catch
            (pool ← callAddr (FactoryGetPool UNISWAP_V3_FACTORY tokenAddress WETH_BASE fee);
             if negb (String.eqb pool ZeroAddress) then
               Ret (Some (mkLiquidityResult "Uniswap V3" UNISWAP_V3_ROUTER pool true
                            (Some fee) None))
             else Ret None)
            (fun _ => Ret None);
      match r with
      | Some res => Ret (Some res)
      | None => probeV3 tokenAddress rest
      end
  end.

Definition feeTiers : list Z := [3000; 10000; 500].

(** Scan for liquidity across Base DEXes. Priority: V2 > Aerodrome > V3. *)
Definition checkLiquidityFast (tokenAddress : address) : Prog LiquidityResult :=
  r ← probeV2Style UNISWAP_V2_FACTORY "Uniswap V2" UNISWAP_V2_ROUTER tokenAddress;
  match r with
  | Some res => Ret res
  | None =>
      r ← probeV2Style AERODROME_FACTORY "Aerodrome" AERODROME_ROUTER tokenAddress;
      match r with
      | Some res => Ret res
      | None =>
          r ← probeV3 tokenAddress feeTiers;
          match r with
          | Some res => Ret res
          | None => Ret (mkLiquidityResult "None" "" "" false None None)
          end
      end
  end.

(** ** src/lib/provider.ts, src/lib/tokens.ts: fee data and approvals *)

(** The two pure helpers of the ethers library the engine relies on.
    [parseUnits amount decimals] throws on a malformed decimal string. *)
Class EthersLib := {
  parseUnits : string -> Z -> Error + Z;
  formatEther : Z -> string;
  (* address derivation inside [new ethers.Wallet(key, provider)] *)
  computeAddress : string -> Error + address
}.

Record Wallet := mkWallet { w_address : address; w_privateKey : string }.

Record GasData := mkGasData {
  maxFeePerGas : option Z;
  maxPriorityFeePerGas : Z;
  gasPrice : option Z
}.

(** [ethers.parseUnits("0.0001", "gwei")]. *)
Definition basePriorityFee : Z := 100000.

Definition getGasData : Prog GasData :=
  feeData ← callFee GetFeeData;
  Ret (mkGasData (fd_maxFeePerGas feeData) basePriorityFee (fd_gasPrice feeData)).

(** Check current allowance and approve if needed (MaxUint256 single approval). *)
Definition ensureApproval (tokenAddress spenderAddress : address) (wallet : Wallet)
  : Prog (option TxHash) :=
  allowance ← callNum (Erc20Allowance tokenAddress (w_address wallet) spenderAddress);
  if allowance <? bigint_div MaxUint256 2 then
    tx ← callTx (Erc20Approve tokenAddress spenderAddress MaxUint256);
    Ret (Some tx)
  else Ret None.

(** ** src/lib/trading.ts *)

Record TradeParams := mkTradeParams {
  p_tokenAddress : address;
  p_amount : string;       (* in ETH for buy, token units for sell *)
  p_slippage : JsNumber;    (* percentage e.g. 5 for 5% *)
  p_wallet : Wallet;
  p_dex : string;
  p_router : address;
  p_fee : option Z;
  p_isStable : option bool
}.

(** [params.fee || 3000] and [params.isStable || false]. *)
Definition fee_or_3000 (f : option Z) : Z :=
  match f with
  | Some n => if n =? 0 then 3000 else n
  | None => 3000
  end.
Definition stable_or_false (b : option bool) : bool := default false b.

(** Message of the TypeError raised by [undefined * 1n]. *)
Definition mix_error : Error := "Cannot mix BigInt and other types, use explicit conversions".

(** Estimate gas for a transaction and add 30% buffer. *)
Definition estimateGasWithBuffer (s : SwapCall) : Prog Z :=
  try_catch
    (estimated ← callNum (EstimateGas s);
     Ret (bigint_div (estimated * 130) 100))
    (fun _ => Ret 300000).

(** [ethers.parseUnits("0.000001", "ether")]. *)
Definition minGasNeeded : Z := 10 ^ 12.

Section Trading.
Context {ethers : EthersLib}.

Definition parseEther (amount : string) : Error + Z := parseUnits amount 18.

(** Execute a BUY: ETH -> Token via the identified DEX router. *)
Definition executeBuy (params : TradeParams) : Prog TxHash :=
  let tokenAddress := p_tokenAddress params in
  let slippage := p_slippage params in
  let wallet := p_wallet params in
  let router := p_router params in
  gasData ← getGasData;
  now ← dateNow;
  let deadline := now / 1000 + 300 in
  amountInWei ← liftE (parseEther (p_amount params));
  if String.eqb (p_dex params) "Uniswap V3" then
    let swapParams := mkV3Params WETH_BASE tokenAddress (fee_or_3000 (p_fee params))
                        (w_address wallet) amountInWei 0 0 in
    let call := ExactInputSingle router swapParams (Some amountInWei) in
    gasLimit ← estimateGasWithBuffer call;
    callTx (SendSwap call gasLimit (maxFeePerGas gasData) (maxPriorityFeePerGas gasData))
  else if String.eqb (p_dex params) "Aerodrome" then
    let routes := [mkRoute WETH_BASE tokenAddress (stable_or_false (p_isStable params))] in
    amountOutMin ←
      try_catch
        (amounts ← callNums (AeroGetAmountsOut router amountInWei routes);
         match amounts !! 1%nat with
         | Some a1 =>
             if a1 =? 0 then Throw "No liquidity available on Aerodrome for this token."
             else factor ← liftE (BigInt (js_sub (js_of_Z 100) slippage));
                  Ret (bigint_div (a1 * factor) 100)
         | None =>
             (* [undefined * BigInt(100 - slippage)]: the conversion comes first *)
             _ ← liftE (BigInt (js_sub (js_of_Z 100) slippage));
             Throw mix_error
         end)
        (fun e => if includes "No liquidity" e then Throw e else Ret 0);
    let call := AeroSwapExactETHForTokens router amountOutMin routes (w_address wallet)
                  deadline amountInWei in
    gasLimit ← estimateGasWithBuffer call;
    callTx (SendSwap call gasLimit (maxFeePerGas gasData) (maxPriorityFeePerGas gasData))
  else
    (* Fallback: Uniswap V2 *)
    let path := [WETH_BASE; tokenAddress] in
    amountOutMin ←
      try_catch
        (amounts ← callNums (V2GetAmountsOut router amountInWei path);
         match amounts !! 1%nat with
         | Some a1 =>
             if a1 =? 0 then Throw "No liquidity available on Uniswap V2 for this token."
             else factor ← liftE (BigInt (js_sub (js_of_Z 100) slippage));
                  Ret (bigint_div (a1 * factor) 100)
         | None =>
             (* [undefined * BigInt(100 - slippage)]: the conversion comes first *)
             _ ← liftE (BigInt (js_sub (js_of_Z 100) slippage));
             Throw mix_error
         end)
        (fun e => if includes "No liquidity" e then Throw e else Ret 0);
    let call := V2SwapExactETHForTokens router amountOutMin path (w_address wallet)
                  deadline amountInWei in
    gasLimit ← estimateGasWithBuffer call;
    callTx (SendSwap call gasLimit (maxFeePerGas gasData) (maxPriorityFeePerGas gasData)).

Definition insufficientEthMessage (ethBalance : Z) : Error :=
  "Insufficient ETH for gas. Need ~0.000001 ETH, have " ++ formatEther ethBalance ++ " ETH".

(** Execute a SELL: Token -> ETH via the identified DEX router. *)
Definition executeSell (params : TradeParams) : Prog TxHash :=
  let tokenAddress := p_tokenAddress params in
  let slippage := p_slippage params in
  let wallet := p_wallet params in
  let router := p_router params in
  gasData ← getGasData;
  now ← dateNow;
  let deadline := now / 1000 + 300 in
  rd ← rawCall (Erc20Decimals tokenAddress);
  rb ← rawCall (Erc20BalanceOf tokenAddress (w_address wallet));
  decimals ← asNum rd;
  actualBalance ← asNum rb;
  parsed ← liftE (parseUnits (p_amount params) decimals);
  let amountInUnits := if actualBalance <? parsed then actualBalance else parsed in
  if amountInUnits =? 0 then Throw "No token balance to sell" else
  approvalTx ← ensureApproval tokenAddress router wallet;
  _ ← match approvalTx with
      | Some tx => callUnit (TxWait tx)
      | None => Ret tt
      end;
  ethBalance ← callNum (GetBalance (w_address wallet));
  if ethBalance <? minGasNeeded then Throw (insufficientEthMessage ethBalance) else
  if String.eqb (p_dex params) "Uniswap V3" then
    let swapParams := mkV3Params tokenAddress WETH_BASE (fee_or_3000 (p_fee params))
                        (w_address wallet) amountInUnits 0 0 in
    let call := ExactInputSingle router swapParams None in
    gasLimit ← estimateGasWithBuffer call;
    callTx (SendSwap call gasLimit (maxFeePerGas gasData) (maxPriorityFeePerGas gasData))
  else if String.eqb (p_dex params) "Aerodrome" then
    let routes := [mkRoute tokenAddress WETH_BASE (stable_or_false (p_isStable params))] in
    amountOutMin ←
      try_catch
        (amounts ← callNums (AeroGetAmountsOut router amountInUnits routes);
         match amounts !! 1%nat with
         | Some a1 =>
             if a1 =? 0
             then Throw "Cannot sell: Zero liquidity on Aerodrome. You will get 0 ETH."
             else factor ← liftE (BigInt (js_sub (js_of_Z 100) slippage));
                  Ret (bigint_div (a1 * factor) 100)
         | None =>
             (* [undefined * BigInt(100 - slippage)]: the conversion comes first *)
             _ ← liftE (BigInt (js_sub (js_of_Z 100) slippage));
             Throw mix_error
         end)
        (fun e => if includes "Zero liquidity" e then Throw e else Ret 0);
    let call := AeroSwapExactTokensForETH router amountInUnits amountOutMin routes
                  (w_address wallet) deadline in
    gasLimit ← estimateGasWithBuffer call;
    callTx (SendSwap call gasLimit (maxFeePerGas gasData) (maxPriorityFeePerGas gasData))
  else
    (* Fallback: Uniswap V2 *)
    let path := [tokenAddress; WETH_BASE] in
    amountOutMin ←
      try_catch
        (amounts ← callNums (V2GetAmountsOut router amountInUnits path);
         match amounts !! 1%nat with
         | Some a1 =>
             if a1 =? 0
             then Throw "Cannot sell: Zero liquidity on Uniswap V2. You will get 0 ETH."
             else factor ← liftE (BigInt (js_sub (js_of_Z 100) slippage));
                  Ret (bigint_div (a1 * factor) 100)
         | None =>
             (* [undefined * BigInt(100 - slippage)]: the conversion comes first *)
             _ ← liftE (BigInt (js_sub (js_of_Z 100) slippage));
             Throw mix_error
         end)
        (fun e => if includes "Zero liquidity" e then Throw e else Ret 0);
    let call := V2SwapExactTokensForETH router amountInUnits amountOutMin path
                  (w_address wallet) deadline in
    gasLimit ← estimateGasWithBuffer call;
    callTx (SendSwap call gasLimit (maxFeePerGas gasData) (maxPriorityFeePerGas gasData)).

End Trading.

(** ** src/lib/prices.ts: the cached native price *)

(** Chainlink ETH/USD price feed on Base. *)
Definition ETH_USD_FEED : address := "0x71041dddad3595F9CEd3DcCFBe3D1F4b0a16Bb70".

(** The module variable [_ethPriceCache]; [null] is [None].  The price is a
    JavaScript number, kept here as the exact quotient. *)
Record PriceCache := mkPriceCache { price : Q; timestamp : Z }.

Definition CACHE_TTL : Z := 30000. (* 30s *)

(** [_ethPriceCache?.price || 0]. *)
Definition cached_or_zero (cache : option PriceCache) : Q :=
  match cache with
  | Some c => if Qeq_bool (price c) 0 then 0%Q else price c
  | None => 0%Q
  end.

(** The body of the [try] block of [fetchEthPrice]: read the feed, scale the
    answer, store it with the time of the read. *)
Definition readFeedBody : Prog (Q * option PriceCache) :=
  round ← callNums (FeedLatestRoundData ETH_USD_FEED);
  answer ← match round !! 1%nat with
           | Some a => Ret a
           | None => Throw decode_error
           end;
  feedDecimals ← callNum (FeedDecimals ETH_USD_FEED);
  let p := Qdiv (inject_Z answer) (inject_Z (10 ^ feedDecimals)) in
  now ← dateNow;
  Ret (p, Some (mkPriceCache p now)).

(** The [try { ... } catch { ... }] half of [fetchEthPrice]. *)
Definition readFeed (cache : option PriceCache) : Prog (Q * option PriceCache) :=
  try_catch readFeedBody (fun _ => Ret (cached_or_zero cache, cache)).

(** Fetch ETH/USD price from Chainlink on Base.  Takes the cache and returns
    the price with the cache as the call leaves it. *)
Definition fetchEthPrice (cache : option PriceCache) : Prog (Q * option PriceCache) :=
  match cache with
  | Some c =>
      now ← dateNow;
      if now - timestamp c <? CACHE_TTL then Ret (price c, cache)
      else readFeed cache
  | None => readFeed cache
  end.

(** ** src/lib/wallet.ts: key custody *)

Definition bytes := list Byte.byte.

(** The browser primitives behind [crypto.subtle], [TextEncoder],
    [TextDecoder], [btoa] and [atob]. *)
Class WebCrypto := {
  CryptoKey : Type;
  (* importKey + deriveKey: password bytes, salt, iterations, hash, key bits *)
  pbkdf2 : bytes -> bytes -> Z -> string -> Z -> CryptoKey;
  aes_gcm_encrypt : CryptoKey -> bytes -> bytes -> bytes;
  aes_gcm_decrypt : CryptoKey -> bytes -> bytes -> Error + bytes;
  utf8_encode : string -> bytes;
  utf8_decode : bytes -> string;
  (* btoa(String.fromCharCode(...b)) and Uint8Array.from(atob(s), charCodeAt) *)
  btoa_bytes : bytes -> string;
  atob_bytes : string -> Error + bytes
}.

(** The entropy behind [crypto.getRandomValues]: an unbounded tape of random
    bytes and the position of the next unread one. *)
Record Rng := mkRng { tape : nat -> Byte.byte; pos : nat }.

Definition getRandomValues (n : nat) (g : Rng) : bytes * Rng :=
  (map (tape g) (seq (pos g) n), mkRng (tape g) (pos g + n)%nat).

Definition STORAGE_KEY : string := "plt_encrypted_wallet".

Section Custody.
Context {wc : WebCrypto} {ethers : EthersLib}.

Definition deriveKey (password : string) (salt : bytes) : CryptoKey :=
  pbkdf2 (utf8_encode password) salt 100000 "SHA-256" 256.

Definition encryptKey (privateKey password : string) (g : Rng) : string * Rng :=
  let '(salt, g1) := getRandomValues 16 g in
  let '(iv, g2) := getRandomValues 12 g1 in
  let key := deriveKey password salt in
  let encrypted := aes_gcm_encrypt key iv (utf8_encode privateKey) in
  (* Store as base64: salt + iv + ciphertext *)
  let combined := (salt ++ iv ++ encrypted)%list in
  (btoa_bytes combined, g2).

Definition decryptKey (encryptedB64 password : string) : Error + string :=
  match atob_bytes encryptedB64 with
  | inl e => inl e
  | inr combined =>
      let salt := take 16 combined in
      let iv := take 12 (drop 16 combined) in
      let ciphertext := drop 28 combined in
      let key := deriveKey password salt in
      match aes_gcm_decrypt key iv ciphertext with
      | inl e => inl e
      | inr decrypted => inr (utf8_decode decrypted)
      end
  end.

(** [localStorage] is a finite map from keys to strings. *)
Definition saveEncryptedKey (encrypted : string) (ls : gmap string string)
  : gmap string string := <[STORAGE_KEY := encrypted]> ls.

Definition loadEncryptedKey (ls : gmap string string) : option string :=
  ls !! STORAGE_KEY.

Definition clearStoredKey (ls : gmap string string) : gmap string string :=
  delete STORAGE_KEY ls.

(** [!!localStorage.getItem(STORAGE_KEY)]: the empty string is falsy. *)
Definition truthy (s : string) : bool := negb (String.eqb s "").

Definition hasStoredKey (ls : gmap string string) : bool :=
  match ls !! STORAGE_KEY with
  | Some s => truthy s
  | None => false
  end.

(** [String.prototype.trim].  A string here is a sequence of code units
    below 256; of the white space and line terminators that [trim] strips,
    these are the ones in that range: U+0009 to U+000D, U+0020 and the
    no-break space U+00A0. *)
Definition is_space (c : ascii) : bool :=
  let n := nat_of_ascii c in
  ((9 <=? n) && (n <=? 13) || (n =? 32) || (n =? 160))%nat.

Fixpoint trim_start (s : string) : string :=
  match s with
  | String c s' => if is_space c then trim_start s' else s
  | EmptyString => EmptyString
  end.

Fixpoint trim_end (s : string) : string :=
  match s with
  | String c s' =>
      match trim_end s' with
      | EmptyString => if is_space c then EmptyString else String c EmptyString
      | t => String c t
      end
  | EmptyString => EmptyString
  end.

Definition trim (s : string) : string := trim_end (trim_start s).

Definition is_hex (c : ascii) : bool :=
  let n := nat_of_ascii c in
  ((48 <=? n) && (n <=? 57) || (65 <=? n) && (n <=? 70) || (97 <=? n) && (n <=? 102))%nat.

Fixpoint all_chars (f : ascii -> bool) (s : string) : bool :=
  match s with
  | EmptyString => true
  | String c s' => f c && all_chars f s'
  end.

(** [/^0x[0-9a-fA-F]{64}$/.test(key)]. *)
Definition key_regex (key : string) : bool :=
  String.prefix "0x" key && (String.length key =? 66)%nat
  && all_chars is_hex (String.substring 2 64 key).

(** What [new ethers.Wallet(key)] keeps as [privateKey]: the key bytes
    written out again in lower-case hexadecimal ([hexlify]). *)
Definition lower_hex_digit (c : ascii) : ascii :=
  let n := nat_of_ascii c in
  if ((65 <=? n) && (n <=? 70))%nat then ascii_of_nat (n + 32) else c.

Fixpoint hexlify (key : string) : string :=
  match key with
  | EmptyString => EmptyString
  | String c rest => String (lower_hex_digit c) (hexlify rest)
  end.

(** Connect a hot wallet from a raw private key.
    Returns the connected wallet or throws. *)
Definition connectHotWallet (privateKey : string) : Error + Wallet :=
  let key := trim privateKey in
  let key := if String.prefix "0x" key then key else "0x" ++ key in
  if negb (key_regex key) then inl "Invalid private key format"
  else match computeAddress key with
       | inl e => inl e
       | inr a => inr (mkWallet a (hexlify key))
       end.

(** [addr.slice(0, 6) + "..." + addr.slice(-4)]. *)
Definition shortenAddress (addr : string) : string :=
  String.substring 0 6 addr ++ "..."
  ++ String.substring (String.length addr - 4) 4 addr.

End Custody.

(** ** src/hooks/useWallet.ts: the wallet session *)

(** Number formatting used only for display. *)
Class Display := {
  toFixed6 : string -> string;          (* parseFloat(bal).toFixed(6) *)
  formatUsdOf : string -> Q -> string   (* formatUsd(parseFloat(bal) * ethPrice) *)
}.

Record WalletState := mkWalletState {
  ws_wallet : option Wallet;
  ws_address : string;
  ws_shortAddress : string;
  ws_balance : string;
  ws_balanceUsd : string;
  ws_ethPrice : Q;
  ws_isConnected : bool;
  ws_isLoading : bool;
  ws_hasStored : bool
}.

(** Everything that outlives one call: browser storage, the price cache of
    [prices.ts] and the entropy source. *)
Record Mem := mkMem {
  localStorage : gmap string string;
  ethPriceCache : option PriceCache;
  rng : Rng
}.

(** [setState((prev) => ({ ...prev, isLoading: false }))]. *)
Definition stopLoading (st : WalletState) : WalletState :=
  mkWalletState (ws_wallet st) (ws_address st) (ws_shortAddress st) (ws_balance st)
    (ws_balanceUsd st) (ws_ethPrice st) (ws_isConnected st) false (ws_hasStored st).

Definition disconnectedState : WalletState :=
  mkWalletState None "" "" "0.0000" "$0.00" 0%Q false false false.

Section UseWallet.
Context {wc : WebCrypto} {ethers : EthersLib} {disp : Display}.

Definition connectedState (wallet : Wallet) (bal : string) (ethPrice : Q) : WalletState :=
  mkWalletState (Some wallet) (w_address wallet) (shortenAddress (w_address wallet))
    (toFixed6 bal) (formatUsdOf bal ethPrice) ethPrice true false true.

(** [useState] initial value. *)
Definition initialState (m : Mem) : WalletState :=
  mkWalletState None "" "" "0.0000" "$0.00" 0%Q false false (hasStoredKey (localStorage m)).

(** [connect(privateKey, password)].  The two reads under [Promise.all] are
    issued in array order; the outcome carries the new state, the new memory
    and whether the returned promise rejects. *)
Definition connect (privateKey password : string) (st : WalletState) (m : Mem)
  : Prog (WalletState * Mem * (Error + unit)) :=
  match connectHotWallet privateKey with
  | inl err => Ret (stopLoading st, m, inl err)
  | inr wallet =>
      let '(encrypted, g') := encryptKey privateKey password (rng m) in
      let ls' := saveEncryptedKey encrypted (localStorage m) in
      rb ← rawCall (GetBalance (w_address wallet));
      pc ← fetchEthPrice (ethPriceCache m);
      let m' := mkMem ls' (snd pc) g' in
      match rb with
      | VNum balance =>
          Ret (connectedState wallet (formatEther balance) (fst pc), m', inr tt)
      | VErr err => Ret (stopLoading st, m', inl err)
      | _ => Ret (stopLoading st, m', inl decode_error)
      end
  end.

(** [unlock(password)]. *)
Definition unlock (password : string) (st : WalletState) (m : Mem)
  : Prog (WalletState * Mem * (Error + unit)) :=
  match loadEncryptedKey (localStorage m) with
  | None => Ret (stopLoading st, m, inl "No stored wallet")
  | Some encrypted =>
      if negb (truthy encrypted) then Ret (stopLoading st, m, inl "No stored wallet")
      else
        match decryptKey encrypted password with
        | inl err => Ret (stopLoading st, m, inl err)
        | inr privateKey =>
            match connectHotWallet privateKey with
            | inl err => Ret (stopLoading st, m, inl err)
            | inr wallet =>
                rb ← rawCall (GetBalance (w_address wallet));
                pc ← fetchEthPrice (ethPriceCache m);
                let m' := mkMem (localStorage m) (snd pc) (rng m) in
                match rb with
                | VNum balance =>
                    Ret (connectedState wallet (formatEther balance) (fst pc), m', inr tt)
                | VErr err => Ret (stopLoading st, m', inl err)
                | _ => Ret (stopLoading st, m', inl decode_error)
                end
            end
        end
  end.

(** [disconnect()]. *)
Definition disconnect (st : WalletState) (m : Mem) : WalletState * Mem :=
  (disconnectedState,
   mkMem (clearStoredKey (localStorage m)) (ethPriceCache m) (rng m)).

End UseWallet.

(** ** Scenarios and trace predicates used in the statements below *)

(** A program is [total] when it returns a value in every world. *)
Definition total {A : Type} (p : Prog A) : Prop :=
  forall (w : World) (h : list Event), exists h' a, run w h p = (h', inr a).


(** A token and a pool address for the concrete scenarios. *)
Definition TOKEN : address := "0x1111111111111111111111111111111111111111".
Definition POOL : address := "0x2222222222222222222222222222222222222222".

(** Only the V3 factory knows the token (fee tier 0.3%), and that pool holds
    no wrapped native asset at all. *)
Definition world_v3_empty_pool : World :=
  mkWorld
    (fun _ c =>
       match c with
       | FactoryGetPair _ _ _ => VAddr ZeroAddress
       | FactoryGetPool _ _ _ f => if f =? 3000 then VAddr POOL else VAddr ZeroAddress
       | Erc20BalanceOf _ _ => VNum 0
       | _ => VErr "unexpected call"
       end)
    (fun _ => 1700000000000).

(** A stand-in for the ethers helpers, exact on the inputs the scenarios use:
    [parseUnits] on whole-number strings with an optional minus sign,
    [formatEther] on non-negative amounts; address derivation is a fixed
    address. *)
Fixpoint digits_value (s : string) (acc : Z) : option Z :=
  match s with
  | EmptyString => Some acc
  | String c s' =>
      let n := Z.of_nat (nat_of_ascii c) in
      if (48 <=? n) && (n <=? 57) then digits_value s' (10 * acc + (n - 48)) else None
  end.

Definition unsigned_parseUnits (amount : string) (decimals : Z) : Error + Z :=
  match amount with
  | EmptyString => inl "invalid FixedNumber string value"
  | _ => match digits_value amount 0 with
         | Some n => inr (n * 10 ^ decimals)
         | None => inl "invalid FixedNumber string value"
         end
  end.

Definition whole_parseUnits (amount : string) (decimals : Z) : Error + Z :=
  match amount with
  | String "-" digits =>
      match unsigned_parseUnits digits decimals with
      | inr n => inr (- n)
      | inl e => inl e
      end
  | _ => unsigned_parseUnits amount decimals
  end.

Fixpoint show_digits (fuel : nat) (n : Z) (acc : string) : string :=
  match fuel with
  | O => acc
  | S fuel' =>
      let acc' := String (ascii_of_nat (48 + Z.to_nat (n mod 10))) acc in
      if n / 10 =? 0 then acc' else show_digits fuel' (n / 10) acc'
  end.

Definition show_Z (n : Z) : string := show_digits (S (Z.to_nat (Z.log2 n))) n "".

Fixpoint strip_zeros_end (s : string) : string :=
  match s with
  | EmptyString => EmptyString
  | String c s' =>
      match strip_zeros_end s' with
      | EmptyString => if Ascii.eqb c "0" then EmptyString else String c EmptyString
      | t => String c t
      end
  end.

Definition decimal_formatEther (wei : Z) : string :=
  let frac := strip_zeros_end (String.substring 1 18 (show_Z (10 ^ 18 + wei mod 10 ^ 18))) in
  show_Z (wei / 10 ^ 18) ++ "." ++ (if String.eqb frac "" then "0" else frac).

Definition WALLET_ADDRESS : address := "0x3333333333333333333333333333333333333333".

#[local] Instance scenario_ethers : EthersLib := {
  parseUnits := whole_parseUnits;
  formatEther := decimal_formatEther;
  computeAddress := fun _ => inr WALLET_ADDRESS
}.

Definition scenario_wallet : Wallet := mkWallet WALLET_ADDRESS "".

(** How [estimateGasWithBuffer] turns the answer to a simulation into a limit. *)
Definition buffered (v : Value) : Z :=
  match decodeNum v with
  | inr estimated => bigint_div (estimated * 130) 100
  | inl _ => 300000
  end.

(** The floor a non-zero quote leads to: [quote * BigInt(100 - slippage) / 100]
    when the conversion succeeds, and zero when it throws, since the [catch]
    of the quote swallows the RangeError. *)
Definition quoted_floor (q : Z) (slippage : JsNumber) : Z :=
  match BigInt (js_sub (js_of_Z 100) slippage) with
  | inr factor => bigint_div (q * factor) 100
  | inl _ => 0
  end.

(** The quoting calls, and the calls of the swap stage (quote, simulation,
    broadcast). *)
Definition is_quote (c : Call) : bool :=
  match c with
  | V2GetAmountsOut _ _ _ | AeroGetAmountsOut _ _ _ => true
  | _ => false
  end.

Definition is_swap_stage (c : Call) : bool :=
  match c with
  | V2GetAmountsOut _ _ _ | AeroGetAmountsOut _ _ _ | EstimateGas _ | SendSwap _ _ _ _ => true
  | _ => false
  end.

(** The minimum-output argument of a swap invocation. *)
Definition swap_amountOutMin (s : SwapCall) : Z :=
  match s with
  | ExactInputSingle _ prm _ => amountOutMinimum prm
  | AeroSwapExactETHForTokens _ m _ _ _ _ => m
  | AeroSwapExactTokensForETH _ _ m _ _ _ => m
  | V2SwapExactETHForTokens _ m _ _ _ _ => m
  | V2SwapExactTokensForETH _ _ m _ _ _ => m
  end.

(** The floor carried by a simulation or a broadcast. *)
Definition call_amountOutMin (c : Call) : option Z :=
  match c with
  | EstimateGas s | SendSwap s _ _ _ => Some (swap_amountOutMin s)
  | _ => None
  end.



(** A chain where every call succeeds: the wallet holds [tokenBalance] token
    units and [ethBalance] wei, the router is approved for [allowance], and
    every quote answers [quoted]. *)
Definition scenario_world (tokenBalance allowance ethBalance quoted : Z) : World :=
  mkWorld
    (fun _ c =>
       match c with
       | GetFeeData => VFee (mkFeeData (Some 6000000) (Some 5000000))
       | GetBalance _ => VNum ethBalance
       | Erc20Decimals _ => VNum 18
       | Erc20BalanceOf _ _ => VNum tokenBalance
       | Erc20Allowance _ _ _ => VNum allowance
       | Erc20Approve _ _ _ => VTx "0xa1"
       | TxWait _ => VUnit
       | V2GetAmountsOut _ a _ => VNums [a; quoted]
       | AeroGetAmountsOut _ a _ => VNums [a; quoted]
       | EstimateGas _ => VNum 200000
       | SendSwap _ _ _ _ => VTx "0xb2"
       | _ => VErr "unexpected call"
       end)
    (fun _ => 1700000000000).

Definition scenario_params (dexName : string) (rtr : address) (slippage : Z) : TradeParams :=
  mkTradeParams TOKEN "1" (js_of_Z slippage) scenario_wallet dexName rtr None None.

(** [mode === "buy" ? await executeBuy(params) : await executeSell(params)]
    in the trade panel. *)
Inductive Mode := Buy | Sell.

Definition execute {ethers : EthersLib} (mode : Mode) (params : TradeParams) : Prog TxHash :=
  match mode with
  | Buy => executeBuy params
  | Sell => executeSell params
  end.

(** A sell of one token on a V2 route at 15% slippage, with 5 tokens and
    1 ETH in the wallet, the router already approved and a quote of
    1,000,000 wei. *)
Definition wealthy_world : World := scenario_world (5 * 10 ^ 18) MaxUint256 (10 ^ 18) 1000000.
Definition v2_params : TradeParams := scenario_params "Uniswap V2" UNISWAP_V2_ROUTER 15.
Definition v2_sell_call : SwapCall :=
  V2SwapExactTokensForETH UNISWAP_V2_ROUTER (10 ^ 18) 850000 [TOKEN; WETH_BASE]
    WALLET_ADDRESS 1700000300.

(** The same wallet with too little of everything: no allowance yet and
    0.0000005 ETH left once the approval is mined. *)
Definition low_gas_world : World := scenario_world (5 * 10 ^ 18) 0 (5 * 10 ^ 11) 1000000.


(** Every quoting function answers zero. *)
Definition zero_quote_world : World := scenario_world (5 * 10 ^ 18) MaxUint256 (10 ^ 18) 0.

Definition v3_params : TradeParams := scenario_params "Uniswap V3" UNISWAP_V3_ROUTER 15.

Definition scenario_fee : Value := VFee (mkFeeData (Some 6000000) (Some 5000000)).




(** The trade panel with ".5" typed as slippage: [parseFloat] lets it through
    and [parseInt] makes it NaN. *)
Definition nan_params : TradeParams :=
  mkTradeParams TOKEN "1" NaN scenario_wallet "Uniswap V2" UNISWAP_V2_ROUTER None None.

(** The integer percentages from 0 to 100. *)
Definition percentages : list Z := map Z.of_nat (seq 0 101).


(** A feed that answers 2000.00000000 USD, read at time [t]. *)
Definition feed_world (t : Z) : World :=
  mkWorld
    (fun _ c =>
       match c with
       | FeedLatestRoundData _ => VNums [1; 200000000000; 0; 0; 1]
       | FeedDecimals _ => VNum 8
       | _ => VErr "unexpected call"
       end)
    (fun _ => t).

(** An unreachable feed. *)
Definition feed_down_world (t : Z) : World :=
  mkWorld (fun _ _ => VErr "network error") (fun _ => t).

(** The cache is stale (or empty) at history [h]. *)
Definition stale (w : World) (h : list Event) (cache : option PriceCache) : Prop :=
  match cache with
  | Some c => CACHE_TTL <= clock w h - timestamp c
  | None => True
  end.

(** ** Custody: what is assumed of the browser primitives *)

(** [n] NUL characters. *)
Fixpoint nuls (n : nat) : string :=
  match n with
  | O => EmptyString
  | S n' => String Ascii.zero (nuls n')
  end.

(** The functional specifications of the primitives, each a fact about the
    browser's own implementation: AES-GCM decrypts what it encrypted under
    the same key and nonce; [atob] undoes [btoa]; a string of code units
    below 256 survives UTF-8 encoding and decoding, its encoding is the
    concatenation of the encodings of its parts, and NUL is encoded as the
    byte 0; and PBKDF2 uses the password as an HMAC key, which HMAC pads with
    zero bytes to the 64-byte block of SHA-256.  Nothing is assumed about
    what decryption does under another key. *)
Class WebCryptoLaws (wc : WebCrypto) : Prop := {
  aes_gcm_correct : forall k iv m,
    aes_gcm_decrypt k iv (aes_gcm_encrypt k iv m) = inr m;
  base64_roundtrip : forall b, atob_bytes (btoa_bytes b) = inr b;
  utf8_roundtrip : forall s, utf8_decode (utf8_encode s) = s;
  utf8_encode_app : forall s t,
    utf8_encode (s ++ t) = (utf8_encode s ++ utf8_encode t)%list;
  utf8_encode_nul : utf8_encode (String Ascii.zero EmptyString) = [Byte.x00];
  pbkdf2_hmac_padding : forall (pw salt : bytes) (n : nat) (iterations bits : Z),
    (length pw + n <= 64)%nat ->
    pbkdf2 (pw ++ repeat Byte.x00 n)%list salt iterations "SHA-256" bits
    = pbkdf2 pw salt iterations "SHA-256" bits
}.

(** A toy instance of the primitives, good only to show that the contracts
    can be met: the key is the password padded with zero bytes to 64 bytes, a
    ciphertext is the plaintext behind a header that spells the key, text and
    base64 are byte-for-byte. *)
Definition toy_pad (pw : bytes) : bytes := (pw ++ repeat Byte.x00 (64 - length pw))%list.

Definition toy_header (k : bytes) : bytes :=
  (repeat Byte.x01 (length k) ++ Byte.x00 :: k)%list.

#[local] Instance byte_eq_decision : EqDecision Byte.byte := Stdlib.Strings.Byte.byte_eq_dec.

Definition bytes_eqb (a b : bytes) : bool := bool_decide (a = b).

Definition toy_encrypt (k iv m : bytes) : bytes := (toy_header k ++ m)%list.

Definition toy_decrypt (k iv ct : bytes) : Error + bytes :=
  if bytes_eqb (take (length (toy_header k)) ct) (toy_header k)
  then inr (drop (length (toy_header k)) ct)
  else inl "The operation failed for an operation-specific reason".

#[local] Instance toy_crypto : WebCrypto := {
  CryptoKey := bytes;
  pbkdf2 := fun pw _ _ _ _ => toy_pad pw;
  aes_gcm_encrypt := toy_encrypt;
  aes_gcm_decrypt := toy_decrypt;
  utf8_encode := list_byte_of_string;
  utf8_decode := string_of_list_byte;
  btoa_bytes := string_of_list_byte;
  atob_bytes := fun s => inr (list_byte_of_string s)
}.

#[local] Instance toy_display : Display := {
  toFixed6 := fun s => s;
  formatUsdOf := fun s _ => s
}.

Definition KEY64 : string :=
  "4c0883a69102937d6231471b5dbb6204fe5129617082792ae468d01a3f362318".

Definition zero_rng : Rng := mkRng (fun _ => Byte.x00) 0.

(** Only the 0.05% tier of the V3 factory knows the token. *)
Definition world_v3_low_tier : World :=
  mkWorld
    (fun _ c =>
       match c with
       | FactoryGetPair _ _ _ => VAddr ZeroAddress
       | FactoryGetPool _ _ _ f => if f =? 500 then VAddr POOL else VAddr ZeroAddress
       | _ => VErr "unexpected call"
       end)
    (fun _ => 1700000000000).

(** A V2 pair that exists but holds no wrapped native asset, and a funded
    Aerodrome pair. *)
Definition PAIR_V2 : address := "0x4444444444444444444444444444444444444444".
Definition PAIR_AERO : address := "0x5555555555555555555555555555555555555555".

Definition world_empty_v2_pair : World :=
  mkWorld
    (fun _ c =>
       match c with
       | FactoryGetPair f _ _ =>
           if String.eqb f UNISWAP_V2_FACTORY then VAddr PAIR_V2 else VAddr PAIR_AERO
       | Erc20BalanceOf _ owner => if String.eqb owner PAIR_V2 then VNum 0 else VNum 7
       | _ => VErr "unexpected call"
       end)
    (fun _ => 1700000000000).

(** ** src/lib/tokens.ts: token reference and token metadata *)

(** Two more helpers of the ethers library: checksumming (throws on a bad
    mixed-case checksum) and decoding of a [bytes32] string. *)
Class EthersText := {
  getAddress : string -> Error + address;
  decodeBytes32String : string -> Error + string
}.

(** Does [/0x[0-9a-fA-F]{40}/] match at the very start of [s]? *)
Definition address_at (s : string) : bool :=
  String.prefix "0x" s && (42 <=? String.length s)%nat
  && all_chars is_hex (String.substring 2 40 s).

(** [input.match(/0x[0-9a-fA-F]{40}/)]: the leftmost match, if any. *)
Fixpoint regex_match (input : string) : option string :=
  if address_at input then Some (String.substring 0 42 input)
  else match input with
       | EmptyString => None
       | String _ rest => regex_match rest
       end.

Record TokenInfo := mkTokenInfo {
  ti_address : address;
  ti_name : string;
  ti_symbol : string;
  ti_decimals : Z
}.

(** What a token contract answers to each of the five metadata reads, and
    the reads themselves. *)
Record Erc20Answers := mkErc20Answers {
  on_decimals : Error + Z;
  on_name : Error + string;
  on_symbol : Error + string;
  on_name32 : Error + string;
  on_symbol32 : Error + string
}.

Inductive TokenRead := ReadDecimals | ReadName | ReadName32 | ReadSymbol | ReadSymbol32.

Section Tokens.
Context {text : EthersText}.

(** Extract a token address from a string or URL (BaseScan, DexScreener, etc).
    [inr None] is [null]; [inl] is the error thrown by [ethers.getAddress]. *)
Definition extractTokenAddress (input : string) : Error + option address :=
  match regex_match input with
  | Some addrMatch =>
      match getAddress addrMatch with
      | inl e => inl e
      | inr a => inr (Some a)
      end
  | None => inr None
  end.

(** "Try string first, fallback to bytes32": the text that results and the
    reads that were made. *)
Definition readText (str b32 : Error + string) (dflt : string) (r r32 : TokenRead)
  : string * list TokenRead :=
  match str with
  | inr s => (s, [r])
  | inl _ =>
      match b32 with
      | inr raw =>
          (match decodeBytes32String raw with inr s => s | inl _ => dflt end, [r; r32])
      | inl _ => (dflt, [r; r32])
      end
  end.

(** Fetch token info with bytes32 fallback and caching.  [chain] gives the
    answers of the contract at an address; the result carries the info, the
    cache as the call leaves it and the reads made, in order. *)
Definition getTokenInfo (addr : string) (chain : address -> Erc20Answers)
    (tokenInfoCache : gmap string TokenInfo)
  : Error + (TokenInfo * gmap string TokenInfo * list TokenRead) :=
  match getAddress addr with
  | inl e => inl e
  | inr checksummed =>
      match tokenInfoCache !! checksummed with
      | Some cached => inr (cached, tokenInfoCache, [])
      | None =>
          let token := chain checksummed in
          let decimals := match on_decimals token with inr d => d | inl _ => 18 end in
          let '(name, nameReads) :=
            readText (on_name token) (on_name32 token) "Unknown" ReadName ReadName32 in
          let '(symbol, symbolReads) :=
            readText (on_symbol token) (on_symbol32 token) "???" ReadSymbol ReadSymbol32 in
          let info := mkTokenInfo checksummed name symbol decimals in
          inr (info, <[checksummed := info]> tokenInfoCache,
               (ReadDecimals :: nameReads ++ symbolReads)%list)
      end
  end.

End Tokens.

(** ** src/lib/provider.ts: endpoint configuration *)

Record EndpointConfig := mkEndpointConfig {
  ep_url : string;
  ep_chainId : Z;
  ep_priority : Z;
  ep_stallTimeout : Z;
  ep_weight : Z
}.

(** [ALCHEMY_KEY] is [import.meta.env.VITE_ALCHEMY_API_KEY || ""]. *)
Definition ALCHEMY_RPC (ALCHEMY_KEY : string) : string :=
  if truthy ALCHEMY_KEY
  then "https://base-mainnet.g.alchemy.com/v2/" ++ ALCHEMY_KEY
  else "https://mainnet.base.org".

Definition BASE_RPC_URLS (ALCHEMY_KEY : string) : list string :=
  [ALCHEMY_RPC ALCHEMY_KEY; "https://mainnet.base.org"; "https://base.llamarpc.com"].

(** The configuration [getBaseProvider] hands to [ethers.FallbackProvider]. *)
Definition fallbackConfigs (urls : list string) : list EndpointConfig :=
  imap (fun i url =>
          mkEndpointConfig url 8453 (Z.of_nat i + 1)
            (if (i =? 0)%nat then 3000 else 2000)
            (if (i =? 0)%nat then 3 else 1))
       urls.

(** ** src/hooks/useWallet.ts: balance refresh *)

Section RefreshBalance.
Context {ethers : EthersLib} {disp : Display}.

(** [refreshBalance(address)]: errors are logged, never rethrown. *)
Definition refreshBalance (addr : string) (st : WalletState)
    (cache : option PriceCache) : Prog (WalletState * option PriceCache) :=
  rb ← rawCall (GetBalance addr);
  pc ← fetchEthPrice cache;
  match rb with
  | VNum balance =>
      let bal := formatEther balance in
      Ret (mkWalletState (ws_wallet st) (ws_address st) (ws_shortAddress st)
             (toFixed6 bal) (formatUsdOf bal (fst pc)) (fst pc)
             (ws_isConnected st) (ws_isLoading st) (ws_hasStored st),
           snd pc)
  | _ => Ret (st, snd pc)
  end.

End RefreshBalance.

(** ** src/components/TradePanel.tsx: submitting a trade *)

(** What the panel ends up showing. *)
Inductive TradeToast :=
| NoToast
| TradeConfirmed (tx : TxHash)
| TradeFailed (reason : Error).

(** The [params] object of [handleTrade]; [slippage] is [parseInt(slippage)]. *)
Definition tradeParams (tokenAddress : address) (amount : string) (slippage : JsNumber)
    (wallet : Wallet) (liquidity : LiquidityResult) : TradeParams :=
  mkTradeParams tokenAddress amount slippage wallet (dex liquidity) (router liquidity)
    (fee liquidity) (isStable liquidity).

Section TradePanel.
Context {ethers : EthersLib}.

(** [handleTrade]: [canTrade] is the panel's guard; the trade is executed,
    its inclusion awaited, and every error ends in a toast. *)
Definition handleTrade (canTrade : bool) (mode : Mode) (wallet : option Wallet)
    (tokenAddress : option address) (liquidity : option LiquidityResult)
    (amount : string) (slippage : JsNumber) : Prog TradeToast :=
  match canTrade, wallet, tokenAddress, liquidity with
  | true, Some w, Some t, Some l =>
      try_catch
        (tx ← execute mode (tradeParams t amount slippage w l);
         _ ← callUnit (TxWait tx);
         Ret (TradeConfirmed tx))
        (fun err => Ret (TradeFailed err))
  | _, _, _, _ => Ret NoToast
  end.

End TradePanel.

(** ** Reading a swap invocation *)

Definition swap_router (s : SwapCall) : address :=
  match s with
  | ExactInputSingle r _ _ => r
  | AeroSwapExactETHForTokens r _ _ _ _ _ => r
  | AeroSwapExactTokensForETH r _ _ _ _ _ => r
  | V2SwapExactETHForTokens r _ _ _ _ _ => r
  | V2SwapExactTokensForETH r _ _ _ _ _ => r
  end.

Definition swap_recipient (s : SwapCall) : address :=
  match s with
  | ExactInputSingle _ prm _ => recipient prm
  | AeroSwapExactETHForTokens _ _ _ to _ _ => to
  | AeroSwapExactTokensForETH _ _ _ _ to _ => to
  | V2SwapExactETHForTokens _ _ _ to _ _ => to
  | V2SwapExactTokensForETH _ _ _ _ to _ => to
  end.

(** The hops of a swap, as (from, to) pairs. *)
Fixpoint path_hops (path : list address) : list (address * address) :=
  match path with
  | a :: ((b :: _) as rest) => (a, b) :: path_hops rest
  | _ => []
  end.

Definition swap_hops (s : SwapCall) : list (address * address) :=
  match s with
  | ExactInputSingle _ prm _ => [(tokenIn prm, tokenOut prm)]
  | AeroSwapExactETHForTokens _ _ routes _ _ _
  | AeroSwapExactTokensForETH _ _ _ routes _ _ =>
      map (fun r => (r_from r, r_to r)) routes
  | V2SwapExactETHForTokens _ _ path _ _ _
  | V2SwapExactTokensForETH _ _ _ path _ _ => path_hops path
  end.

(** The native value attached to the invocation. *)
Definition swap_value (s : SwapCall) : option Z :=
  match s with
  | ExactInputSingle _ _ v => v
  | AeroSwapExactETHForTokens _ _ _ _ _ v => Some v
  | V2SwapExactETHForTokens _ _ _ _ _ v => Some v
  | _ => None
  end.

(** The router interface an invocation is written against. *)
Definition swap_family (s : SwapCall) : string :=
  match s with
  | ExactInputSingle _ _ _ => "Uniswap V3"
  | AeroSwapExactETHForTokens _ _ _ _ _ _ | AeroSwapExactTokensForETH _ _ _ _ _ _ => "Aerodrome"
  | V2SwapExactETHForTokens _ _ _ _ _ _ | V2SwapExactTokensForETH _ _ _ _ _ _ => "Uniswap V2"
  end.

(** The family [executeBuy] and [executeSell] dispatch a [dex] name to. *)
Definition dispatched_family (dexName : string) : string :=
  if String.eqb dexName "Uniswap V3" then "Uniswap V3"
  else if String.eqb dexName "Aerodrome" then "Aerodrome"
  else "Uniswap V2".

(** The fee tier of a V3 invocation and the stability flags of the hops. *)
Definition swap_fee (s : SwapCall) : option Z :=
  match s with
  | ExactInputSingle _ prm _ => Some (v3fee prm)
  | _ => None
  end.

Definition swap_stable (s : SwapCall) : list bool :=
  match s with
  | AeroSwapExactETHForTokens _ _ routes _ _ _
  | AeroSwapExactTokensForETH _ _ _ routes _ _ => map r_stable routes
  | _ => []
  end.

(** The text the [catch] around a quote looks for before rethrowing. *)
Definition quote_marker (mode : Mode) : string :=
  match mode with
  | Buy => "No liquidity"
  | Sell => "Zero liquidity"
  end.

(** The (tokenIn, tokenOut) pair of a trade. *)
Definition trade_hop (mode : Mode) (p : TradeParams) : address * address :=
  match mode with
  | Buy => (WETH_BASE, p_tokenAddress p)
  | Sell => (p_tokenAddress p, WETH_BASE)
  end.

(** The calls one V2-style probe can make: the factory lookup, then possibly
    the balance read of the pair it answered. *)
Definition v2_probe_calls (factory token : address) (cs : list Call) : Prop :=
  cs = [FactoryGetPair factory token WETH_BASE]
  \/ exists pr, cs = [FactoryGetPair factory token WETH_BASE; Erc20BalanceOf WETH_BASE pr].

Definition call_swap (c : Call) : option SwapCall :=
  match c with
  | EstimateGas s | SendSwap s _ _ _ => Some s
  | _ => None
  end.

Definition is_send (c : Call) : bool :=
  match c with SendSwap _ _ _ _ => true | _ => false end.

Definition is_approve (c : Call) : bool :=
  match c with Erc20Approve _ _ _ => true | _ => false end.

(** The calls a buy may make. *)
Definition is_buy_call (c : Call) : bool :=
  match c with
  | GetFeeData | V2GetAmountsOut _ _ _ | AeroGetAmountsOut _ _ _
  | EstimateGas _ | SendSwap _ _ _ _ => true
  | _ => false
  end.

(** A chain where every call is rejected. *)
Definition dead_world : World :=
  mkWorld (fun _ _ => VErr "network error") (fun _ => 1700000000000).

(** A stand-in for the text helpers: no checksumming, text as it is. *)
#[local] Instance scenario_text : EthersText := {
  getAddress := fun a => inr a;
  decodeBytes32String := fun raw => inr raw
}.

(** A router that is unreachable for quotes but simulates and broadcasts. *)
Definition quote_down_world : World :=
  mkWorld
    (fun h c =>
       match c with
       | V2GetAmountsOut _ _ _ | AeroGetAmountsOut _ _ _ => VErr "missing revert data"
       | _ => rpc wealthy_world h c
       end)
    (fun _ => 1700000000000).

(** The string [connectHotWallet] tests and hands to the wallet: trimmed,
    with the [0x] prefix added when missing. *)
Definition normalizeKey (privateKey : string) : string :=
  let key := trim privateKey in
  if String.prefix "0x" key then key else "0x" ++ key.

(** A token whose metadata reads all fail, and one that answers in full. *)
Definition silent_token : Erc20Answers :=
  mkErc20Answers (inl "call revert") (inl "call revert") (inl "call revert")
    (inl "call revert") (inl "call revert").

Definition usdc_token : Erc20Answers :=
  mkErc20Answers (inr 6) (inr "USD Coin") (inr "USDC") (inl "call revert") (inl "call revert").


(** What the session state of [useWallet] should always satisfy: it shows a
    wallet's address exactly when it holds that wallet, and it is connected
    exactly then. *)
Definition session_consistent (st : WalletState) : Prop :=
  match ws_wallet st with
  | Some wl =>
      ws_isConnected st = true /\ ws_address st = w_address wl
      /\ ws_shortAddress st = shortenAddress (w_address wl)
  | None => ws_isConnected st = false /\ ws_address st = "" /\ ws_shortAddress st = ""
  end.
(** * Properties *)

(** ** Running programs *)

Lemma run_bind {A B : Type} (w : World) (p : Prog A) (f : A -> Prog B) (h : list Event) :
  run w h (bind p f) =
  match run w h p with
  | (h', inr a) => run w h' (f a)
  | (h', inl e) => (h', inl e)
  end.
Proof.
  revert h. induction p as [a | e | c k IH | k IH]; intros h; simpl; auto.
Qed.

Lemma run_mbind {A B : Type} (w : World) (p : Prog A) (f : A -> Prog B) (h : list Event) :
  run w h (p ≫= f) =
  match run w h p with
  | (h', inr a) => run w h' (f a)
  | (h', inl e) => (h', inl e)
  end.
Proof. apply run_bind. Qed.

Lemma run_try_catch {A : Type} (w : World) (p : Prog A) (k : Error -> Prog A)
    (h : list Event) :
  run w h (try_catch p k) =
  match run w h p with
  | (h', inr a) => (h', inr a)
  | (h', inl e) => run w h' (k e)
  end.
Proof.
  revert h. induction p as [a | e | c k' IH | k' IH]; intros h; simpl; auto.
Qed.

(** A run only ever appends to the history. *)
Lemma run_extends {A : Type} (w : World) (p : Prog A) (h : list Event) :
  exists t, fst (run w h p) = (h ++ t)%list.
Proof.
  revert h. induction p as [a | e | c k IH | k IH]; intros h; simpl.
  - exists []. by rewrite app_nil_r.
  - exists []. by rewrite app_nil_r.
  - destruct (IH (rpc w h c) (h ++ [(c, rpc w h c)])%list) as [t Ht].
    exists ((c, rpc w h c) :: t). rewrite Ht. by rewrite <- app_assoc.
  - apply IH.
Qed.

(** ** Liquidity resolver *)

Lemma run_probeV2Style (w : World) (h : list Event) (factory : address) (name : string)
    (rtr token : address) :
  let g := FactoryGetPair factory token WETH_BASE in
  let h1 := (h ++ [(g, rpc w h g)])%list in
  run w h (probeV2Style factory name rtr token) =
  match rpc w h g with
  | VAddr pr =>
      if String.eqb pr ZeroAddress then (h1, inr None)
      else
        let b := Erc20BalanceOf WETH_BASE pr in
        let h2 := (h1 ++ [(b, rpc w h1 b)])%list in
        match rpc w h1 b with
        | VNum n =>
            if 0 <? n then (h2, inr (Some (mkLiquidityResult name rtr pr true None None)))
            else (h2, inr None)
        | _ => (h2, inr None)
        end
  | _ => (h1, inr None)
  end.
Proof.
  intros g h1. unfold probeV2Style. rewrite run_try_catch. simpl.
  subst g h1. destruct (rpc w h _) as [e| | |pr| | |] eqn:E; simpl; auto.
  destruct (String.eqb pr ZeroAddress) eqn:Ez; simpl; auto.
  destruct (rpc w _ (Erc20BalanceOf WETH_BASE pr)) as [e|n| | | | |]; simpl; auto.
  destruct (0 <? n); simpl; auto.
Qed.

Lemma total_ret {A : Type} (a : A) : total (Ret a).
Proof. intros w h. simpl. eauto. Qed.

Lemma total_mbind {A B : Type} (p : Prog A) (f : A -> Prog B) :
  total p -> (forall a, total (f a)) -> total (p ≫= f).
Proof.
  intros Hp Hf w h. rewrite run_mbind.
  destruct (Hp w h) as (h' & a & ->). apply Hf.
Qed.

Lemma total_swallow {A : Type} (p : Prog A) (a : A) :
  total (try_catch p (fun _ => Ret a)).
Proof.
  intros w h. rewrite run_try_catch.
  destruct (run w h p) as [h' [e | x]]; simpl; eauto.
Qed.

Lemma probeV3_total (token : address) (tiers : list Z) : total (probeV3 token tiers).
Proof.
  induction tiers as [|f tiers IH]; cbn [probeV3]; [apply total_ret|].
  apply total_mbind; [apply total_swallow|].
  intros [res|]; [apply total_ret | exact IH].
Qed.

(** Whatever the endpoints answer, route discovery returns a result. *)
Lemma checkLiquidityFast_never_throws (token : address) :
  total (checkLiquidityFast token).
Proof.
  unfold checkLiquidityFast, probeV2Style.
  apply total_mbind; [apply total_swallow|]. intros [res|]; [apply total_ret|].
  apply total_mbind; [apply total_swallow|]. intros [res|]; [apply total_ret|].
  apply total_mbind; [apply probeV3_total|]. intros [res|]; apply total_ret.
Qed.

Lemma probeV3_result (w : World) (token : address) (tiers : list Z)
    (h h' : list Event) (res : LiquidityResult) :
  run w h (probeV3 token tiers) = (h', inr (Some res)) ->
  dex res = "Uniswap V3" /\ hasLiquidity res = true /\ router res = UNISWAP_V3_ROUTER /\
  pairAddress res <> ZeroAddress /\
  exists f, fee res = Some f /\ In f tiers /\
    In (FactoryGetPool UNISWAP_V3_FACTORY token WETH_BASE f, VAddr (pairAddress res)) h'.
Proof.
  revert h. induction tiers as [|f tiers IH]; intros h; cbn [probeV3]; [discriminate|].
  rewrite run_mbind, run_try_catch. simpl.
  set (c := FactoryGetPool UNISWAP_V3_FACTORY token WETH_BASE f).
  destruct (rpc w h c) as [e| | |pool| | |] eqn:E; simpl;
    try (intros H; apply IH in H; destruct H as (?&?&?&?&f'&?&?&?);
         repeat split; auto; exists f'; repeat split; auto; by right).
  destruct (String.eqb pool ZeroAddress) eqn:Ez; simpl.
  - intros H; apply IH in H; destruct H as (?&?&?&?&f'&?&?&?).
    repeat split; auto; exists f'; repeat split; auto; by right.
  - intros H. inversion H; subst; simpl. repeat split; auto.
    + intros ->. by rewrite String.eqb_refl in Ez.
    + exists f. split; [done|]. split; [by left|]. apply in_or_app. right. by left.
Qed.

Lemma probeV2Style_result (w : World) (factory : address) (name : string)
    (rtr token : address) (h h' : list Event) (res : LiquidityResult) :
  run w h (probeV2Style factory name rtr token) = (h', inr (Some res)) ->
  dex res = name /\ hasLiquidity res = true /\ router res = rtr /\
  pairAddress res <> ZeroAddress /\
  In (FactoryGetPair factory token WETH_BASE, VAddr (pairAddress res)) h' /\
  exists n, 0 < n /\ In (Erc20BalanceOf WETH_BASE (pairAddress res), VNum n) h'.
Proof.
  rewrite run_probeV2Style. cbv zeta.
  destruct (rpc w h _) as [e| | |pr| | |] eqn:E; try discriminate.
  destruct (String.eqb pr ZeroAddress) eqn:Ez; [discriminate|].
  destruct (rpc w _ (Erc20BalanceOf WETH_BASE pr)) as [e|n| | | | |] eqn:Eb; try discriminate.
  destruct (0 <? n) eqn:En; [|discriminate].
  intros H. inversion H; subst; simpl. repeat split; auto.
  - intros ->. by rewrite String.eqb_refl in Ez.
  - apply in_or_app. left. apply in_or_app. right. by left.
  - exists n. split; [by apply Z.ltb_lt|]. apply in_or_app. right. by left.
Qed.

(** Events already in the history stay in it. *)
Lemma run_keeps {A : Type} (w : World) (p : Prog A) (h h' : list Event)
    (r : Error + A) (ev : Event) :
  run w h p = (h', r) -> In ev h -> In ev h'.
Proof.
  intros H Hin. destruct (run_extends w p h) as [t Ht].
  rewrite H in Ht. simpl in Ht. subst h'. apply in_or_app. by left.
Qed.

(** A route on one of the two V2-style families is only returned after the
    pool's wrapped-native balance was read and found strictly positive. *)
Lemma checkLiquidityFast_v2_style_confirmed (w : World) (token : address)
    (h' : list Event) (res : LiquidityResult) :
  run w [] (checkLiquidityFast token) = (h', inr res) ->
  hasLiquidity res = true ->
  dex res <> "Uniswap V3" ->
  pairAddress res <> ZeroAddress /\
  (router res = UNISWAP_V2_ROUTER \/ router res = AERODROME_ROUTER) /\
  exists n, 0 < n /\ In (Erc20BalanceOf WETH_BASE (pairAddress res), VNum n) h'.
Proof.
  unfold checkLiquidityFast. rewrite run_mbind.
  destruct (run w [] (probeV2Style UNISWAP_V2_FACTORY _ _ token)) as [h1 [e|[r1|]]] eqn:E1.
  - discriminate.
  - simpl. intros H; inversion H; subst. intros _ _.
    apply probeV2Style_result in E1. destruct E1 as (?&?&?&?&?&?). auto.
  - rewrite run_mbind.
    destruct (run w h1 (probeV2Style AERODROME_FACTORY _ _ token)) as [h2 [e|[r2|]]] eqn:E2.
    + discriminate.
    + simpl. intros H; inversion H; subst. intros _ _.
      apply probeV2Style_result in E2. destruct E2 as (?&?&?&?&?&?). auto.
    + rewrite run_mbind.
      destruct (run w h2 (probeV3 token feeTiers)) as [h3 [e|[r3|]]] eqn:E3.
      * discriminate.
      * simpl. intros H; inversion H; subst. intros _ Hd.
        apply probeV3_result in E3. destruct E3 as (?&_). contradiction.
      * simpl. intros H; inversion H; subst. simpl. discriminate.
Qed.

(** C1, evaluated on the code: with no V2 and no Aerodrome pair and a V3 pool
    (0.3% tier) whose wrapped-native balance is zero, the resolver probes
    V2, then Aerodrome, then V3, and returns the V3 pool with
    [hasLiquidity = true] without ever reading the pool's balance. *)
Theorem checkLiquidityFast_v3_empty_pool_accepted :
  run world_v3_empty_pool [] (checkLiquidityFast TOKEN) =
    ([ (FactoryGetPair UNISWAP_V2_FACTORY TOKEN WETH_BASE, VAddr ZeroAddress);
       (FactoryGetPair AERODROME_FACTORY TOKEN WETH_BASE, VAddr ZeroAddress);
       (FactoryGetPool UNISWAP_V3_FACTORY TOKEN WETH_BASE 3000, VAddr POOL) ],
     inr (mkLiquidityResult "Uniswap V3" UNISWAP_V3_ROUTER POOL true (Some 3000) None))
  /\ (forall h, rpc world_v3_empty_pool h (Erc20BalanceOf WETH_BASE POOL) = VNum 0).
Proof. split; [vm_compute; reflexivity | intros h; reflexivity]. Qed.

(** The probes go V2, Aerodrome, then V3 with the tiers 0.3%, 1%, 0.05%. *)
Example checkLiquidityFast_probe_order :
  run world_v3_low_tier [] (checkLiquidityFast TOKEN) =
    ([ (FactoryGetPair UNISWAP_V2_FACTORY TOKEN WETH_BASE, VAddr ZeroAddress);
       (FactoryGetPair AERODROME_FACTORY TOKEN WETH_BASE, VAddr ZeroAddress);
       (FactoryGetPool UNISWAP_V3_FACTORY TOKEN WETH_BASE 3000, VAddr ZeroAddress);
       (FactoryGetPool UNISWAP_V3_FACTORY TOKEN WETH_BASE 10000, VAddr ZeroAddress);
       (FactoryGetPool UNISWAP_V3_FACTORY TOKEN WETH_BASE 500, VAddr POOL) ],
     inr (mkLiquidityResult "Uniswap V3" UNISWAP_V3_ROUTER POOL true (Some 500) None)).
Proof. vm_compute. reflexivity. Qed.

(** A V2 pair without wrapped native asset is passed over. *)
Example checkLiquidityFast_skips_empty_v2_pair :
  run world_empty_v2_pair [] (checkLiquidityFast TOKEN) =
    ([ (FactoryGetPair UNISWAP_V2_FACTORY TOKEN WETH_BASE, VAddr PAIR_V2);
       (Erc20BalanceOf WETH_BASE PAIR_V2, VNum 0);
       (FactoryGetPair AERODROME_FACTORY TOKEN WETH_BASE, VAddr PAIR_AERO);
       (Erc20BalanceOf WETH_BASE PAIR_AERO, VNum 7) ],
     inr (mkLiquidityResult "Aerodrome" AERODROME_ROUTER PAIR_AERO true None None)).
Proof. vm_compute. reflexivity. Qed.

(** ** Trade executor *)

Example decimal_formatEther_examples :
  decimal_formatEther 0 = "0.0" /\ decimal_formatEther (5 * 10 ^ 11) = "0.0000005"
  /\ decimal_formatEther (12 * 10 ^ 17) = "1.2".
Proof. vm_compute. auto. Qed.

Lemma run_estimateGasWithBuffer (w : World) (h : list Event) (s : SwapCall) :
  run w h (estimateGasWithBuffer s) =
  ((h ++ [(EstimateGas s, rpc w h (EstimateGas s))])%list,
   inr (buffered (rpc w h (EstimateGas s)))).
Proof.
  unfold estimateGasWithBuffer, buffered. rewrite run_try_catch. simpl.
  destruct (decodeNum (rpc w h (EstimateGas s))); reflexivity.
Qed.

Arguments bigint_div : simpl never.
Arguments includes : simpl never.
Arguments MaxUint256 : simpl never.
Arguments minGasNeeded : simpl never.
Arguments Z.mul : simpl never.
Arguments Z.div : simpl never.
Arguments Z.sub : simpl never.
Arguments Z.add : simpl never.
Arguments Z.ltb : simpl never.
Arguments Z.eqb : simpl never.
Arguments String.eqb : simpl never.

Arguments estimateGasWithBuffer : simpl never.
Arguments BigInt : simpl never.
Arguments js_sub : simpl never.
Arguments js_of_Z : simpl never.

(** The messages thrown on a zero quote carry the marker their own [catch]
    looks for. *)
Lemma zero_quote_messages_rethrown :
  includes "No liquidity" "No liquidity available on Aerodrome for this token." = true
  /\ includes "No liquidity" "No liquidity available on Uniswap V2 for this token." = true
  /\ includes "Zero liquidity"
       "Cannot sell: Zero liquidity on Aerodrome. You will get 0 ETH." = true
  /\ includes "Zero liquidity"
       "Cannot sell: Zero liquidity on Uniswap V2. You will get 0 ETH." = true.
Proof. repeat split; vm_compute; reflexivity. Qed.

(** The TypeError of [undefined * 1n] carries neither marker. *)
Lemma mix_error_swallowed :
  includes "No liquidity" mix_error = false /\ includes "Zero liquidity" mix_error = false.
Proof. split; vm_compute; reflexivity. Qed.

(** [BigInt] throws nothing but its RangeError, which carries neither marker. *)
Lemma BigInt_error (x : JsNumber) (e : Error) : BigInt x = inl e -> e = range_error.
Proof.
  unfold BigInt. destruct x as [s|s| |s m e']; try congruence.
  destruct (0 <=? e'); [discriminate|].
  destruct (Z.pos m mod 2 ^ (- e') =? 0); congruence.
Qed.

Lemma range_error_swallowed :
  includes "No liquidity" range_error = false
  /\ includes "Zero liquidity" range_error = false.
Proof. split; vm_compute; reflexivity. Qed.

(** Symbolic execution of a program against an arbitrary world: name the
    next answer, split on how it decodes and on every test. *)
Ltac head_scrutinee p :=
  lazymatch p with
  | mbind _ ?q => head_scrutinee q
  | Prog_bind _ _ _ ?q => head_scrutinee q
  | bind ?q _ => head_scrutinee q
  | try_catch ?q _ => head_scrutinee q
  | liftE ?x => x
  | if ?b then _ else _ => b
  | match ?x with _ => _ end => x
  end.

Ltac exec_step :=
  first
    [ progress simpl
    | progress unfold asNum
    | rewrite (proj1 zero_quote_messages_rethrown)
    | rewrite (proj1 (proj2 zero_quote_messages_rethrown))
    | rewrite (proj1 (proj2 (proj2 zero_quote_messages_rethrown)))
    | rewrite (proj2 (proj2 (proj2 zero_quote_messages_rethrown)))
    | rewrite (proj1 mix_error_swallowed)
    | rewrite (proj2 mix_error_swallowed)
    | rewrite (proj1 range_error_swallowed)
    | rewrite (proj2 range_error_swallowed)
    | match goal with
      | H : BigInt _ = inl ?e |- _ =>
          is_var e; pose proof (BigInt_error _ _ H); subst e
      end
    | match goal with
      | |- context [rpc ?w ?h ?c] =>
          let ans := fresh "ans" in generalize (rpc w h c); intro ans
      end
    | match goal with
      | |- context [clock ?w ?h] =>
          let now := fresh "now" in generalize (clock w h); intro now
      end
    | match goal with
      | |- context [run _ _ ?p] => let x := head_scrutinee p in destruct x eqn:?
      end ].

Ltac exec := repeat exec_step.

(** Case analysis on membership in an explicit trace. *)
Ltac in_trace :=
  repeat match goal with
         | H : In _ _ |- _ => simpl in H
         | H : _ \/ _ |- _ => destruct H
         | H : False |- _ => destruct H
         | H : (_, _) = (_, _) |- _ => inversion H; clear H; subst
         | H : @eq Call _ _ |- _ => inversion H; clear H; subst
         | H : @eq Event _ _ |- _ => inversion H; clear H; subst
         end.

Ltac by_decode :=
  unfold buffered;
  repeat match goal with H : decodeNum _ = _ |- _ => rewrite H end;
  reflexivity.

(** Split an explicit trace into a prefix and its last events. *)
Ltac rest_of_split :=
  repeat match goal with |- exists _, _ => eexists end;
  split; [reflexivity|].

Ltac split_list :=
  first
    [ exists []; reflexivity
    | eexists [_]; reflexivity
    | eexists [_; _]; reflexivity
    | eexists [_; _; _]; reflexivity
    | eexists [_; _; _; _]; reflexivity
    | eexists [_; _; _; _; _]; reflexivity
    | eexists [_; _; _; _; _; _]; reflexivity
    | eexists [_; _; _; _; _; _; _]; reflexivity
    | eexists [_; _; _; _; _; _; _; _]; reflexivity ].

Ltac split_trace :=
  first
    [ exists []; rest_of_split
    | eexists [_]; rest_of_split
    | eexists [_; _]; rest_of_split
    | eexists [_; _; _]; rest_of_split
    | eexists [_; _; _; _]; rest_of_split
    | eexists [_; _; _; _; _]; rest_of_split
    | eexists [_; _; _; _; _; _]; rest_of_split
    | eexists [_; _; _; _; _; _; _]; rest_of_split
    | eexists [_; _; _; _; _; _; _; _]; rest_of_split ].

Section TradingFacts.
Context {ethers : EthersLib}.

(** *** Gas estimation *)

(** Every broadcast is the last call of the run, comes right after the
    simulation of the very same invocation, and carries the buffered limit. *)
Lemma executeBuy_send_after_estimate (w : World) (p : TradeParams) (h' : list Event)
    (r : Error + TxHash) (s : SwapCall) (gl : Z) (mf : option Z) (mp : Z) (v : Value) :
  run w [] (executeBuy p) = (h', r) ->
  In (SendSwap s gl mf mp, v) h' ->
  exists pre ve,
    h' = (pre ++ [(EstimateGas s, ve); (SendSwap s gl mf mp, v)])%list
    /\ gl = buffered ve.
Proof.
  unfold executeBuy. exec.
  all: intros H Hin; inversion H; subst; clear H; in_trace.
  all: split_trace; by_decode.
Qed.

Lemma executeSell_send_after_estimate (w : World) (p : TradeParams) (h' : list Event)
    (r : Error + TxHash) (s : SwapCall) (gl : Z) (mf : option Z) (mp : Z) (v : Value) :
  run w [] (executeSell p) = (h', r) ->
  In (SendSwap s gl mf mp, v) h' ->
  exists pre ve,
    h' = (pre ++ [(EstimateGas s, ve); (SendSwap s gl mf mp, v)])%list
    /\ gl = buffered ve.
Proof.
  unfold executeSell. exec.
  all: intros H Hin; inversion H; subst; clear H; in_trace.
  all: split_trace; by_decode.
Qed.

(** Every simulation, whatever its outcome, is followed by the broadcast of
    the very same invocation with the buffered limit, and the broadcast's
    answer is the outcome of the trade. *)
Lemma executeBuy_estimate_then_send (w : World) (p : TradeParams) (h' : list Event)
    (r : Error + TxHash) (s : SwapCall) (ve : Value) :
  run w [] (executeBuy p) = (h', r) ->
  In (EstimateGas s, ve) h' ->
  exists pre gl mf mp v,
    h' = (pre ++ [(EstimateGas s, ve); (SendSwap s gl mf mp, v)])%list
    /\ gl = buffered ve /\ r = decodeTx v.
Proof.
  unfold executeBuy. exec.
  all: intros H Hin; inversion H; subst; clear H; in_trace.
  all: split_trace; split; [by_decode | symmetry; assumption].
Qed.

Lemma executeSell_estimate_then_send (w : World) (p : TradeParams) (h' : list Event)
    (r : Error + TxHash) (s : SwapCall) (ve : Value) :
  run w [] (executeSell p) = (h', r) ->
  In (EstimateGas s, ve) h' ->
  exists pre gl mf mp v,
    h' = (pre ++ [(EstimateGas s, ve); (SendSwap s gl mf mp, v)])%list
    /\ gl = buffered ve /\ r = decodeTx v.
Proof.
  unfold executeSell. exec.
  all: intros H Hin; inversion H; subst; clear H; in_trace.
  all: split_trace; split; [by_decode | symmetry; assumption].
Qed.

(** *** Minimum output *)

Ltac quote_facts :=
  repeat match goal with
         | H : is_quote _ = true |- _ => simpl in H; try discriminate H; clear H
         | H : decodeNums (VNums _) = _ |- _ => simpl in H; inversion H; clear H; subst
         | H1 : ?l !! 1%nat = Some _, H2 : ?l !! 1%nat = Some _ |- _ =>
             rewrite H1 in H2; inversion H2; clear H2; subst
         | H1 : ?l !! 1%nat = Some _, H2 : ?l !! 1%nat = None |- _ =>
             rewrite H1 in H2; discriminate H2
         | H : (_ =? 0) = true |- _ => apply Z.eqb_eq in H; subst
         end.

Ltac floor_facts :=
  unfold quoted_floor;
  repeat match goal with H : BigInt _ = _ |- _ => rewrite H end.

(** A non-zero quote is followed directly by the simulation and the broadcast
    of a swap that carries this floor. *)
Lemma executeBuy_quote_then_swap (w : World) (p : TradeParams) (h' : list Event)
    (r : Error + TxHash) (c : Call) (amounts : list Z) (q : Z) :
  run w [] (executeBuy p) = (h', r) ->
  In (c, VNums amounts) h' -> is_quote c = true ->
  amounts !! 1%nat = Some q -> q <> 0 ->
  exists pre s gl mf mp ve v,
    h' = (pre ++ [(c, VNums amounts); (EstimateGas s, ve); (SendSwap s gl mf mp, v)])%list
    /\ swap_amountOutMin s = quoted_floor q (p_slippage p)
    /\ r = decodeTx v.
Proof.
  unfold executeBuy. exec.
  all: intros H Hin Hq Hidx Hnz; inversion H; subst; clear H; in_trace; quote_facts.
  all: try congruence.
  all: split_trace; split; [floor_facts; reflexivity | symmetry; assumption].
Qed.

Lemma executeSell_quote_then_swap (w : World) (p : TradeParams) (h' : list Event)
    (r : Error + TxHash) (c : Call) (amounts : list Z) (q : Z) :
  run w [] (executeSell p) = (h', r) ->
  In (c, VNums amounts) h' -> is_quote c = true ->
  amounts !! 1%nat = Some q -> q <> 0 ->
  exists pre s gl mf mp ve v,
    h' = (pre ++ [(c, VNums amounts); (EstimateGas s, ve); (SendSwap s gl mf mp, v)])%list
    /\ swap_amountOutMin s = quoted_floor q (p_slippage p)
    /\ r = decodeTx v.
Proof.
  unfold executeSell. exec.
  all: intros H Hin Hq Hidx Hnz; inversion H; subst; clear H; in_trace; quote_facts.
  all: try congruence.
  all: split_trace; split; [floor_facts; reflexivity | symmetry; assumption].
Qed.

(** A zero quote ends the trade at once: nothing is simulated or broadcast and
    the error carries the marker of its route. *)
Lemma executeBuy_zero_quote (w : World) (p : TradeParams) (h' : list Event)
    (r : Error + TxHash) (c : Call) (amounts : list Z) :
  run w [] (executeBuy p) = (h', r) ->
  In (c, VNums amounts) h' -> is_quote c = true -> amounts !! 1%nat = Some 0 ->
  exists pre msg,
    h' = (pre ++ [(c, VNums amounts)])%list
    /\ r = inl msg /\ includes "No liquidity" msg = true.
Proof.
  unfold executeBuy. exec.
  all: intros H Hin Hq Hidx; inversion H; subst; clear H; in_trace; quote_facts.
  all: try discriminate.
  all: split_trace; split; [reflexivity | apply zero_quote_messages_rethrown].
Qed.

Lemma executeSell_zero_quote (w : World) (p : TradeParams) (h' : list Event)
    (r : Error + TxHash) (c : Call) (amounts : list Z) :
  run w [] (executeSell p) = (h', r) ->
  In (c, VNums amounts) h' -> is_quote c = true -> amounts !! 1%nat = Some 0 ->
  exists pre msg,
    h' = (pre ++ [(c, VNums amounts)])%list
    /\ r = inl msg /\ includes "Zero liquidity" msg = true.
Proof.
  unfold executeSell. exec.
  all: intros H Hin Hq Hidx; inversion H; subst; clear H; in_trace; quote_facts.
  all: try discriminate.
  all: split_trace; split; [reflexivity | apply zero_quote_messages_rethrown].
Qed.

(** *** The V3 route *)

(** On a V3 route no quote is ever requested and every swap that is simulated
    or broadcast has a minimum output of zero. *)
Lemma v3_route_never_quotes (w : World) (mode : Mode) (p : TradeParams)
    (h' : list Event) (r : Error + TxHash) :
  p_dex p = "Uniswap V3" ->
  run w [] (execute mode p) = (h', r) ->
  forall ev, In ev h' ->
    is_quote (fst ev) = false
    /\ (forall m, call_amountOutMin (fst ev) = Some m -> m = 0).
Proof.
  intros Hd. destruct mode; simpl; [unfold executeBuy | unfold executeSell].
  all: rewrite Hd, String.eqb_refl.
  all: exec.
  all: intros H ev Hin; inversion H; subst; clear H; in_trace.
  all: split; [reflexivity | simpl; congruence].
Qed.

End TradingFacts.

Section SellChecks.
Context {ethers : EthersLib}.

(** *** The checks that open a sell *)

Ltac read_facts :=
  repeat match goal with
         | H : decodeNum (VNum _) = _ |- _ => simpl in H; inversion H; clear H; subst
         | H : decodeNum (VErr _) = inr _ |- _ => discriminate H
         | H : (_ <? _) = true |- _ => apply Z.ltb_lt in H
         | H : (_ <? _) = false |- _ => apply Z.ltb_ge in H
         | H : (_ =? _) = true |- _ => apply Z.eqb_eq in H
         | H : (_ =? _) = false |- _ => apply Z.eqb_neq in H
         | H1 : ?x = inr _, H2 : ?x = inr _ |- _ => rewrite H1 in H2; inversion H2; clear H2; subst
         | H1 : ?x = inr _, H2 : ?x = inl _ |- _ => rewrite H1 in H2; discriminate H2
         end.


(** An answer that decoded is the value it decoded to. *)
Ltac decoded :=
  repeat match goal with
         | H : decodeNum ?v = inr _ |- _ =>
             is_var v; destruct v; simpl in H; try discriminate H;
             inversion H; clear H; subst
         | H : decodeTx ?v = inr _ |- _ =>
             is_var v; destruct v; simpl in H; try discriminate H;
             inversion H; clear H; subst
         end.

(** Where the gas check of a sell stands.  When the wallet's native balance
    is read and found below 10^12 wei, the run is: fee data, decimals, token
    balance, allowance; then, when the allowance was below [MaxUint256 / 2],
    the approval transaction and the wait for it; then the balance read, on
    which the sell ends with the insufficient-ETH error.  No quote, simulation
    or swap was requested. *)
Lemma executeSell_gas_check (w : World) (p : TradeParams) (h' : list Event)
    (r : Error + TxHash) (b : Z) :
  run w [] (executeSell p) = (h', r) ->
  In (GetBalance (w_address (p_wallet p)), VNum b) h' ->
  b < minGasNeeded ->
  r = inl (insufficientEthMessage b)
  /\ (forall ev, In ev h' -> is_swap_stage (fst ev) = false)
  /\ exists fd d bal al approval,
       h' = ([ (GetFeeData, fd);
               (Erc20Decimals (p_tokenAddress p), d);
               (Erc20BalanceOf (p_tokenAddress p) (w_address (p_wallet p)), bal);
               (Erc20Allowance (p_tokenAddress p) (w_address (p_wallet p)) (p_router p),
                VNum al) ]
             ++ approval ++ [(GetBalance (w_address (p_wallet p)), VNum b)])%list
       /\ (al < bigint_div MaxUint256 2 ->
             exists tx v',
               approval = [ (Erc20Approve (p_tokenAddress p) (p_router p) MaxUint256, VTx tx);
                            (TxWait tx, v') ]
               /\ decodeUnit v' = inr tt)
       /\ (bigint_div MaxUint256 2 <= al -> approval = []).
Proof.
  unfold executeSell, ensureApproval. exec.
  all: intros H Hin Hlow; inversion H; subst; clear H; in_trace; read_facts.
  all: try lia.
  all: split; [reflexivity|]; split; [intros ev Hev; in_trace; reflexivity|].
  all: decoded.
  all: repeat match goal with u : unit |- _ => destruct u end.
  all: first
    [ (eexists _, _, _, _, []; split; [reflexivity|]; split; [intros; lia | reflexivity])
    | (eexists _, _, _, _, [_; _]; split; [reflexivity|];
       split; [intros _; eexists _, _; split; [reflexivity | assumption] | intros; lia]) ].
Qed.


End SellChecks.

(** C7. In every run of a buy or a sell: each simulation is of the exact
    invocation that is then broadcast (same router, method, arguments and
    value), the broadcast follows it directly whether the simulation succeeded
    or not, and the gas limit of the broadcast is [estimated * 130 / 100] in
    BigInt arithmetic when the simulation answered [estimated] and the
    constant 300000 when it failed; no swap is broadcast without such a
    simulation. *)
Theorem gas_limit_from_simulation {ethers : EthersLib} (w : World) (mode : Mode)
    (p : TradeParams) (h' : list Event) (r : Error + TxHash) :
  run w [] (execute mode p) = (h', r) ->
  (forall s ve, In (EstimateGas s, ve) h' ->
     exists pre gl mf mp v,
       h' = (pre ++ [(EstimateGas s, ve); (SendSwap s gl mf mp, v)])%list
       /\ gl = match decodeNum ve with
               | inr estimated => bigint_div (estimated * 130) 100
               | inl _ => 300000
               end
       /\ r = decodeTx v)
  /\ (forall s gl mf mp v, In (SendSwap s gl mf mp, v) h' ->
       exists pre ve,
         h' = (pre ++ [(EstimateGas s, ve); (SendSwap s gl mf mp, v)])%list
         /\ gl = match decodeNum ve with
                 | inr estimated => bigint_div (estimated * 130) 100
                 | inl _ => 300000
                 end).
Proof.
  intros Hrun. split.
  - intros s ve Hin. destruct mode; simpl in Hrun.
    + exact (executeBuy_estimate_then_send w p h' r s ve Hrun Hin).
    + exact (executeSell_estimate_then_send w p h' r s ve Hrun Hin).
  - intros s gl mf mp v Hin. destruct mode; simpl in Hrun.
    + exact (executeBuy_send_after_estimate w p h' r s gl mf mp v Hrun Hin).
    + exact (executeSell_send_after_estimate w p h' r s gl mf mp v Hrun Hin).
Qed.

(** A V2 sell of one token, simulated at 200000 gas: the broadcast follows
    and carries 260000. *)
Lemma gas_limit_from_simulation_witness :
  let h' := fst (run wealthy_world [] (execute Sell v2_params)) in
  let r := snd (run wealthy_world [] (execute Sell v2_params)) in
  In (EstimateGas v2_sell_call, VNum 200000) h'
  /\ In (SendSwap v2_sell_call 260000 (Some 6000000) 100000, VTx "0xb2") h'
  /\ (forall s ve, In (EstimateGas s, ve) h' ->
       exists pre gl mf mp v,
         h' = (pre ++ [(EstimateGas s, ve); (SendSwap s gl mf mp, v)])%list
         /\ gl = match decodeNum ve with
                 | inr estimated => bigint_div (estimated * 130) 100
                 | inl _ => 300000
                 end
         /\ r = decodeTx v)
  /\ (forall s gl mf mp v, In (SendSwap s gl mf mp, v) h' ->
       exists pre ve,
         h' = (pre ++ [(EstimateGas s, ve); (SendSwap s gl mf mp, v)])%list
         /\ gl = match decodeNum ve with
                 | inr estimated => bigint_div (estimated * 130) 100
                 | inl _ => 300000
                 end).
Proof.
  intros h' r.
  split; [vm_compute; auto 10|]. split; [vm_compute; auto 10|].
  apply (gas_limit_from_simulation wealthy_world Sell v2_params h' r).
  vm_compute. reflexivity.
Defined.

(** The integer percentages convert exactly: [BigInt(100 - s)] is [100 - s]
    for every integer [s] from 0 to 100. *)
Lemma percentage_factor (s : Z) :
  0 <= s <= 100 -> BigInt (js_sub (js_of_Z 100) (js_of_Z s)) = inr (100 - s).
Proof.
  intros Hs.
  assert (Hall : forallb (fun s => match BigInt (js_sub (js_of_Z 100) (js_of_Z s)) with
                                   | inr factor => factor =? 100 - s
                                   | inl _ => false
                                   end) percentages = true)
    by (vm_compute; reflexivity).
  rewrite forallb_forall in Hall.
  assert (Hin : In s percentages).
  { unfold percentages. apply in_map_iff. exists (Z.to_nat s).
    split; [lia | apply in_seq; lia]. }
  specialize (Hall s Hin).
  destruct (BigInt (js_sub (js_of_Z 100) (js_of_Z s))) as [e|factor]; [discriminate|].
  apply Z.eqb_eq in Hall. by subst.
Qed.

(** C5, evaluated on the code.  With NaN as slippage, which is what the
    panel passes when ".5" is typed, a buy that is quoted 1,000,000 units is
    simulated and broadcast with a minimum output of zero and settles.  In
    general a non-zero quote is followed at once by the simulation and the
    broadcast of a swap whose floor is
    [quotedOutput * BigInt(100 - slippage) / 100] in BigInt arithmetic when
    [100 - slippage] is an integer, and zero when it is not, because the
    RangeError of the conversion is swallowed by the [catch] of the quote.
    For the integer percentages 0 to 100 the factor is [100 - slippage]; for
    1,000,000 units at 15% the floor is exactly 850,000. *)
Theorem slippage_floor_lost_when_not_integer :
  (let swap := V2SwapExactETHForTokens UNISWAP_V2_ROUTER 0 [WETH_BASE; TOKEN]
                 WALLET_ADDRESS 1700000300 (10 ^ 18) in
   run wealthy_world [] (executeBuy nan_params) =
     ([ (GetFeeData, scenario_fee);
        (V2GetAmountsOut UNISWAP_V2_ROUTER (10 ^ 18) [WETH_BASE; TOKEN],
         VNums [10 ^ 18; 1000000]);
        (EstimateGas swap, VNum 200000);
        (SendSwap swap 260000 (Some 6000000) 100000, VTx "0xb2") ],
      inr "0xb2"))
  /\ (forall (ethers : EthersLib) (w : World) (mode : Mode) (p : TradeParams)
             (h' : list Event) (r : Error + TxHash) (c : Call) (amounts : list Z) (q : Z),
        run w [] (execute mode p) = (h', r) ->
        In (c, VNums amounts) h' -> is_quote c = true ->
        amounts !! 1%nat = Some q -> q <> 0 ->
        exists pre s gl mf mp ve v,
          h' = (pre ++ [(c, VNums amounts); (EstimateGas s, ve);
                        (SendSwap s gl mf mp, v)])%list
          /\ r = decodeTx v
          /\ swap_amountOutMin s
             = match BigInt (js_sub (js_of_Z 100) (p_slippage p)) with
               | inr factor => bigint_div (q * factor) 100
               | inl _ => 0
               end)
  /\ BigInt (js_sub (js_of_Z 100) NaN) = inl range_error
  /\ (forall s, 0 <= s <= 100 ->
        BigInt (js_sub (js_of_Z 100) (js_of_Z s)) = inr (100 - s))
  /\ bigint_div (1000000 * (100 - 15)) 100 = 850000.
Proof.
  split; [vm_compute; reflexivity|]. split; [|split; [|split]].
  - intros ethers w mode p h' r c amounts q Hrun Hin Hq Hidx Hnz.
    assert (exists pre s gl mf mp ve v,
      h' = (pre ++ [(c, VNums amounts); (EstimateGas s, ve); (SendSwap s gl mf mp, v)])%list
      /\ swap_amountOutMin s = quoted_floor q (p_slippage p)
      /\ r = decodeTx v) as (pre & s & gl & mf & mp & ve & v & Ht & Hm & Hr).
    { destruct mode; simpl in Hrun.
      - exact (executeBuy_quote_then_swap w p h' r c amounts q Hrun Hin Hq Hidx Hnz).
      - exact (executeSell_quote_then_swap w p h' r c amounts q Hrun Hin Hq Hidx Hnz). }
    exists pre, s, gl, mf, mp, ve, v. auto.
  - reflexivity.
  - exact percentage_factor.
  - reflexivity.
Qed.

(** C10. At a slippage of exactly 100 percent a strictly positive quote gives
    a floor of exactly zero, and the trade goes on: the swap is simulated and
    broadcast with minimum output 0 and its answer is the outcome.  Only a
    quote that is itself zero is rejected. *)
Theorem full_slippage_zero_floor {ethers : EthersLib} (w : World) (mode : Mode)
    (p : TradeParams) (h' : list Event) (r : Error + TxHash) (c : Call)
    (amounts : list Z) (q : Z) :
  p_slippage p = js_of_Z 100 ->
  run w [] (execute mode p) = (h', r) ->
  In (c, VNums amounts) h' -> is_quote c = true ->
  amounts !! 1%nat = Some q -> 0 < q ->
  (BigInt (js_sub (js_of_Z 100) (p_slippage p)) = inr (100 - 100)
   /\ bigint_div (q * (100 - 100)) 100 = 0)
  /\ exists pre s gl mf mp ve v,
       h' = (pre ++ [(c, VNums amounts); (EstimateGas s, ve);
                     (SendSwap s gl mf mp, v)])%list
       /\ swap_amountOutMin s = 0
       /\ r = decodeTx v.
Proof.
  intros Hs Hrun Hin Hq Hidx Hpos.
  assert (Hf : BigInt (js_sub (js_of_Z 100) (p_slippage p)) = inr (100 - 100))
    by (rewrite Hs; reflexivity).
  assert (Hz : bigint_div (q * (100 - 100)) 100 = 0).
  { unfold bigint_div. replace (q * (100 - 100)) with 0 by lia. reflexivity. }
  split; [split; assumption|].
  assert (Hnz : q <> 0) by lia.
  assert (exists pre s gl mf mp ve v,
    h' = (pre ++ [(c, VNums amounts); (EstimateGas s, ve); (SendSwap s gl mf mp, v)])%list
    /\ swap_amountOutMin s = quoted_floor q (p_slippage p)
    /\ r = decodeTx v) as (pre & s & gl & mf & mp & ve & v & Ht & Hm & Hr).
  { destruct mode; simpl in Hrun.
    - exact (executeBuy_quote_then_swap w p h' r c amounts q Hrun Hin Hq Hidx Hnz).
    - exact (executeSell_quote_then_swap w p h' r c amounts q Hrun Hin Hq Hidx Hnz). }
  exists pre, s, gl, mf, mp, ve, v.
  unfold quoted_floor in Hm. rewrite Hf, Hz in Hm. auto.
Qed.

(** An Aerodrome buy of 1 ETH at 100% slippage against a quote of 1,000,000:
    broadcast with floor 0 and settled as transaction [0xb2]. *)
Lemma full_slippage_zero_floor_witness :
  let p := scenario_params "Aerodrome" AERODROME_ROUTER 100 in
  let h' := fst (run wealthy_world [] (execute Buy p)) in
  let c := AeroGetAmountsOut AERODROME_ROUTER (10 ^ 18) [mkRoute WETH_BASE TOKEN false] in
  (BigInt (js_sub (js_of_Z 100) (p_slippage p)) = inr (100 - 100)
   /\ bigint_div (1000000 * (100 - 100)) 100 = 0)
  /\ exists pre s gl mf mp ve v,
       h' = (pre ++ [(c, VNums [10 ^ 18; 1000000]); (EstimateGas s, ve);
                     (SendSwap s gl mf mp, v)])%list
       /\ swap_amountOutMin s = 0
       /\ inr "0xb2" = decodeTx v.
Proof.
  intros p h' c.
  apply (full_slippage_zero_floor wealthy_world Buy p h' (inr "0xb2") c
           [10 ^ 18; 1000000] 1000000).
  - reflexivity.
  - vm_compute. reflexivity.
  - vm_compute. auto 10.
  - reflexivity.
  - reflexivity.
  - lia.
Defined.

(** C3, evaluated on the code: where every quoting function would answer
    zero, a buy and a sell on a V3 route request no quote at all, simulate and
    broadcast the swap with [amountOutMinimum = 0] and settle; the same buy on
    a V2 route is refused. *)
Theorem v3_trade_proceeds_without_quote :
  let buy := ExactInputSingle UNISWAP_V3_ROUTER
               (mkV3Params WETH_BASE TOKEN 3000 WALLET_ADDRESS (10 ^ 18) 0 0)
               (Some (10 ^ 18)) in
  let sell := ExactInputSingle UNISWAP_V3_ROUTER
                (mkV3Params TOKEN WETH_BASE 3000 WALLET_ADDRESS (10 ^ 18) 0 0) None in
  run zero_quote_world [] (executeBuy v3_params) =
    ([ (GetFeeData, scenario_fee);
       (EstimateGas buy, VNum 200000);
       (SendSwap buy 260000 (Some 6000000) 100000, VTx "0xb2") ],
     inr "0xb2")
  /\ calls (fst (run zero_quote_world [] (executeSell v3_params))) =
       [ GetFeeData; Erc20Decimals TOKEN; Erc20BalanceOf TOKEN WALLET_ADDRESS;
         Erc20Allowance TOKEN WALLET_ADDRESS UNISWAP_V3_ROUTER;
         GetBalance WALLET_ADDRESS;
         EstimateGas sell; SendSwap sell 260000 (Some 6000000) 100000 ]
  /\ snd (run zero_quote_world [] (executeSell v3_params)) = inr "0xb2"
  /\ run zero_quote_world [] (executeBuy v2_params) =
       ([ (GetFeeData, scenario_fee);
          (V2GetAmountsOut UNISWAP_V2_ROUTER (10 ^ 18) [WETH_BASE; TOKEN],
           VNums [10 ^ 18; 0]) ],
        inl "No liquidity available on Uniswap V2 for this token.").
Proof. repeat split; vm_compute; reflexivity. Qed.

(** C2, evaluated on the code.  With no allowance and 0.0000005 ETH, the
    approval transaction is sent and awaited before the balance is read and
    the sell rejected for lack of gas.  This is so on every chain: whenever a
    sell reads a native balance below 10^12 wei, the calls before that read
    are the fee data, the decimals, the token balance and the allowance and,
    when the allowance was below [MaxUint256 / 2], the approval transaction
    and the wait for it; the sell then ends with the insufficient-ETH error
    and has requested no quote, simulation or swap. *)
Theorem sell_approval_precedes_gas_check :
  run low_gas_world [] (executeSell v2_params) =
    ([ (GetFeeData, scenario_fee);
       (Erc20Decimals TOKEN, VNum 18);
       (Erc20BalanceOf TOKEN WALLET_ADDRESS, VNum (5 * 10 ^ 18));
       (Erc20Allowance TOKEN WALLET_ADDRESS UNISWAP_V2_ROUTER, VNum 0);
       (Erc20Approve TOKEN UNISWAP_V2_ROUTER MaxUint256, VTx "0xa1");
       (TxWait "0xa1", VUnit);
       (GetBalance WALLET_ADDRESS, VNum (5 * 10 ^ 11)) ],
     inl "Insufficient ETH for gas. Need ~0.000001 ETH, have 0.0000005 ETH")
  /\ forall (ethers : EthersLib) (w : World) (p : TradeParams) (h' : list Event)
            (r : Error + TxHash) (b : Z),
       run w [] (executeSell p) = (h', r) ->
       In (GetBalance (w_address (p_wallet p)), VNum b) h' ->
       b < minGasNeeded ->
       r = inl (insufficientEthMessage b)
       /\ (forall ev, In ev h' -> is_swap_stage (fst ev) = false)
       /\ exists fd d bal al approval,
            h' = ([ (GetFeeData, fd);
                    (Erc20Decimals (p_tokenAddress p), d);
                    (Erc20BalanceOf (p_tokenAddress p) (w_address (p_wallet p)), bal);
                    (Erc20Allowance (p_tokenAddress p) (w_address (p_wallet p))
                       (p_router p), VNum al) ]
                  ++ approval ++ [(GetBalance (w_address (p_wallet p)), VNum b)])%list
            /\ (al < bigint_div MaxUint256 2 ->
                  exists tx v',
                    approval = [ (Erc20Approve (p_tokenAddress p) (p_router p) MaxUint256,
                                  VTx tx);
                                 (TxWait tx, v') ]
                    /\ decodeUnit v' = inr tt)
            /\ (bigint_div MaxUint256 2 <= al -> approval = []).
Proof.
  split; [vm_compute; reflexivity|].
  intros ethers w p h' r b. apply executeSell_gas_check.
Qed.




(** ** Price oracle *)

Lemma cached_or_zero_spec (cache : option PriceCache) :
  match cache with
  | Some c => (cached_or_zero cache == price c)%Q
  | None => cached_or_zero cache = 0%Q
  end.
Proof.
  destruct cache as [c|]; simpl; [|reflexivity].
  destruct (Qeq_bool (price c) 0) eqn:E; [|reflexivity].
  apply Qeq_bool_iff in E. symmetry. exact E.
Qed.

Lemma fetchEthPrice_hit (w : World) (h : list Event) (c : PriceCache) :
  clock w h - timestamp c < CACHE_TTL ->
  run w h (fetchEthPrice (Some c)) = (h, inr (price c, Some c)).
Proof.
  intros Hlt. simpl. apply Z.ltb_lt in Hlt. rewrite Hlt. reflexivity.
Qed.

Lemma fetchEthPrice_miss (w : World) (h : list Event) (cache : option PriceCache) :
  stale w h cache ->
  run w h (fetchEthPrice cache) = run w h (readFeed cache).
Proof.
  destruct cache as [c|]; simpl; [|reflexivity].
  intros Hge. apply Z.ltb_ge in Hge. rewrite Hge. reflexivity.
Qed.

Lemma run_vis_reads {A : Type} (w : World) (h h' : list Event) (c : Call)
    (k : Value -> Prog A) (r : Error + A) :
  run w h (Vis c k) = (h', r) ->
  exists t, h' = (h ++ (c, rpc w h c) :: t)%list.
Proof.
  simpl. intros H.
  destruct (run_extends w (k (rpc w h c)) (h ++ [(c, rpc w h c)])%list) as [t Ht].
  rewrite H in Ht. simpl in Ht. exists t. rewrite Ht, <- app_assoc. reflexivity.
Qed.

Lemma readFeedBody_reads (w : World) (h h' : list Event) (r : Error + Q * option PriceCache) :
  run w h readFeedBody = (h', r) ->
  exists t, h' = (h ++ (FeedLatestRoundData ETH_USD_FEED,
                         rpc w h (FeedLatestRoundData ETH_USD_FEED)) :: t)%list.
Proof. intros H. exact (run_vis_reads w h h' _ _ r H). Qed.

(** [fetchEthPrice] never rejects. *)
Lemma fetchEthPrice_total (cache : option PriceCache) : total (fetchEthPrice cache).
Proof.
  destruct cache as [c|]; simpl; [|apply total_swallow].
  intros w h. simpl. destruct (clock w h - timestamp c <? CACHE_TTL).
  - simpl. eauto.
  - apply total_swallow.
Qed.

(** The price a call returns is the price it leaves in the cache. *)
Lemma fetchEthPrice_returns_cached (w : World) (h h1 : list Event)
    (cache : option PriceCache) (p1 : Q) (c1 : PriceCache) :
  run w h (fetchEthPrice cache) = (h1, inr (p1, Some c1)) ->
  (p1 == price c1)%Q.
Proof.
  assert (Hread : run w h (readFeed cache) = (h1, inr (p1, Some c1)) -> (p1 == price c1)%Q).
  { unfold readFeed. rewrite run_try_catch.
    destruct (run w h readFeedBody) as [h2 [e|[p2 c2]]] eqn:E.
    - simpl. intros H. inversion H; subst.
      exact (cached_or_zero_spec (Some c1)).
    - intros H. inversion H; subst. clear H.
      revert E. unfold readFeedBody. simpl.
      destruct (decodeNums _); simpl; [discriminate|].
      destruct (_ !! 1%nat); simpl; [|discriminate].
      destruct (decodeNum _); simpl; [discriminate|].
      intros H. inversion H; subst. simpl. reflexivity. }
  destruct cache as [c|]; simpl; [|exact Hread].
  destruct (clock w h - timestamp c <? CACHE_TTL); [|exact Hread].
  simpl. intros H. inversion H; subst. reflexivity.
Qed.

(** A read of the feed that succeeds returns the scaled answer and stores it
    with the time at which the two reads were done. *)
Lemma fetchEthPrice_fresh (w : World) (h : list Event) (cache : option PriceCache)
    (round : list Z) (answer d : Z) :
  let v1 := rpc w h (FeedLatestRoundData ETH_USD_FEED) in
  let h1 := (h ++ [(FeedLatestRoundData ETH_USD_FEED, v1)])%list in
  let v2 := rpc w h1 (FeedDecimals ETH_USD_FEED) in
  let h2 := (h1 ++ [(FeedDecimals ETH_USD_FEED, v2)])%list in
  let p := Qdiv (inject_Z answer) (inject_Z (10 ^ d)) in
  stale w h cache ->
  decodeNums v1 = inr round -> round !! 1%nat = Some answer -> decodeNum v2 = inr d ->
  run w h (fetchEthPrice cache) = (h2, inr (p, Some (mkPriceCache p (clock w h2)))).
Proof.
  intros v1 h1 v2 h2 p Hstale H1 Hidx H2.
  rewrite (fetchEthPrice_miss w h cache Hstale).
  unfold readFeed. rewrite run_try_catch. unfold readFeedBody. simpl.
  fold v1. rewrite H1. simpl. rewrite Hidx. simpl. fold h1 v2. rewrite H2. reflexivity.
Qed.

(** A read of the feed that fails, at either call, leaves the cache alone and
    returns what it holds, or zero. *)
Lemma fetchEthPrice_failed (w : World) (h : list Event) (cache : option PriceCache) :
  let v1 := rpc w h (FeedLatestRoundData ETH_USD_FEED) in
  let h1 := (h ++ [(FeedLatestRoundData ETH_USD_FEED, v1)])%list in
  let v2 := rpc w h1 (FeedDecimals ETH_USD_FEED) in
  let h2 := (h1 ++ [(FeedDecimals ETH_USD_FEED, v2)])%list in
  stale w h cache ->
  ((exists e, decodeNums v1 = inl e)
   \/ (exists round, decodeNums v1 = inr round /\ round !! 1%nat = None) ->
   run w h (fetchEthPrice cache) = (h1, inr (cached_or_zero cache, cache)))
  /\ (forall round answer e,
        decodeNums v1 = inr round -> round !! 1%nat = Some answer -> decodeNum v2 = inl e ->
        run w h (fetchEthPrice cache) = (h2, inr (cached_or_zero cache, cache))).
Proof.
  intros v1 h1 v2 h2 Hstale.
  rewrite (fetchEthPrice_miss w h cache Hstale).
  unfold readFeed. rewrite run_try_catch. unfold readFeedBody. simpl. fold v1.
  split.
  - intros [[e He] | (round & Hr & Hidx)].
    + rewrite He. reflexivity.
    + rewrite Hr. simpl. rewrite Hidx. reflexivity.
  - intros round answer e Hr Hidx He.
    rewrite Hr. simpl. rewrite Hidx. simpl. fold h1 v2. rewrite He. reflexivity.
Qed.

(** C8. Within the 30-second window a call returns the cached value and makes
    no network read, so a second call within the window of the value a first
    call left returns that same value; once the window has passed (or with
    nothing cached) the call reads the feed again.  When both reads of the
    feed answer, the call returns the scaled answer and stores it together
    with the time of the read, so that every call within 30 seconds of that
    time returns it again without a read.  When a read fails the call returns
    the cached value, or zero when nothing was ever cached, and leaves the
    cache as it was. *)
Theorem native_price_cache_policy (w : World) (h : list Event) (cache : option PriceCache) :
  (forall c, cache = Some c -> clock w h - timestamp c < CACHE_TTL ->
     run w h (fetchEthPrice cache) = (h, inr (price c, cache)))
  /\ (forall h1 p1 c1 h2,
        run w h (fetchEthPrice cache) = (h1, inr (p1, Some c1)) ->
        clock w h2 - timestamp c1 < CACHE_TTL ->
        (p1 == price c1)%Q
        /\ run w h2 (fetchEthPrice (Some c1)) = (h2, inr (price c1, Some c1)))
  /\ (forall h' r,
        stale w h cache ->
        run w h readFeedBody = (h', r) ->
        (exists t, h' = (h ++ (FeedLatestRoundData ETH_USD_FEED,
                               rpc w h (FeedLatestRoundData ETH_USD_FEED)) :: t)%list)
        /\ run w h (fetchEthPrice cache) =
             (h', inr match r with
                      | inr fresh => fresh
                      | inl _ => (cached_or_zero cache, cache)
                      end))
  /\ match cache with
     | Some c => (cached_or_zero cache == price c)%Q
     | None => cached_or_zero cache = 0%Q
     end
  /\ (let v1 := rpc w h (FeedLatestRoundData ETH_USD_FEED) in
      let h1 := (h ++ [(FeedLatestRoundData ETH_USD_FEED, v1)])%list in
      let v2 := rpc w h1 (FeedDecimals ETH_USD_FEED) in
      let h2 := (h1 ++ [(FeedDecimals ETH_USD_FEED, v2)])%list in
      stale w h cache ->
      (forall round answer d,
         decodeNums v1 = inr round -> round !! 1%nat = Some answer ->
         decodeNum v2 = inr d ->
         let p := Qdiv (inject_Z answer) (inject_Z (10 ^ d)) in
         let stored := mkPriceCache p (clock w h2) in
         run w h (fetchEthPrice cache) = (h2, inr (p, Some stored))
         /\ forall h3, clock w h3 - clock w h2 < CACHE_TTL ->
              run w h3 (fetchEthPrice (Some stored)) = (h3, inr (p, Some stored)))
      /\ ((exists e, decodeNums v1 = inl e)
          \/ (exists round, decodeNums v1 = inr round /\ round !! 1%nat = None) ->
          run w h (fetchEthPrice cache) = (h1, inr (cached_or_zero cache, cache)))
      /\ (forall round answer e,
            decodeNums v1 = inr round -> round !! 1%nat = Some answer ->
            decodeNum v2 = inl e ->
            run w h (fetchEthPrice cache) = (h2, inr (cached_or_zero cache, cache)))).
Proof.
  split; [|split; [|split; [|split]]].
  - intros c -> Hlt. by apply fetchEthPrice_hit.
  - intros h1 p1 c1 h2 Hrun Hlt. split.
    + exact (fetchEthPrice_returns_cached w h h1 cache p1 c1 Hrun).
    + by apply fetchEthPrice_hit.
  - intros h' r Hstale Hbody. split.
    + exact (readFeedBody_reads w h h' r Hbody).
    + rewrite (fetchEthPrice_miss w h cache Hstale).
      unfold readFeed. rewrite run_try_catch, Hbody. destruct r; reflexivity.
  - apply cached_or_zero_spec.
  - intros v1 h1 v2 h2 Hstale. split; [|exact (fetchEthPrice_failed w h cache Hstale)].
    intros round answer d H1 Hidx H2 p stored. split.
    + exact (fetchEthPrice_fresh w h cache round answer d Hstale H1 Hidx H2).
    + intros h3 Hlt. exact (fetchEthPrice_hit w h3 stored Hlt).
Qed.

(** A value of 2000 USD cached at time 1,000,000 ms: served from the cache
    29,999 ms later, read again 30,000 ms later and stored with that time,
    and served as the fallback when that read fails. *)
Lemma native_price_cache_policy_witness :
  let c := mkPriceCache (2000 # 1) 1000000 in
  run (feed_world 1029999) [] (fetchEthPrice (Some c)) = ([], inr (2000 # 1, Some c))
  /\ run (feed_world 1030000) [] (fetchEthPrice (Some c)) =
       ([ (FeedLatestRoundData ETH_USD_FEED, VNums [1; 200000000000; 0; 0; 1]);
          (FeedDecimals ETH_USD_FEED, VNum 8) ],
        inr (200000000000 # 100000000,
             Some (mkPriceCache (200000000000 # 100000000) 1030000)))
  /\ run (feed_down_world 1030000) [] (fetchEthPrice (Some c)) =
       ([ (FeedLatestRoundData ETH_USD_FEED, VErr "network error") ],
        inr (2000 # 1, Some c)).
Proof.
  intros c. split; [|split].
  - destruct (native_price_cache_policy (feed_world 1029999) [] (Some c)) as [Hhit _].
    apply (Hhit c eq_refl). reflexivity.
  - destruct (native_price_cache_policy (feed_world 1030000) [] (Some c))
      as (_ & _ & _ & _ & Hread).
    destruct (Hread ltac:(vm_compute; discriminate)) as (Hfresh & _).
    destruct (Hfresh [1; 200000000000; 0; 0; 1] 200000000000 8 eq_refl eq_refl eq_refl)
      as [Hrun _].
    exact Hrun.
  - destruct (native_price_cache_policy (feed_down_world 1030000) [] (Some c))
      as (_ & _ & _ & _ & Hread).
    destruct (Hread ltac:(vm_compute; discriminate)) as (_ & Hfail & _).
    apply Hfail. left. eexists. reflexivity.
Defined.
(** ** Key custody *)

(** *** The toy primitives meet the contracts *)

Lemma list_byte_of_string_app (s t : string) :
  list_byte_of_string (s ++ t) = (list_byte_of_string s ++ list_byte_of_string t)%list.
Proof.
  unfold list_byte_of_string.
  induction s as [|c s IH]; [reflexivity|].
  change (String c s ++ t) with (String c (s ++ t)). simpl. by rewrite IH.
Qed.

Lemma toy_pad_padding (pw : bytes) (n : nat) :
  (length pw + n <= 64)%nat -> toy_pad (pw ++ repeat Byte.x00 n)%list = toy_pad pw.
Proof.
  intros Hle. unfold toy_pad.
  rewrite length_app, repeat_length, <- app_assoc, <- repeat_app.
  do 2 f_equal. lia.
Qed.

#[local] Instance toy_crypto_laws : WebCryptoLaws toy_crypto.
Proof.
  split; simpl.
  - intros k iv m. unfold toy_decrypt, toy_encrypt, bytes_eqb.
    rewrite take_app_length, drop_app_length.
    rewrite bool_decide_true by reflexivity. reflexivity.
  - intros b. rewrite list_byte_of_string_of_list_byte. reflexivity.
  - apply string_of_list_byte_of_string.
  - apply list_byte_of_string_app.
  - reflexivity.
  - intros pw salt n iterations bits. apply toy_pad_padding.
Qed.

(** *** Encrypt, then decrypt *)

Lemma getRandomValues_length (n : nat) (g : Rng) :
  length (fst (getRandomValues n g)) = n /\ pos (snd (getRandomValues n g)) = (pos g + n)%nat.
Proof. unfold getRandomValues. simpl. by rewrite length_map, length_seq. Qed.

(** The blob is salt, nonce and ciphertext, and [decryptKey] cuts it apart
    again: what it returns for any password is what AES-GCM makes of the
    ciphertext under the key derived from that password. *)
Lemma decryptKey_of_blob {wc : WebCrypto} {laws : WebCryptoLaws wc}
    (text password other : string) (g : Rng) :
  let salt := map (tape g) (seq (pos g) 16) in
  let iv := map (tape g) (seq (pos g + 16) 12) in
  let ciphertext := aes_gcm_encrypt (deriveKey password salt) iv (utf8_encode text) in
  atob_bytes (fst (encryptKey text password g)) = inr (salt ++ iv ++ ciphertext)%list
  /\ decryptKey (fst (encryptKey text password g)) other
     = match aes_gcm_decrypt (deriveKey other salt) iv ciphertext with
       | inl e => inl e
       | inr decrypted => inr (utf8_decode decrypted)
       end.
Proof.
  intros salt iv ct.
  unfold encryptKey, getRandomValues. cbn [fst snd tape pos]. fold salt iv ct.
  assert (Hsalt : length salt = 16%nat) by (unfold salt; by rewrite length_map, length_seq).
  assert (Hiv : length iv = 12%nat) by (unfold iv; by rewrite length_map, length_seq).
  assert (Htake : take 16 (salt ++ iv ++ ct) = salt)
    by (rewrite <- Hsalt; apply take_app_length).
  assert (Hdrop : drop 16 (salt ++ iv ++ ct) = (iv ++ ct)%list)
    by (rewrite <- Hsalt; apply drop_app_length).
  assert (Hiv' : take 12 (iv ++ ct) = iv) by (rewrite <- Hiv; apply take_app_length).
  assert (Hct : drop 28 (salt ++ iv ++ ct) = ct).
  { change 28%nat with (16 + 12)%nat. rewrite <- drop_drop, Hdrop.
    rewrite <- Hiv. apply drop_app_length. }
  split; [apply base64_roundtrip|].
  unfold decryptKey. rewrite base64_roundtrip, Htake, Hdrop, Hiv', Hct. reflexivity.
Qed.

Lemma decrypt_of_encrypt {wc : WebCrypto} {laws : WebCryptoLaws wc}
    (text password : string) (g : Rng) :
  decryptKey (fst (encryptKey text password g)) password = inr text.
Proof.
  rewrite (proj2 (decryptKey_of_blob text password password g)).
  by rewrite aes_gcm_correct, utf8_roundtrip.
Qed.

Lemma utf8_encode_nuls {wc : WebCrypto} {laws : WebCryptoLaws wc} (s : string) (n : nat) :
  utf8_encode (s ++ nuls n) = (utf8_encode s ++ repeat Byte.x00 n)%list.
Proof.
  rewrite utf8_encode_app. f_equal.
  induction n as [|n IH]; simpl.
  - pose proof (utf8_encode_app "" "") as H. change ("" ++ "") with "" in H.
    destruct (utf8_encode "") as [|b l]; [reflexivity|].
    apply (f_equal length) in H. rewrite length_app in H. simpl in H. lia.
  - change (String Ascii.zero (nuls n)) with (String Ascii.zero "" ++ nuls n).
    by rewrite utf8_encode_app, utf8_encode_nul, IH.
Qed.

(** A password with NUL characters appended derives the same key, as long as
    it still fits the 64-byte block of HMAC-SHA-256. *)
Lemma deriveKey_nuls {wc : WebCrypto} {laws : WebCryptoLaws wc}
    (password : string) (n : nat) (salt : bytes) :
  (length (utf8_encode password) + n <= 64)%nat ->
  deriveKey (password ++ nuls n) salt = deriveKey password salt.
Proof.
  intros Hle. unfold deriveKey. rewrite utf8_encode_nuls.
  by apply pbkdf2_hmac_padding.
Qed.

(** C6, as the code has it.  Encrypting a key and decrypting the blob with the
    same password returns the key exactly.  The blob is the base64 text of
    salt (16 bytes), nonce (12 bytes) and ciphertext, where salt and nonce
    are the next 28 bytes of the entropy source, which is left 28 bytes
    further on, so that the next call draws other bytes.  With another
    password [decryptKey] returns whatever AES-GCM makes of the ciphertext
    under the key derived from that password: a key when it authenticates, an
    error when it does not.  It does authenticate for some other passwords:
    the password followed by NUL characters, up to 64 bytes in all, derives
    the same PBKDF2-HMAC key and returns the original key.  The browser
    primitives are taken with their functional specifications
    [WebCryptoLaws]. *)
Theorem encrypt_then_decrypt {wc : WebCrypto} {laws : WebCryptoLaws wc}
    (privateKey password : string) (g : Rng) :
  let blob := fst (encryptKey privateKey password g) in
  let g' := snd (encryptKey privateKey password g) in
  let salt := map (tape g) (seq (pos g) 16) in
  let iv := map (tape g) (seq (pos g + 16) 12) in
  let ciphertext := aes_gcm_encrypt (deriveKey password salt) iv (utf8_encode privateKey) in
  decryptKey blob password = inr privateKey
  /\ atob_bytes blob = inr (salt ++ iv ++ ciphertext)%list
  /\ (forall other,
        decryptKey blob other
        = match aes_gcm_decrypt (deriveKey other salt) iv ciphertext with
          | inl e => inl e
          | inr decrypted => inr (utf8_decode decrypted)
          end)
  /\ (forall n, (length (utf8_encode password) + n <= 64)%nat ->
        decryptKey blob (password ++ nuls n) = inr privateKey)
  /\ tape g' = tape g /\ pos g' = (pos g + 28)%nat.
Proof.
  intros blob g' salt iv ciphertext. subst blob g'.
  split; [apply decrypt_of_encrypt|].
  split; [exact (proj1 (decryptKey_of_blob privateKey password password g))|].
  split; [intros other; exact (proj2 (decryptKey_of_blob privateKey password other g))|].
  split.
  - intros n Hle.
    rewrite (proj2 (decryptKey_of_blob privateKey password (password ++ nuls n) g)).
    rewrite (deriveKey_nuls password n _ Hle).
    by rewrite aes_gcm_correct, utf8_roundtrip.
  - unfold encryptKey, getRandomValues. cbn [fst snd tape pos]. split; [reflexivity | lia].
Qed.

(** With the toy primitives: key [KEY64], password "correct horse". *)
Lemma encrypt_then_decrypt_witness :
  let blob := fst (encryptKey KEY64 "correct horse" zero_rng) in
  let salt := map (tape zero_rng) (seq (pos zero_rng) 16) in
  let iv := map (tape zero_rng) (seq (pos zero_rng + 16) 12) in
  let ciphertext :=
    aes_gcm_encrypt (deriveKey "correct horse" salt) iv (utf8_encode KEY64) in
  decryptKey blob "correct horse" = inr KEY64
  /\ atob_bytes blob = inr (salt ++ iv ++ ciphertext)%list
  /\ (forall other,
        decryptKey blob other
        = match aes_gcm_decrypt (deriveKey other salt) iv ciphertext with
          | inl e => inl e
          | inr decrypted => inr (utf8_decode decrypted)
          end)
  /\ (forall n, (length (utf8_encode "correct horse") + n <= 64)%nat ->
        decryptKey blob ("correct horse" ++ nuls n) = inr KEY64)
  /\ tape (snd (encryptKey KEY64 "correct horse" zero_rng)) = tape zero_rng
  /\ pos (snd (encryptKey KEY64 "correct horse" zero_rng)) = (pos zero_rng + 28)%nat.
Proof.
  exact (encrypt_then_decrypt KEY64 "correct horse" zero_rng).
Defined.

(** Another password that opens the blob: "correct horse" followed by one NUL
    character. *)
Lemma padded_password_decrypts :
  let blob := fst (encryptKey KEY64 "correct horse" zero_rng) in
  let other := "correct horse" ++ nuls 1 in
  other <> "correct horse" /\ decryptKey blob other = inr KEY64.
Proof.
  intros blob other. split; [discriminate | vm_compute; reflexivity].
Qed.

(** *** The wallet session *)

(** C9. [disconnect] removes the stored blob and resets the session: after
    it the stored-wallet check answers false, [unlock] fails for every
    password without a single network call and without changing the storage,
    every other storage key, the price cache and the entropy source are as
    they were, and only a successful [connect] with the raw private key puts a
    blob back. *)
Theorem disconnect_forgets_the_key {wc : WebCrypto} {ethers : EthersLib} {disp : Display}
    (st : WalletState) (m : Mem) :
  let st' := fst (disconnect st m) in
  let m' := snd (disconnect st m) in
  hasStoredKey (localStorage m') = false
  /\ loadEncryptedKey (localStorage m') = None
  /\ st' = disconnectedState
  /\ (forall k, k <> STORAGE_KEY -> localStorage m' !! k = localStorage m !! k)
  /\ ethPriceCache m' = ethPriceCache m /\ rng m' = rng m
  /\ (forall password st0 w h,
        run w h (unlock password st0 m')
        = (h, inr (stopLoading st0, m', inl "No stored wallet")))
  /\ (forall privateKey password st0 w h h2 st2 m2,
        run w h (connect privateKey password st0 m') = (h2, inr (st2, m2, inr tt)) ->
        loadEncryptedKey (localStorage m2)
        = Some (fst (encryptKey privateKey password (rng m')))
        /\ exists wallet, connectHotWallet privateKey = inr wallet).
Proof.
  intros st' m'. subst st' m'. unfold disconnect. cbn [fst snd localStorage ethPriceCache rng].
  assert (Hnone : clearStoredKey (localStorage m) !! STORAGE_KEY = None)
    by apply lookup_delete_eq.
  repeat split.
  - unfold hasStoredKey. by rewrite Hnone.
  - exact Hnone.
  - intros k Hk. unfold clearStoredKey. by apply lookup_delete_ne.
  - intros password st0 w h. unfold unlock, loadEncryptedKey.
    cbn [localStorage]. rewrite Hnone. reflexivity.
  - revert H. unfold connect.
    destruct (connectHotWallet privateKey) as [e|wallet]; [simpl; congruence|].
    destruct (encryptKey privateKey password (rng m)) as [encrypted g'] eqn:Eenc.
    cbn [rng]. rewrite Eenc. rewrite run_mbind. unfold rawCall. cbn [run]. rewrite run_mbind.
    cbn [ethPriceCache localStorage].
    destruct (fetchEthPrice_total (ethPriceCache m) w
                (h ++ [(GetBalance (w_address wallet), rpc w h (GetBalance (w_address wallet)))])%list)
      as (h3 & pc & ->).
    destruct (rpc w h (GetBalance (w_address wallet))); simpl; intros H; inversion H; subst.
    cbn [localStorage fst]. unfold loadEncryptedKey, saveEncryptedKey.
    apply lookup_insert_eq.
  - revert H. unfold connect.
    destruct (connectHotWallet privateKey) as [e|wallet]; [simpl; congruence|]. eauto.
Qed.

(** * Further properties *)

(** ** Trade executor: what every run looks like *)

Ltac family_facts :=
  unfold dispatched_family;
  repeat match goal with
         | H : String.eqb _ _ = _ |- _ => rewrite H
         end;
  try reflexivity.

Ltac fee_facts :=
  repeat match goal with
         | H : decodeFee _ = inr _ |- _ => rewrite H
         end.

Ltac same_error :=
  repeat match goal with
         | H1 : ?x = inl _, H2 : ?x = inl _ |- _ =>
             rewrite H1 in H2; inversion H2; clear H2; subst
         | H1 : ?x = inr _, H2 : ?x = inl _ |- _ => rewrite H1 in H2; discriminate H2
         | H1 : ?x = inl _, H2 : ?x = inr _ |- _ => rewrite H1 in H2; discriminate H2
         | H1 : ?x = inr _, H2 : ?x = inr _ |- _ =>
             rewrite H1 in H2; inversion H2; clear H2; subst
         | H1 : ?x = true, H2 : ?x = false |- _ => rewrite H1 in H2; discriminate H2
         | H1 : ?l !! 1%nat = Some _, H2 : ?l !! 1%nat = None |- _ =>
             rewrite H1 in H2; discriminate H2
         end.

Ltac num_facts :=
  repeat match goal with
         | H : (_ <? _) = true |- _ => apply Z.ltb_lt in H
         | H : (_ <? _) = false |- _ => apply Z.ltb_ge in H
         | H : (_ =? _) = true |- _ => apply Z.eqb_eq in H
         | H : (_ =? _) = false |- _ => apply Z.eqb_neq in H
         end.

Section TradeShape.
Context {ethers : EthersLib}.

Lemma executeBuy_events (w : World) (p : TradeParams) (h' : list Event)
    (r : Error + TxHash) (ev : Event) :
  run w [] (executeBuy p) = (h', r) -> In ev h' ->
  (length h' <= 4)%nat
  /\ is_buy_call (fst ev) = true
  /\ (forall s, call_swap (fst ev) = Some s ->
        swap_router s = p_router p
        /\ swap_recipient s = w_address (p_wallet p)
        /\ swap_hops s = [(WETH_BASE, p_tokenAddress p)]
        /\ swap_family s = dispatched_family (p_dex p)
        /\ swap_value s = match parseEther (p_amount p) with inr a => Some a | inl _ => None end
        /\ (forall f, swap_fee s = Some f -> f = fee_or_3000 (p_fee p))
        /\ (forall b, In b (swap_stable s) -> b = stable_or_false (p_isStable p)))
  /\ (forall s gl mf mp, fst ev = SendSwap s gl mf mp ->
        mp = basePriorityFee
        /\ exists a fd, In (GetFeeData, a) h' /\ decodeFee a = inr fd
                        /\ mf = fd_maxFeePerGas fd).
Proof.
  unfold executeBuy. exec.
  all: intros H Hin; inversion H; subst; clear H; in_trace.
  all: split; [simpl; lia|]; split; [reflexivity|];
    (split;
     [ | intros s gl mf mp Hs; simpl in Hs;
         first [ discriminate Hs
               | inversion Hs; subst; clear Hs;
                 split; [reflexivity|]; eexists; eexists; split; [left; reflexivity|];
                 split; [eassumption | reflexivity] ] ]).
  all: intros s Hs; simpl in Hs; try discriminate Hs.
  all: inversion Hs; subst; clear Hs.
  all: simpl; unfold parseEther in *.
  all: repeat match goal with H : parseUnits _ _ = _ |- _ => rewrite H end.
  all: repeat split; try reflexivity; try family_facts.
  all: try (intros f Hf; inversion Hf; reflexivity).
  all: try (intros b Hb; simpl in Hb; intuition congruence).
Qed.

Lemma executeSell_events (w : World) (p : TradeParams) (h' : list Event)
    (r : Error + TxHash) (ev : Event) :
  run w [] (executeSell p) = (h', r) -> In ev h' ->
  (length h' <= 10)%nat
  /\ (forall s, call_swap (fst ev) = Some s ->
        swap_router s = p_router p
        /\ swap_recipient s = w_address (p_wallet p)
        /\ swap_hops s = [(p_tokenAddress p, WETH_BASE)]
        /\ swap_family s = dispatched_family (p_dex p)
        /\ swap_value s = None
        /\ (forall f, swap_fee s = Some f -> f = fee_or_3000 (p_fee p))
        /\ (forall b, In b (swap_stable s) -> b = stable_or_false (p_isStable p)))
  /\ (forall s gl mf mp, fst ev = SendSwap s gl mf mp ->
        mp = basePriorityFee
        /\ exists a fd, In (GetFeeData, a) h' /\ decodeFee a = inr fd
                        /\ mf = fd_maxFeePerGas fd).
Proof.
  unfold executeSell. exec.
  all: intros H Hin; inversion H; subst; clear H; in_trace.
  all: split; [simpl; lia|];
    (split;
     [ | intros s gl mf mp Hs; simpl in Hs;
         first [ discriminate Hs
               | inversion Hs; subst; clear Hs;
                 split; [reflexivity|]; eexists; eexists; split; [left; reflexivity|];
                 split; [eassumption | reflexivity] ] ]).
  all: intros s Hs; simpl in Hs; try discriminate Hs.
  all: inversion Hs; subst; clear Hs.
  all: simpl.
  all: repeat split; try reflexivity; try family_facts.
  all: try (intros f Hf; inversion Hf; reflexivity).
  all: try (intros b Hb; simpl in Hb; intuition congruence).
Qed.

(** *** Approvals *)

(** X5. Approval policy of a sell.  Every approval in a run is for the traded
    token, to the route's router, for [MaxUint256]; it comes directly after an
    allowance answer below [MaxUint256 / 2] and, when it returns a
    transaction, the very next call awaits that transaction (when it fails,
    the sell ends with its error).  After an allowance answer of at least
    [MaxUint256 / 2] the run contains no approval and no wait. *)
Theorem sell_approval_policy (w : World) (p : TradeParams) (h' : list Event)
    (r : Error + TxHash) :
  run w [] (executeSell p) = (h', r) ->
  (forall tok sp amt v, In (Erc20Approve tok sp amt, v) h' ->
     tok = p_tokenAddress p /\ sp = p_router p /\ amt = MaxUint256
     /\ exists e1 e2 e3 a n post,
          h' = ([e1; e2; e3;
                 (Erc20Allowance tok (w_address (p_wallet p)) sp, a);
                 (Erc20Approve tok sp amt, v)] ++ post)%list
          /\ decodeNum a = inr n /\ n < bigint_div MaxUint256 2
          /\ match decodeTx v with
             | inr tx => exists v' post', post = (TxWait tx, v') :: post'
             | inl e => post = [] /\ r = inl e
             end)
  /\ (forall tok own sp a n, In (Erc20Allowance tok own sp, a) h' ->
       decodeNum a = inr n -> bigint_div MaxUint256 2 <= n ->
       forall ev, In ev h' ->
         is_approve (fst ev) = false /\ (forall tx, fst ev <> TxWait tx)).
Proof.
  unfold executeSell, ensureApproval. exec.
  all: intros H; inversion H; subst; clear H.
  all: split;
    [ intros tok sp amt v Hin; in_trace
    | intros tok own sp a n Hin Hn Hge; in_trace; same_error; num_facts; try lia;
      intros ev Hev; in_trace; (split; [reflexivity | intros tx; discriminate]) ].
  all: split; [reflexivity|]; split; [reflexivity|]; split; [reflexivity|].
  all: do 5 eexists; eexists; split; [reflexivity|].
  all: split; [eassumption|]; split; [by apply Z.ltb_lt|].
  all: repeat match goal with H : decodeTx _ = _ |- _ => rewrite H end.
  all: first [ split; reflexivity | eexists; eexists; reflexivity ].
Qed.

(** *** Failed quotes *)

Lemma executeBuy_failed_quote (w : World) (p : TradeParams) (h' : list Event)
    (r : Error + TxHash) (c : Call) (a : Value) :
  run w [] (executeBuy p) = (h', r) ->
  In (c, a) h' -> is_quote c = true ->
  (forall e, decodeNums a = inl e -> includes "No liquidity" e = true ->
     (exists pre, h' = (pre ++ [(c, a)])%list) /\ r = inl e)
  /\ ((exists e, decodeNums a = inl e /\ includes "No liquidity" e = false)
      \/ (exists l, decodeNums a = inr l /\ l !! 1%nat = None) ->
      exists pre s gl mf mp ve v,
        h' = (pre ++ [(c, a); (EstimateGas s, ve); (SendSwap s gl mf mp, v)])%list
        /\ swap_amountOutMin s = 0 /\ r = decodeTx v).
Proof.
  unfold executeBuy. exec.
  all: intros H Hin Hq; inversion H; subst; clear H; in_trace;
       simpl in Hq; try discriminate Hq; clear Hq.
  all: split;
    [ intros ? He Hinc; same_error; try discriminate;
      (split; [split_list | reflexivity])
    | intros [(? & He & Hinc) | (? & Hl & Hidx)]; same_error; try discriminate;
      split_trace; (split; [reflexivity | symmetry; assumption]) ].
Qed.

Lemma executeSell_failed_quote (w : World) (p : TradeParams) (h' : list Event)
    (r : Error + TxHash) (c : Call) (a : Value) :
  run w [] (executeSell p) = (h', r) ->
  In (c, a) h' -> is_quote c = true ->
  (forall e, decodeNums a = inl e -> includes "Zero liquidity" e = true ->
     (exists pre, h' = (pre ++ [(c, a)])%list) /\ r = inl e)
  /\ ((exists e, decodeNums a = inl e /\ includes "Zero liquidity" e = false)
      \/ (exists l, decodeNums a = inr l /\ l !! 1%nat = None) ->
      exists pre s gl mf mp ve v,
        h' = (pre ++ [(c, a); (EstimateGas s, ve); (SendSwap s gl mf mp, v)])%list
        /\ swap_amountOutMin s = 0 /\ r = decodeTx v).
Proof.
  unfold executeSell. exec.
  all: intros H Hin Hq; inversion H; subst; clear H; in_trace;
       simpl in Hq; try discriminate Hq; clear Hq.
  all: split;
    [ intros ? He Hinc; same_error; try discriminate;
      (split; [split_list | reflexivity])
    | intros [(? & He & Hinc) | (? & Hl & Hidx)]; same_error; try discriminate;
      split_trace; (split; [reflexivity | symmetry; assumption]) ].
Qed.

(** *** One broadcast, and success only through it *)

Lemma executeBuy_outcome (w : World) (p : TradeParams) (h' : list Event)
    (r : Error + TxHash) :
  run w [] (executeBuy p) = (h', r) ->
  (length (List.filter (fun ev => is_send (fst ev)) h') <= 1)%nat
  /\ (forall tx, r = inr tx ->
       exists pre s gl mf mp v,
         h' = (pre ++ [(SendSwap s gl mf mp, v)])%list /\ decodeTx v = inr tx).
Proof.
  unfold executeBuy. exec.
  all: intros H; inversion H; subst; clear H.
  all: split; [simpl; lia|]; intros tx Htx; try discriminate Htx.
  all: inversion Htx; subst; clear Htx.
  all: split_trace; assumption.
Qed.

Lemma executeSell_outcome (w : World) (p : TradeParams) (h' : list Event)
    (r : Error + TxHash) :
  run w [] (executeSell p) = (h', r) ->
  (length (List.filter (fun ev => is_send (fst ev)) h') <= 1)%nat
  /\ (forall tx, r = inr tx ->
       exists pre s gl mf mp v,
         h' = (pre ++ [(SendSwap s gl mf mp, v)])%list /\ decodeTx v = inr tx).
Proof.
  unfold executeSell. exec.
  all: intros H; inversion H; subst; clear H.
  all: split; [simpl; lia|]; intros tx Htx; try discriminate Htx.
  all: inversion Htx; subst; clear Htx.
  all: first [ split_trace | eexists [_; _; _; _; _; _; _; _; _]; rest_of_split ];
       assumption.
Qed.

End TradeShape.

(** X1. A buy only ever asks for the fee data, a quote, a gas simulation and a
    broadcast, four calls at most: it reads no balance and no allowance, sends
    no approval and awaits nothing. *)
Theorem buy_touches_only_the_swap {ethers : EthersLib} (w : World) (p : TradeParams)
    (h' : list Event) (r : Error + TxHash) :
  run w [] (executeBuy p) = (h', r) ->
  (length h' <= 4)%nat /\ forall ev, In ev h' -> is_buy_call (fst ev) = true.
Proof.
  intros Hrun. split.
  - destruct h' as [|ev rest]; [simpl; lia|].
    exact (proj1 (executeBuy_events w p _ r ev Hrun (or_introl eq_refl))).
  - intros ev Hin. exact (proj1 (proj2 (executeBuy_events w p h' r ev Hrun Hin))).
Qed.

Lemma buy_touches_only_the_swap_witness :
  let h' := fst (run wealthy_world [] (executeBuy v2_params)) in
  (length h' <= 4)%nat /\ forall ev, In ev h' -> is_buy_call (fst ev) = true.
Proof.
  intros h'.
  apply (buy_touches_only_the_swap wealthy_world v2_params h'
           (snd (run wealthy_world [] (executeBuy v2_params)))).
  vm_compute. reflexivity.
Defined.

(** X2. Every swap a trade simulates or broadcasts is addressed to the router
    of the trade request, pays out to the wallet's own address and has the
    single hop wrapped-native -> token (buy) or token -> wrapped-native
    (sell); a buy attaches exactly the parsed amount as value, a sell
    attaches none. *)
Theorem swap_pays_the_trading_wallet {ethers : EthersLib} (w : World) (mode : Mode)
    (p : TradeParams) (h' : list Event) (r : Error + TxHash) :
  run w [] (execute mode p) = (h', r) ->
  forall ev s, In ev h' -> call_swap (fst ev) = Some s ->
    swap_router s = p_router p
    /\ swap_recipient s = w_address (p_wallet p)
    /\ swap_hops s = [trade_hop mode p]
    /\ swap_value s = match mode with
                      | Buy => match parseEther (p_amount p) with
                               | inr a => Some a
                               | inl _ => None
                               end
                      | Sell => None
                      end.
Proof.
  intros Hrun ev s Hin Hs. destruct mode; simpl in Hrun.
  - destruct (executeBuy_events w p h' r ev Hrun Hin) as (_ & _ & H & _).
    destruct (H s Hs) as (? & ? & ? & _ & ? & _). auto.
  - destruct (executeSell_events w p h' r ev Hrun Hin) as (_ & H & _).
    destruct (H s Hs) as (? & ? & ? & _ & ? & _). auto.
Qed.

Lemma swap_pays_the_trading_wallet_witness :
  let h' := fst (run wealthy_world [] (execute Sell v2_params)) in
  In (EstimateGas v2_sell_call, VNum 200000) h'
  /\ forall ev s, In ev h' -> call_swap (fst ev) = Some s ->
       swap_router s = UNISWAP_V2_ROUTER
       /\ swap_recipient s = WALLET_ADDRESS
       /\ swap_hops s = [(TOKEN, WETH_BASE)]
       /\ swap_value s = None.
Proof.
  intros h'. split; [vm_compute; auto 10|].
  apply (swap_pays_the_trading_wallet wealthy_world Sell v2_params h'
           (snd (run wealthy_world [] (execute Sell v2_params)))).
  vm_compute. reflexivity.
Defined.

(** X3. Fee policy of a broadcast: the priority fee is always the fixed
    100000 wei (0.0001 gwei), whatever the endpoint suggests, and the maximum
    fee is the one the fee-data read of this very run answered. *)
Theorem broadcast_fee_policy {ethers : EthersLib} (w : World) (mode : Mode)
    (p : TradeParams) (h' : list Event) (r : Error + TxHash) :
  run w [] (execute mode p) = (h', r) ->
  forall s gl mf mp v, In (SendSwap s gl mf mp, v) h' ->
    mp = 100000
    /\ exists a fd, In (GetFeeData, a) h' /\ decodeFee a = inr fd
                    /\ mf = fd_maxFeePerGas fd.
Proof.
  intros Hrun s gl mf mp v Hin. destruct mode; simpl in Hrun.
  - destruct (executeBuy_events w p h' r _ Hrun Hin) as (_ & _ & _ & H).
    exact (H s gl mf mp eq_refl).
  - destruct (executeSell_events w p h' r _ Hrun Hin) as (_ & _ & H).
    exact (H s gl mf mp eq_refl).
Qed.

Lemma broadcast_fee_policy_witness :
  let h' := fst (run wealthy_world [] (execute Sell v2_params)) in
  In (SendSwap v2_sell_call 260000 (Some 6000000) 100000, VTx "0xb2") h'
  /\ forall s gl mf mp v, In (SendSwap s gl mf mp, v) h' ->
       mp = 100000
       /\ exists a fd, In (GetFeeData, a) h' /\ decodeFee a = inr fd
                       /\ mf = fd_maxFeePerGas fd.
Proof.
  intros h'. split; [vm_compute; auto 10|].
  apply (broadcast_fee_policy wealthy_world Sell v2_params h'
           (snd (run wealthy_world [] (execute Sell v2_params)))).
  vm_compute. reflexivity.
Defined.

(** X4. How a trade picks the router interface: the exact name "Uniswap V3"
    gets the single-hop V3 call, with fee tier [params.fee] or 3000 when that
    is absent or zero; the exact name "Aerodrome" gets the Aerodrome call,
    with the stability flag of the request or [false] when absent; every
    other name, "None" included, is traded through the V2 interface. *)
Theorem route_dispatch {ethers : EthersLib} (w : World) (mode : Mode)
    (p : TradeParams) (h' : list Event) (r : Error + TxHash) :
  run w [] (execute mode p) = (h', r) ->
  forall ev s, In ev h' -> call_swap (fst ev) = Some s ->
    swap_family s = dispatched_family (p_dex p)
    /\ (p_dex p <> "Uniswap V3" -> p_dex p <> "Aerodrome" -> swap_family s = "Uniswap V2")
    /\ (forall f, swap_fee s = Some f ->
          f = match p_fee p with
              | Some n => if n =? 0 then 3000 else n
              | None => 3000
              end)
    /\ (forall b, In b (swap_stable s) -> b = default false (p_isStable p)).
Proof.
  intros Hrun ev s Hin Hs.
  assert (swap_family s = dispatched_family (p_dex p)
          /\ (forall f, swap_fee s = Some f -> f = fee_or_3000 (p_fee p))
          /\ (forall b, In b (swap_stable s) -> b = stable_or_false (p_isStable p)))
    as (Hfam & Hfee & Hst).
  { destruct mode; simpl in Hrun.
    - destruct (executeBuy_events w p h' r ev Hrun Hin) as (_ & _ & H & _).
      destruct (H s Hs) as (_ & _ & _ & ? & _ & ? & ?). auto.
    - destruct (executeSell_events w p h' r ev Hrun Hin) as (_ & H & _).
      destruct (H s Hs) as (_ & _ & _ & ? & _ & ? & ?). auto. }
  split; [exact Hfam|]. split; [|split; [exact Hfee | exact Hst]].
  intros H3 Ha. rewrite Hfam. unfold dispatched_family.
  destruct (String.eqb_spec (p_dex p) "Uniswap V3"); [contradiction|].
  destruct (String.eqb_spec (p_dex p) "Aerodrome"); [contradiction|]. reflexivity.
Qed.

(** A request whose route is "None" is still traded, through the V2 call. *)
Lemma route_dispatch_witness :
  let p := scenario_params "None" "" 15 in
  let h' := fst (run wealthy_world [] (execute Buy p)) in
  (exists s ve, In (EstimateGas s, ve) h' /\ swap_family s = "Uniswap V2")
  /\ forall ev s, In ev h' -> call_swap (fst ev) = Some s ->
       swap_family s = dispatched_family (p_dex p)
       /\ (p_dex p <> "Uniswap V3" -> p_dex p <> "Aerodrome" -> swap_family s = "Uniswap V2")
       /\ (forall f, swap_fee s = Some f ->
             f = match p_fee p with
                 | Some n => if n =? 0 then 3000 else n
                 | None => 3000
                 end)
       /\ (forall b, In b (swap_stable s) -> b = default false (p_isStable p)).
Proof.
  intros p h'. split.
  - eexists; eexists. split; [vm_compute; right; right; left; reflexivity | reflexivity].
  - apply (route_dispatch wealthy_world Buy p h' (snd (run wealthy_world [] (execute Buy p)))).
    vm_compute. reflexivity.
Defined.

(** With no allowance the approval for [MaxUint256] is sent and awaited; with
    a full allowance no approval appears. *)
Lemma sell_approval_policy_witness :
  let h1 := fst (run low_gas_world [] (executeSell v2_params)) in
  let h2 := fst (run wealthy_world [] (executeSell v2_params)) in
  (In (Erc20Approve TOKEN UNISWAP_V2_ROUTER MaxUint256, VTx "0xa1") h1
   /\ exists e1 e2 e3 a n post,
        h1 = ([e1; e2; e3; (Erc20Allowance TOKEN WALLET_ADDRESS UNISWAP_V2_ROUTER, a);
               (Erc20Approve TOKEN UNISWAP_V2_ROUTER MaxUint256, VTx "0xa1")] ++ post)%list
        /\ decodeNum a = inr n /\ n < bigint_div MaxUint256 2
        /\ exists v' post', post = (TxWait "0xa1", v') :: post')
  /\ (forall ev, In ev h2 ->
        is_approve (fst ev) = false /\ (forall tx, fst ev <> TxWait tx)).
Proof.
  intros h1 h2.
  assert (Hrun1 : run low_gas_world [] (executeSell v2_params)
                  = (h1, snd (run low_gas_world [] (executeSell v2_params))))
    by (vm_compute; reflexivity).
  assert (Hrun2 : run wealthy_world [] (executeSell v2_params)
                  = (h2, snd (run wealthy_world [] (executeSell v2_params))))
    by (vm_compute; reflexivity).
  assert (Hin1 : In (Erc20Approve TOKEN UNISWAP_V2_ROUTER MaxUint256, VTx "0xa1") h1)
    by (vm_compute; do 4 right; left; reflexivity).
  assert (Hin2 : In (Erc20Allowance TOKEN WALLET_ADDRESS UNISWAP_V2_ROUTER,
                     VNum MaxUint256) h2)
    by (vm_compute; do 3 right; left; reflexivity).
  split.
  - split; [exact Hin1|].
    destruct (sell_approval_policy low_gas_world v2_params h1 _ Hrun1) as [Happ _].
    destruct (Happ TOKEN UNISWAP_V2_ROUTER MaxUint256 (VTx "0xa1") Hin1)
      as (_ & _ & _ & e1 & e2 & e3 & a & n & post & Hh & Ha & Hn & Hpost).
    exists e1, e2, e3, a, n, post. repeat split; assumption.
  - destruct (sell_approval_policy wealthy_world v2_params h2 _ Hrun2) as [_ Hnone].
    apply (Hnone TOKEN WALLET_ADDRESS UNISWAP_V2_ROUTER (VNum MaxUint256) MaxUint256 Hin2).
    + reflexivity.
    + vm_compute. discriminate.
Defined.

(** X6. A quote that fails is swallowed unless its error text carries the
    marker its [catch] looks for ("No liquidity" on a buy, "Zero liquidity"
    on a sell): the trade goes on to simulate and broadcast the swap with a
    minimum output of zero.  The same happens when the quote answers fewer
    than two amounts.  An error that carries the marker ends the trade. *)
Theorem failed_quote_is_swallowed {ethers : EthersLib} (w : World) (mode : Mode)
    (p : TradeParams) (h' : list Event) (r : Error + TxHash) (c : Call) (a : Value) :
  run w [] (execute mode p) = (h', r) ->
  In (c, a) h' -> is_quote c = true ->
  (forall e, decodeNums a = inl e -> includes (quote_marker mode) e = true ->
     (exists pre, h' = (pre ++ [(c, a)])%list) /\ r = inl e)
  /\ ((exists e, decodeNums a = inl e /\ includes (quote_marker mode) e = false)
      \/ (exists l, decodeNums a = inr l /\ l !! 1%nat = None) ->
      exists pre s gl mf mp ve v,
        h' = (pre ++ [(c, a); (EstimateGas s, ve); (SendSwap s gl mf mp, v)])%list
        /\ swap_amountOutMin s = 0 /\ r = decodeTx v).
Proof.
  intros Hrun Hin Hq. destruct mode; simpl in Hrun; simpl quote_marker.
  - exact (executeBuy_failed_quote w p h' r c a Hrun Hin Hq).
  - exact (executeSell_failed_quote w p h' r c a Hrun Hin Hq).
Qed.

(** A buy whose quote call fails with "missing revert data" is broadcast
    with floor 0. *)
Lemma failed_quote_is_swallowed_witness :
  let c := V2GetAmountsOut UNISWAP_V2_ROUTER (10 ^ 18) [WETH_BASE; TOKEN] in
  let h' := fst (run quote_down_world [] (execute Buy v2_params)) in
  exists pre s gl mf mp ve v,
    h' = (pre ++ [(c, VErr "missing revert data"); (EstimateGas s, ve);
                  (SendSwap s gl mf mp, v)])%list
    /\ swap_amountOutMin s = 0 /\ inr "0xb2" = decodeTx v.
Proof.
  intros c h'.
  destruct (failed_quote_is_swallowed quote_down_world Buy v2_params h' (inr "0xb2") c
              (VErr "missing revert data")) as [_ H].
  - vm_compute. reflexivity.
  - vm_compute. auto 10.
  - reflexivity.
  - apply H. left. exists "missing revert data". split; vm_compute; reflexivity.
Defined.

(** X7. On the V2 and Aerodrome routes a quote whose output amount is zero
    ends the trade at the quote: nothing is simulated or broadcast, and the
    error carries the marker of its direction. *)
Theorem zero_quote_aborts_the_trade {ethers : EthersLib} (w : World) (mode : Mode)
    (p : TradeParams) (h' : list Event) (r : Error + TxHash) (c : Call)
    (amounts : list Z) :
  run w [] (execute mode p) = (h', r) ->
  In (c, VNums amounts) h' -> is_quote c = true -> amounts !! 1%nat = Some 0 ->
  exists pre msg,
    h' = (pre ++ [(c, VNums amounts)])%list
    /\ r = inl msg /\ includes (quote_marker mode) msg = true.
Proof.
  intros Hrun Hin Hq Hz. destruct mode; simpl in Hrun; simpl quote_marker.
  - exact (executeBuy_zero_quote w p h' r c amounts Hrun Hin Hq Hz).
  - exact (executeSell_zero_quote w p h' r c amounts Hrun Hin Hq Hz).
Qed.

Lemma zero_quote_aborts_the_trade_witness :
  let c := V2GetAmountsOut UNISWAP_V2_ROUTER (10 ^ 18) [TOKEN; WETH_BASE] in
  exists pre msg,
    fst (run zero_quote_world [] (execute Sell v2_params))
    = (pre ++ [(c, VNums [10 ^ 18; 0])])%list
    /\ snd (run zero_quote_world [] (execute Sell v2_params)) = inl msg
    /\ includes (quote_marker Sell) msg = true.
Proof.
  intros c.
  apply (zero_quote_aborts_the_trade zero_quote_world Sell v2_params).
  - vm_compute. reflexivity.
  - vm_compute. auto 10.
  - reflexivity.
  - reflexivity.
Defined.

(** X8. A trade broadcasts at most once, and it returns a transaction only
    when its last call was a broadcast that answered that transaction. *)
Theorem one_broadcast_per_trade {ethers : EthersLib} (w : World) (mode : Mode)
    (p : TradeParams) (h' : list Event) (r : Error + TxHash) :
  run w [] (execute mode p) = (h', r) ->
  (length (List.filter (fun ev => is_send (fst ev)) h') <= 1)%nat
  /\ (forall tx, r = inr tx ->
       exists pre s gl mf mp v,
         h' = (pre ++ [(SendSwap s gl mf mp, v)])%list /\ decodeTx v = inr tx).
Proof.
  intros Hrun. destruct mode; simpl in Hrun.
  - exact (executeBuy_outcome w p h' r Hrun).
  - exact (executeSell_outcome w p h' r Hrun).
Qed.

Lemma one_broadcast_per_trade_witness :
  let h' := fst (run wealthy_world [] (execute Sell v2_params)) in
  (length (List.filter (fun ev => is_send (fst ev)) h') <= 1)%nat
  /\ (forall tx, snd (run wealthy_world [] (execute Sell v2_params)) = inr tx ->
       exists pre s gl mf mp v,
         h' = (pre ++ [(SendSwap s gl mf mp, v)])%list /\ decodeTx v = inr tx).
Proof.
  intros h'.
  apply (one_broadcast_per_trade wealthy_world Sell v2_params h'
           (snd (run wealthy_world [] (execute Sell v2_params)))).
  vm_compute. reflexivity.
Defined.

(** ** Liquidity resolver: results and probe order *)

Lemma probeV2Style_shape (w : World) (factory : address) (name : string)
    (rtr token : address) (h h' : list Event) (x : Error + option LiquidityResult) :
  run w h (probeV2Style factory name rtr token) = (h', x) ->
  exists evs,
    h' = (h ++ evs)%list /\ v2_probe_calls factory token (calls evs)
    /\ match x with
       | inr (Some res) =>
           res = mkLiquidityResult name rtr (pairAddress res) true None None
           /\ pairAddress res <> ZeroAddress
       | inr None => True
       | inl _ => False
       end.
Proof.
  rewrite run_probeV2Style. cbv zeta.
  set (g := FactoryGetPair factory token WETH_BASE).
  pose (ok := fun y : Error + option LiquidityResult =>
          match y with
          | inr (Some res) =>
              res = mkLiquidityResult name rtr (pairAddress res) true None None
              /\ pairAddress res <> ZeroAddress
          | inr None => True
          | inl _ => False
          end).
  change (match rpc w h g with
          | VAddr pr =>
              if String.eqb pr ZeroAddress then ((h ++ [(g, rpc w h g)])%list, inr None)
              else
                match rpc w (h ++ [(g, rpc w h g)]) (Erc20BalanceOf WETH_BASE pr) with
                | VNum n =>
                    if 0 <? n
                    then (((h ++ [(g, rpc w h g)]) ++
                           [(Erc20BalanceOf WETH_BASE pr,
                             rpc w (h ++ [(g, rpc w h g)]) (Erc20BalanceOf WETH_BASE pr))])%list,
                          inr (Some (mkLiquidityResult name rtr pr true None None)))
                    else (((h ++ [(g, rpc w h g)]) ++
                           [(Erc20BalanceOf WETH_BASE pr,
                             rpc w (h ++ [(g, rpc w h g)]) (Erc20BalanceOf WETH_BASE pr))])%list,
                          inr None)
                | _ => (((h ++ [(g, rpc w h g)]) ++
                         [(Erc20BalanceOf WETH_BASE pr,
                           rpc w (h ++ [(g, rpc w h g)]) (Erc20BalanceOf WETH_BASE pr))])%list,
                        inr None)
                end
          | _ => ((h ++ [(g, rpc w h g)])%list, inr None)
          end = (h', x) ->
          exists evs, h' = (h ++ evs)%list /\ v2_probe_calls factory token (calls evs) /\ ok x).
  assert (Hone : forall v, exists evs,
            (h ++ [(g, v)])%list = (h ++ evs)%list
            /\ v2_probe_calls factory token (calls evs) /\ ok (inr None)).
  { intros v. exists [(g, v)]. split; [reflexivity|]. split; [by left | exact I]. }
  assert (Htwo : forall pr v vb y, ok y -> exists evs,
            ((h ++ [(g, v)]) ++ [(Erc20BalanceOf WETH_BASE pr, vb)])%list = (h ++ evs)%list
            /\ v2_probe_calls factory token (calls evs) /\ ok y).
  { intros pr v vb y Hy. exists [(g, v); (Erc20BalanceOf WETH_BASE pr, vb)]. split.
    - rewrite <- app_assoc. reflexivity.
    - split; [right; exists pr; reflexivity | exact Hy]. }
  destruct (rpc w h g) as [e|n|ns|pr|fd|tx|];
    try (intros H; inversion H; subst; apply Hone).
  destruct (String.eqb pr ZeroAddress) eqn:Ez;
    [intros H; inversion H; subst; apply Hone|].
  assert (Hpr : pr <> ZeroAddress).
  { intros ->. by rewrite String.eqb_refl in Ez. }
  destruct (rpc w _ (Erc20BalanceOf WETH_BASE pr)) as [e|n|ns|a|fd|tx|];
    try (intros H; inversion H; subst; apply Htwo; exact I).
  destruct (0 <? n); intros H; inversion H; subst; apply Htwo;
    [split; [reflexivity | exact Hpr] | exact I].
Qed.

Lemma probeV3_shape (w : World) (token : address) (tiers : list Z)
    (h h' : list Event) (x : Error + option LiquidityResult) :
  run w h (probeV3 token tiers) = (h', x) ->
  exists evs k,
    h' = (h ++ evs)%list
    /\ calls evs = map (FactoryGetPool UNISWAP_V3_FACTORY token WETH_BASE) (take k tiers)
    /\ match x with
       | inr (Some res) =>
           exists f, tiers !! (k - 1)%nat = Some f /\ (1 <= k)%nat
             /\ res = mkLiquidityResult "Uniswap V3" UNISWAP_V3_ROUTER (pairAddress res)
                        true (Some f) None
             /\ pairAddress res <> ZeroAddress
       | inr None => k = length tiers
       | inl _ => False
       end.
Proof.
  revert h. induction tiers as [|f tiers IH]; intros h; cbn [probeV3].
  - simpl. intros H; inversion H. exists [], 0%nat. rewrite app_nil_r. auto.
  - rewrite run_mbind, run_try_catch. simpl.
    set (c := FactoryGetPool UNISWAP_V3_FACTORY token WETH_BASE f).
    assert (Hnext : run w (h ++ [(c, rpc w h c)]) (probeV3 token tiers) = (h', x) ->
      exists evs k,
        h' = (h ++ evs)%list
        /\ calls evs
           = map (FactoryGetPool UNISWAP_V3_FACTORY token WETH_BASE) (take k (f :: tiers))
        /\ match x with
           | inr (Some res) =>
               exists f0, (f :: tiers) !! (k - 1)%nat = Some f0 /\ (1 <= k)%nat
                 /\ res = mkLiquidityResult "Uniswap V3" UNISWAP_V3_ROUTER (pairAddress res)
                            true (Some f0) None
                 /\ pairAddress res <> ZeroAddress
           | inr None => k = length (f :: tiers)
           | inl _ => False
           end).
    { intros H. apply IH in H. destruct H as (evs & k & -> & Hc & Hx).
      exists ((c, rpc w h c) :: evs), (S k). split; [by rewrite <- app_assoc|].
      split; [simpl; by rewrite Hc|].
      destruct x as [e|[res|]]; [exact Hx | | simpl; by rewrite Hx].
      destruct Hx as (f0 & Hf0 & Hk & Hres & Hp).
      exists f0. split; [|split; [lia | auto]].
      destruct k as [|k]; [lia|]. simpl in *. by rewrite Nat.sub_0_r in Hf0. }
    destruct (rpc w h c) as [e|n|ns|pool|fd|tx|] eqn:E; simpl; try exact Hnext.
    destruct (String.eqb pool ZeroAddress) eqn:Ez; simpl; [exact Hnext|].
    intros H; inversion H; subst. exists [(c, VAddr pool)], 1%nat.
    split; [reflexivity|]. split; [reflexivity|].
    exists f. repeat split; auto.
    simpl. intros ->. by rewrite String.eqb_refl in Ez.
Qed.

(** Every run of the resolver: a V2 probe, then unless it returned an
    Aerodrome probe, then unless that returned the V3 tiers in order. *)
Lemma checkLiquidityFast_shape (w : World) (token : address) (h' : list Event)
    (x : Error + LiquidityResult) :
  run w [] (checkLiquidityFast token) = (h', x) ->
  exists res c1 c2 k,
    x = inr res
    /\ calls h' = (c1 ++ c2
                  ++ map (FactoryGetPool UNISWAP_V3_FACTORY token WETH_BASE) (take k feeTiers))%list
    /\ v2_probe_calls UNISWAP_V2_FACTORY token c1
    /\ pairAddress res <> ZeroAddress
    /\ ((res = mkLiquidityResult "Uniswap V2" UNISWAP_V2_ROUTER (pairAddress res) true None None
         /\ c2 = [] /\ k = 0%nat)
        \/ (v2_probe_calls AERODROME_FACTORY token c2
            /\ ((res = mkLiquidityResult "Aerodrome" AERODROME_ROUTER (pairAddress res)
                         true None None /\ k = 0%nat)
                \/ (exists f, feeTiers !! (k - 1)%nat = Some f /\ (1 <= k)%nat
                       /\ res = mkLiquidityResult "Uniswap V3" UNISWAP_V3_ROUTER
                                  (pairAddress res) true (Some f) None)
                \/ (res = mkLiquidityResult "None" "" "" false None None
                    /\ k = length feeTiers)))).
Proof.
  unfold checkLiquidityFast. rewrite run_mbind.
  destruct (run w [] (probeV2Style UNISWAP_V2_FACTORY _ _ token)) as [h1 x1] eqn:E1.
  apply probeV2Style_shape in E1. destruct E1 as (ev1 & Hh1 & Hc1 & Hx1).
  simpl in Hh1. subst h1.
  destruct x1 as [e|[r1|]]; [contradiction | |].
  - simpl. intros H. injection H as Hh Hx. subst h' x. destruct Hx1 as [Hr1 Hp1].
    exists r1, (calls ev1), [], 0%nat. simpl. rewrite app_nil_r. auto 10.
  - rewrite run_mbind.
    destruct (run w ev1 (probeV2Style AERODROME_FACTORY _ _ token)) as [h2 x2] eqn:E2.
    apply probeV2Style_shape in E2. destruct E2 as (ev2 & -> & Hc2 & Hx2).
    destruct x2 as [e|[r2|]]; [contradiction | |].
    + simpl. intros H. injection H as Hh Hx. subst h' x. destruct Hx2 as [Hr2 Hp2].
      exists r2, (calls ev1), (calls ev2), 0%nat. simpl. rewrite app_nil_r.
      unfold calls. rewrite map_app. auto 10.
    + rewrite run_mbind.
      destruct (run w (ev1 ++ ev2) (probeV3 token feeTiers)) as [h3 x3] eqn:E3.
      apply probeV3_shape in E3. destruct E3 as (ev3 & k & -> & Hc3 & Hx3).
      destruct x3 as [e|[r3|]]; [contradiction | |].
      * simpl. intros H. injection H as Hh Hx. subst h' x.
        destruct Hx3 as (f & Hf & Hk & Hr3 & Hp3).
        exists r3, (calls ev1), (calls ev2), k.
        unfold calls in *. rewrite !map_app, <- app_assoc.
        split; [reflexivity|]. split; [do 2 f_equal; exact Hc3|]. split; [exact Hc1|].
        split; [exact Hp3|]. right. split; [exact Hc2|]. right. left. eauto.
      * simpl. intros H. injection H as Hh Hx. subst h' x.
        exists (mkLiquidityResult "None" "" "" false None None), (calls ev1), (calls ev2), k.
        unfold calls in *. rewrite !map_app, <- app_assoc.
        split; [reflexivity|]. split; [do 2 f_equal; exact Hc3|]. split; [exact Hc1|].
        split; [discriminate|]. right. split; [exact Hc2|]. right. right. auto.
Qed.

(** X9. Route discovery never throws: whatever the endpoints answer, and
    after any history, [checkLiquidityFast] returns a result. *)
Theorem route_discovery_never_throws (w : World) (token : address) (h : list Event) :
  exists h' res, run w h (checkLiquidityFast token) = (h', inr res).
Proof. exact (checkLiquidityFast_never_throws token w h). Qed.

(** X10. A route on Uniswap V2 or Aerodrome is returned only for a pair that
    is not the zero address and whose wrapped-native balance was read in this
    very run and found strictly positive; the router is the one of the
    family. *)
Theorem v2_style_route_has_confirmed_balance (w : World) (token : address)
    (h' : list Event) (res : LiquidityResult) :
  run w [] (checkLiquidityFast token) = (h', inr res) ->
  hasLiquidity res = true ->
  dex res <> "Uniswap V3" ->
  pairAddress res <> ZeroAddress
  /\ (router res = UNISWAP_V2_ROUTER \/ router res = AERODROME_ROUTER)
  /\ exists n, 0 < n /\ In (Erc20BalanceOf WETH_BASE (pairAddress res), VNum n) h'.
Proof. apply checkLiquidityFast_v2_style_confirmed. Qed.

Lemma v2_style_route_has_confirmed_balance_witness :
  let h' := fst (run world_empty_v2_pair [] (checkLiquidityFast TOKEN)) in
  PAIR_AERO <> ZeroAddress
  /\ (AERODROME_ROUTER = UNISWAP_V2_ROUTER \/ AERODROME_ROUTER = AERODROME_ROUTER)
  /\ exists n, 0 < n /\ In (Erc20BalanceOf WETH_BASE PAIR_AERO, VNum n) h'.
Proof.
  intros h'.
  apply (v2_style_route_has_confirmed_balance world_empty_v2_pair TOKEN h'
           (mkLiquidityResult "Aerodrome" AERODROME_ROUTER PAIR_AERO true None None)).
  - vm_compute. reflexivity.
  - reflexivity.
  - vm_compute. discriminate.
Defined.

(** X11. What a returned route looks like.  Either it is the no-liquidity
    route (family "None", empty router and pair, no fee), or [hasLiquidity]
    is true, the pair is not the zero address, no stability flag is set, and
    family, router and fee go together: Uniswap V2 or Aerodrome with their
    own router and no fee, or Uniswap V3 with its router and one of the fee
    tiers 3000, 10000, 500. *)
Theorem returned_route_is_well_formed (w : World) (token : address)
    (h' : list Event) (res : LiquidityResult) :
  run w [] (checkLiquidityFast token) = (h', inr res) ->
  (hasLiquidity res = false /\ res = mkLiquidityResult "None" "" "" false None None)
  \/ (hasLiquidity res = true /\ pairAddress res <> ZeroAddress /\ isStable res = None
      /\ ((dex res = "Uniswap V2" /\ router res = UNISWAP_V2_ROUTER /\ fee res = None)
          \/ (dex res = "Aerodrome" /\ router res = AERODROME_ROUTER /\ fee res = None)
          \/ (dex res = "Uniswap V3" /\ router res = UNISWAP_V3_ROUTER
              /\ exists f, fee res = Some f /\ In f [3000; 10000; 500]))).
Proof.
  intros Hrun. apply checkLiquidityFast_shape in Hrun.
  destruct Hrun as (res' & c1 & c2 & k & Hres & _ & _ & Hp & Hcases).
  injection Hres as <-.
  destruct Hcases as [(Hr & _ & _) | (_ & [(Hr & _) | [(f & Hf & Hk & Hr) | (Hr & _)]])].
  - right. rewrite Hr. simpl. repeat split; auto.
  - right. rewrite Hr. simpl. repeat split; auto.
  - right. rewrite Hr. simpl. repeat split; auto.
    right. right. repeat split. exists f. split; [reflexivity|].
    unfold feeTiers in Hf.
    destruct k as [|[|[|[|k]]]]; simpl in Hf; try discriminate; try lia;
      inversion Hf; subst; simpl; auto.
  - left. rewrite Hr. auto.
Qed.

Lemma returned_route_is_well_formed_witness :
  let res := mkLiquidityResult "Uniswap V3" UNISWAP_V3_ROUTER POOL true (Some 500) None in
  (hasLiquidity res = false /\ res = mkLiquidityResult "None" "" "" false None None)
  \/ (hasLiquidity res = true /\ pairAddress res <> ZeroAddress /\ isStable res = None
      /\ ((dex res = "Uniswap V2" /\ router res = UNISWAP_V2_ROUTER /\ fee res = None)
          \/ (dex res = "Aerodrome" /\ router res = AERODROME_ROUTER /\ fee res = None)
          \/ (dex res = "Uniswap V3" /\ router res = UNISWAP_V3_ROUTER
              /\ exists f, fee res = Some f /\ In f [3000; 10000; 500]))).
Proof.
  intros res.
  apply (returned_route_is_well_formed world_v3_low_tier TOKEN
           (fst (run world_v3_low_tier [] (checkLiquidityFast TOKEN))) res).
  vm_compute. reflexivity.
Defined.

(** X12. Probe order.  The calls of a run are: the V2 factory lookup, with
    the balance read of the pair it answered if any; then, unless the V2
    route was returned, the same for the Aerodrome factory; then, unless the
    Aerodrome route was returned, the V3 factory lookups for the tiers 3000,
    10000, 500 in this order, stopping at the tier that is returned.  No
    family is asked once a family before it has been returned. *)
Theorem probes_follow_priority (w : World) (token : address)
    (h' : list Event) (res : LiquidityResult) :
  run w [] (checkLiquidityFast token) = (h', inr res) ->
  exists c1 c2 k,
    calls h' = (c1 ++ c2
                ++ map (FactoryGetPool UNISWAP_V3_FACTORY token WETH_BASE)
                     (take k [3000; 10000; 500]))%list
    /\ v2_probe_calls UNISWAP_V2_FACTORY token c1
    /\ ((dex res = "Uniswap V2" /\ c2 = [] /\ k = 0%nat)
        \/ (v2_probe_calls AERODROME_FACTORY token c2
            /\ ((dex res = "Aerodrome" /\ k = 0%nat)
                \/ (dex res = "Uniswap V3" /\ (1 <= k <= 3)%nat
                    /\ fee res = [3000; 10000; 500] !! (k - 1)%nat)
                \/ (dex res = "None" /\ k = 3%nat)))).
Proof.
  intros Hrun. apply checkLiquidityFast_shape in Hrun.
  destruct Hrun as (res' & c1 & c2 & k & Hres & Hcalls & Hc1 & _ & Hcases).
  injection Hres as <-.
  exists c1, c2, k. split; [exact Hcalls|]. split; [exact Hc1|].
  destruct Hcases as [(Hr & -> & ->) | (Hc2 & [(Hr & ->) | [(f & Hf & Hk & Hr) | (Hr & ->)]])].
  - left. rewrite Hr. auto.
  - right. split; [exact Hc2|]. left. rewrite Hr. auto.
  - right. split; [exact Hc2|]. right. left. rewrite Hr. simpl.
    split; [reflexivity|]. split; [|by rewrite <- Hf].
    split; [exact Hk|]. apply lookup_lt_Some in Hf. simpl in Hf. lia.
  - right. split; [exact Hc2|]. right. right. rewrite Hr. auto.
Qed.

Lemma probes_follow_priority_witness :
  exists c1 c2 k,
    calls (fst (run world_v3_low_tier [] (checkLiquidityFast TOKEN)))
    = (c1 ++ c2
       ++ map (FactoryGetPool UNISWAP_V3_FACTORY TOKEN WETH_BASE)
            (take k [3000; 10000; 500]))%list
    /\ v2_probe_calls UNISWAP_V2_FACTORY TOKEN c1
    /\ (("Uniswap V3" = "Uniswap V2" /\ c2 = [] /\ k = 0%nat)
        \/ (v2_probe_calls AERODROME_FACTORY TOKEN c2
            /\ (("Uniswap V3" = "Aerodrome" /\ k = 0%nat)
                \/ ("Uniswap V3" = "Uniswap V3" /\ (1 <= k <= 3)%nat
                    /\ Some 500 = [3000; 10000; 500] !! (k - 1)%nat)
                \/ ("Uniswap V3" = "None" /\ k = 3%nat)))).
Proof.
  apply (probes_follow_priority world_v3_low_tier TOKEN
           (fst (run world_v3_low_tier [] (checkLiquidityFast TOKEN)))
           (mkLiquidityResult "Uniswap V3" UNISWAP_V3_ROUTER POOL true (Some 500) None)).
  vm_compute. reflexivity.
Defined.

(** X13. When every call is rejected, discovery still answers: it has asked
    the two V2-style factories and the three V3 tiers, five calls, and
    returns the no-liquidity route. *)
Theorem unreachable_chain_means_no_liquidity (w : World) (token : address) :
  (forall h c, exists e, rpc w h c = VErr e) ->
  calls (fst (run w [] (checkLiquidityFast token)))
  = [ FactoryGetPair UNISWAP_V2_FACTORY token WETH_BASE;
      FactoryGetPair AERODROME_FACTORY token WETH_BASE;
      FactoryGetPool UNISWAP_V3_FACTORY token WETH_BASE 3000;
      FactoryGetPool UNISWAP_V3_FACTORY token WETH_BASE 10000;
      FactoryGetPool UNISWAP_V3_FACTORY token WETH_BASE 500 ]
  /\ snd (run w [] (checkLiquidityFast token))
     = inr (mkLiquidityResult "None" "" "" false None None).
Proof.
  intros Hall. unfold checkLiquidityFast, probeV2Style, feeTiers. simpl.
  repeat match goal with
         | |- context [rpc w ?h ?c] =>
             let e := fresh "e" in destruct (Hall h c) as [e ->]; simpl
         end.
  split; reflexivity.
Qed.

Lemma unreachable_chain_means_no_liquidity_witness :
  calls (fst (run dead_world [] (checkLiquidityFast TOKEN)))
  = [ FactoryGetPair UNISWAP_V2_FACTORY TOKEN WETH_BASE;
      FactoryGetPair AERODROME_FACTORY TOKEN WETH_BASE;
      FactoryGetPool UNISWAP_V3_FACTORY TOKEN WETH_BASE 3000;
      FactoryGetPool UNISWAP_V3_FACTORY TOKEN WETH_BASE 10000;
      FactoryGetPool UNISWAP_V3_FACTORY TOKEN WETH_BASE 500 ]
  /\ snd (run dead_world [] (checkLiquidityFast TOKEN))
     = inr (mkLiquidityResult "None" "" "" false None None).
Proof.
  apply (unreachable_chain_means_no_liquidity dead_world TOKEN).
  intros h c. exists "network error". reflexivity.
Defined.

(** ** From the discovered route to the confirmed trade *)

Lemma execute_outcome {ethers : EthersLib} (w : World) (mode : Mode) (p : TradeParams)
    (h' : list Event) (r : Error + TxHash) :
  run w [] (execute mode p) = (h', r) ->
  (length (List.filter (fun ev => is_send (fst ev)) h') <= 1)%nat
  /\ (forall tx, r = inr tx ->
       exists pre s gl mf mp v,
         h' = (pre ++ [(SendSwap s gl mf mp, v)])%list /\ decodeTx v = inr tx).
Proof.
  intros Hrun. destruct mode; simpl in Hrun.
  - exact (executeBuy_outcome w p h' r Hrun).
  - exact (executeSell_outcome w p h' r Hrun).
Qed.

(** X14. Submitting a trade from the panel never throws and broadcasts at
    most once.  When the guard is off, or wallet, token or route is missing,
    nothing is called.  The trade is reported confirmed only when the last
    two calls are the broadcast, answering the transaction, and the wait for
    that very transaction, answering without error. *)
Theorem trade_confirmed_only_after_inclusion {ethers : EthersLib} (w : World)
    (canTrade : bool) (mode : Mode) (wallet : option Wallet)
    (tokenAddress : option address) (liquidity : option LiquidityResult)
    (amount : string) (slippage : JsNumber) (h' : list Event) (out : Error + TradeToast) :
  run w [] (handleTrade canTrade mode wallet tokenAddress liquidity amount slippage)
  = (h', out) ->
  (exists toast, out = inr toast)
  /\ (canTrade = false \/ wallet = None \/ tokenAddress = None \/ liquidity = None ->
      h' = [] /\ out = inr NoToast)
  /\ (forall tx, out = inr (TradeConfirmed tx) ->
        exists pre s gl mf mp v v',
          h' = (pre ++ [(SendSwap s gl mf mp, v); (TxWait tx, v')])%list
          /\ decodeTx v = inr tx /\ decodeUnit v' = inr tt)
  /\ (length (List.filter (fun ev => is_send (fst ev)) h') <= 1)%nat.
Proof.
  unfold handleTrade.
  destruct canTrade, wallet as [wl|], tokenAddress as [t|], liquidity as [l|];
    try (simpl; intros H; injection H as <- <-;
         split; [eauto|]; split; [auto|]; split; [discriminate | simpl; lia]).
  rewrite run_try_catch, run_mbind.
  destruct (run w [] (execute mode (tradeParams t amount slippage wl l))) as [h1 [e|tx]] eqn:E;
    destruct (execute_outcome w mode _ h1 _ E) as [Hone Hok].
  - simpl. intros H; injection H as <- <-.
    split; [eauto|]. split; [intros [?|[?|[?|?]]]; discriminate|].
    split; [discriminate | exact Hone].
  - destruct (Hok tx eq_refl) as (pre & s & gl & mf & mp & v & Hh1 & Hv).
    simpl. set (v' := rpc w h1 (TxWait tx)).
    assert (Hlen : (length (List.filter (fun ev : Event => is_send (fst ev))
                              (h1 ++ [(TxWait tx, v')])) <= 1)%nat).
    { rewrite List.filter_app, length_app. simpl. rewrite Nat.add_0_r. exact Hone. }
    destruct (decodeUnit v') as [e|[]] eqn:Ev; simpl; intros H; injection H as <- <-.
    + split; [eauto|]. split; [intros [?|[?|[?|?]]]; discriminate|].
      split; [discriminate | exact Hlen].
    + split; [eauto|]. split; [intros [?|[?|[?|?]]]; discriminate|].
      split; [|exact Hlen].
      intros tx' Htx. injection Htx as <-.
      exists pre, s, gl, mf, mp, v, v'. rewrite Hh1, <- app_assoc. auto.
Qed.

Lemma trade_confirmed_only_after_inclusion_witness :
  let liq := mkLiquidityResult "Uniswap V2" UNISWAP_V2_ROUTER PAIR_V2 true None None in
  let prog := handleTrade true Sell (Some scenario_wallet) (Some TOKEN) (Some liq) "1" (js_of_Z 15) in
  snd (run wealthy_world [] prog) = inr (TradeConfirmed "0xb2")
  /\ exists pre s gl mf mp v v',
       fst (run wealthy_world [] prog)
       = (pre ++ [(SendSwap s gl mf mp, v); (TxWait "0xb2", v')])%list
       /\ decodeTx v = inr "0xb2" /\ decodeUnit v' = inr tt.
Proof.
  intros liq prog.
  assert (Hrun : run wealthy_world [] prog
                 = (fst (run wealthy_world [] prog), inr (TradeConfirmed "0xb2")))
    by (vm_compute; reflexivity).
  split; [vm_compute; reflexivity|].
  destruct (trade_confirmed_only_after_inclusion wealthy_world true Sell
              (Some scenario_wallet) (Some TOKEN) (Some liq) "1" (js_of_Z 15) _ _ Hrun)
    as (_ & _ & Hok & _).
  exact (Hok "0xb2" eq_refl).
Defined.

(** X15. Discovery and execution fit together: when the route that
    [checkLiquidityFast] returned (with liquidity) is handed to a trade the
    way the panel does, every swap the trade simulates or broadcasts uses the
    interface of the discovered family and the router of the route; on V3 its
    fee tier is the tier at which the pool was found; on Aerodrome the hop is
    always the volatile one, since discovery never sets a stability flag. *)
Theorem trade_follows_the_discovered_route {ethers : EthersLib} (w0 w : World)
    (token : address) (h0 : list Event) (liq : LiquidityResult) (mode : Mode)
    (amount : string) (slippage : JsNumber) (wallet : Wallet)
    (h' : list Event) (r : Error + TxHash) :
  run w0 [] (checkLiquidityFast token) = (h0, inr liq) ->
  hasLiquidity liq = true ->
  run w [] (execute mode (tradeParams token amount slippage wallet liq)) = (h', r) ->
  forall ev s, In ev h' -> call_swap (fst ev) = Some s ->
    swap_family s = dex liq
    /\ swap_router s = router liq
    /\ (forall f, swap_fee s = Some f -> fee liq = Some f)
    /\ (forall b, In b (swap_stable s) -> b = false).
Proof.
  intros Hliq Hhas Hrun ev s Hin Hs.
  assert (Hev : swap_router s = router liq
                /\ swap_family s = dispatched_family (dex liq)
                /\ (forall f, swap_fee s = Some f -> f = fee_or_3000 (fee liq))
                /\ (forall b, In b (swap_stable s) -> b = stable_or_false (isStable liq))).
  { destruct mode; unfold execute in Hrun.
    - destruct (executeBuy_events w _ h' r ev Hrun Hin) as (_ & _ & H & _).
      destruct (H s Hs) as (? & _ & _ & ? & _ & ? & ?). auto.
    - destruct (executeSell_events w _ h' r ev Hrun Hin) as (_ & H & _).
      destruct (H s Hs) as (? & _ & _ & ? & _ & ? & ?). auto. }
  destruct Hev as (Hrt & Hfam & Hfee & Hst).
  apply checkLiquidityFast_shape in Hliq.
  destruct Hliq as (res & c1 & c2 & k & Hres & _ & _ & _ & Hcases).
  injection Hres as <-.
  assert (Hfields : forall d rt fe,
            liq = mkLiquidityResult d rt (pairAddress liq) true fe None ->
            dex liq = d /\ fee liq = fe /\ isStable liq = None).
  { intros d rt fe ->. auto. }
  destruct Hcases as [(Hr & _ & _) | (_ & [(Hr & _) | [(f & Hf & Hk & Hr) | (Hr & _)]])].
  - destruct (Hfields _ _ _ Hr) as (Hd & Hfe & Hsb).
    rewrite Hd in Hfam |- *. rewrite Hsb in Hst.
    split; [exact Hfam|]. split; [exact Hrt|]. split; [|exact Hst].
    intros f Hf. destruct s; simpl in *; discriminate.
  - destruct (Hfields _ _ _ Hr) as (Hd & Hfe & Hsb).
    rewrite Hd in Hfam |- *. rewrite Hsb in Hst.
    split; [exact Hfam|]. split; [exact Hrt|]. split; [|exact Hst].
    intros f Hf. destruct s; simpl in *; discriminate.
  - destruct (Hfields _ _ _ Hr) as (Hd & Hfe & Hsb).
    rewrite Hd in Hfam |- *. rewrite Hsb in Hst. rewrite Hfe in Hfee |- *.
    split; [exact Hfam|]. split; [exact Hrt|]. split; [|exact Hst].
    intros f' Hf'. rewrite (Hfee f' Hf'). unfold feeTiers in Hf.
    destruct k as [|[|[|[|k]]]]; simpl in Hf; try discriminate; try lia;
      inversion Hf; subst; reflexivity.
  - rewrite Hr in Hhas. discriminate Hhas.
Qed.

Lemma trade_follows_the_discovered_route_witness :
  let liq := mkLiquidityResult "Uniswap V3" UNISWAP_V3_ROUTER POOL true (Some 500) None in
  let h' := fst (run wealthy_world [] (execute Buy (tradeParams TOKEN "1" (js_of_Z 15) scenario_wallet liq))) in
  (exists s ve, In (EstimateGas s, ve) h' /\ swap_fee s = Some 500)
  /\ forall ev s, In ev h' -> call_swap (fst ev) = Some s ->
       swap_family s = "Uniswap V3"
       /\ swap_router s = UNISWAP_V3_ROUTER
       /\ (forall f, swap_fee s = Some f -> Some 500 = Some f)
       /\ (forall b, In b (swap_stable s) -> b = false).
Proof.
  intros liq h'. split.
  - eexists; eexists. split; [vm_compute; right; left; reflexivity | reflexivity].
  - apply (trade_follows_the_discovered_route world_v3_low_tier wealthy_world TOKEN
             (fst (run world_v3_low_tier [] (checkLiquidityFast TOKEN))) liq Buy "1" (js_of_Z 15)
             scenario_wallet h'
             (snd (run wealthy_world [] (execute Buy (tradeParams TOKEN "1" (js_of_Z 15) scenario_wallet liq))))).
    + vm_compute. reflexivity.
    + reflexivity.
    + vm_compute. reflexivity.
Defined.

(** ** Price oracle and balance refresh *)

(** X16. The native price is advisory: [fetchEthPrice] never rejects, makes
    at most two calls, both to the price feed, and either leaves the cache as
    it was or leaves in it exactly the price it returns. *)
Theorem native_price_is_best_effort (w : World) (h : list Event)
    (cache : option PriceCache) :
  exists evs p cache',
    run w h (fetchEthPrice cache) = ((h ++ evs)%list, inr (p, cache'))
    /\ (length evs <= 2)%nat
    /\ (forall ev, In ev evs ->
          fst ev = FeedLatestRoundData ETH_USD_FEED \/ fst ev = FeedDecimals ETH_USD_FEED)
    /\ (cache' = cache \/ exists ts, cache' = Some (mkPriceCache p ts)).
Proof.
  assert (Hread : exists evs p cache',
    run w h (readFeed cache) = ((h ++ evs)%list, inr (p, cache'))
    /\ (length evs <= 2)%nat
    /\ (forall ev, In ev evs ->
          fst ev = FeedLatestRoundData ETH_USD_FEED \/ fst ev = FeedDecimals ETH_USD_FEED)
    /\ (cache' = cache \/ exists ts, cache' = Some (mkPriceCache p ts))).
  { unfold readFeed, readFeedBody. rewrite run_try_catch. simpl.
    set (v1 := rpc w h (FeedLatestRoundData ETH_USD_FEED)).
    destruct (decodeNums v1) as [e|round]; simpl.
    { exists [(FeedLatestRoundData ETH_USD_FEED, v1)]. do 2 eexists.
      split; [reflexivity|]. split; [simpl; lia|]. split; [|by left].
      intros ev [<-|[]]. by left. }
    destruct (round !! 1%nat) as [answer|]; simpl.
    2:{ exists [(FeedLatestRoundData ETH_USD_FEED, v1)]. do 2 eexists.
        split; [reflexivity|]. split; [simpl; lia|]. split; [|by left].
        intros ev [<-|[]]. by left. }
    set (v2 := rpc w _ (FeedDecimals ETH_USD_FEED)).
    exists [(FeedLatestRoundData ETH_USD_FEED, v1); (FeedDecimals ETH_USD_FEED, v2)].
    destruct (decodeNum v2) as [e|d]; simpl; do 2 eexists;
      (split; [rewrite <- app_assoc; reflexivity|]); (split; [simpl; lia|]);
      (split; [intros ev [<-|[<-|[]]]; [by left | by right] |]).
    - by left.
    - right. eexists. reflexivity. }
  destruct cache as [c|]; simpl; [|exact Hread].
  destruct (clock w h - timestamp c <? CACHE_TTL); [|exact Hread].
  simpl. exists [], (price c), (Some c). rewrite app_nil_r.
  split; [reflexivity|]. split; [simpl; lia|]. split; [intros ev []|by left].
Qed.

(** X17. A balance refresh never rejects and never changes who is connected:
    wallet, address, short address and the connected, loading and stored
    flags are kept; when the balance read fails the whole session state is
    left as it was. *)
Theorem refresh_keeps_the_session {ethers : EthersLib} {disp : Display}
    (w : World) (h : list Event) (addr : string) (st : WalletState)
    (cache : option PriceCache) :
  exists h' st' cache',
    run w h (refreshBalance addr st cache) = (h', inr (st', cache'))
    /\ ws_wallet st' = ws_wallet st /\ ws_address st' = ws_address st
    /\ ws_shortAddress st' = ws_shortAddress st
    /\ ws_isConnected st' = ws_isConnected st /\ ws_isLoading st' = ws_isLoading st
    /\ ws_hasStored st' = ws_hasStored st
    /\ (forall e, decodeNum (rpc w h (GetBalance addr)) = inl e -> st' = st).
Proof.
  unfold refreshBalance, rawCall. rewrite run_mbind. cbn [run]. rewrite run_mbind.
  set (v := rpc w h (GetBalance addr)).
  destruct (fetchEthPrice_total cache w (h ++ [(GetBalance addr, v)])%list)
    as (h3 & [p cache'] & ->).
  destruct v; simpl; do 3 eexists; (split; [reflexivity|]); repeat split;
    intros e He; try reflexivity; discriminate He.
Qed.

(** ** Key custody and the wallet session *)

Lemma trim_start_length (s : string) :
  (String.length (trim_start s) <= String.length s)%nat.
Proof.
  induction s as [|c s IH]; simpl; [lia|].
  destruct (is_space c); simpl; lia.
Qed.

Lemma trim_end_idem (s : string) : trim_end (trim_end s) = trim_end s.
Proof.
  induction s as [|c s IH]; [reflexivity|].
  cbn [trim_end]. destruct (trim_end s) as [|d t] eqn:Et.
  - destruct (is_space c) eqn:Ec; [reflexivity|].
    cbn [trim_end]. by rewrite Ec.
  - cbn [trim_end] in IH |- *. cbn [trim_end]. 
    destruct (trim_end t) as [|d' t'] eqn:Et'.
    + destruct (is_space d) eqn:Ed; [discriminate IH|].
      by rewrite IH.
    + by rewrite IH.
Qed.

Lemma trim_end_keeps_start (t : string) :
  trim_start t = t -> trim_start (trim_end t) = trim_end t.
Proof.
  destruct t as [|c t]; [reflexivity|].
  cbn [trim_start]. destruct (is_space c) eqn:Ec.
  - intros H. pose proof (trim_start_length t) as Hl.
    rewrite H in Hl. cbn [String.length] in Hl. lia.
  - intros _. cbn [trim_end].
    destruct (trim_end t); [rewrite Ec|]; cbn [trim_start]; by rewrite Ec.
Qed.

Lemma trim_start_idem (s : string) : trim_start (trim_start s) = trim_start s.
Proof.
  induction s as [|c s IH]; [reflexivity|].
  cbn [trim_start]. destruct (is_space c) eqn:Ec; [exact IH|].
  cbn [trim_start]. by rewrite Ec.
Qed.

Lemma trim_idem (s : string) : trim (trim s) = trim s.
Proof.
  unfold trim.
  rewrite (trim_end_keeps_start _ (trim_start_idem s)).
  apply trim_end_idem.
Qed.

Lemma trim_end_cons (c : ascii) (t : string) :
  is_space c = false -> trim_end t = t -> trim_end (String c t) = String c t.
Proof.
  intros Hc Ht. cbn [trim_end]. rewrite Ht.
  destruct t; [by rewrite Hc | reflexivity].
Qed.

Lemma prefix_0x (t : string) : String.prefix "0x" ("0x" ++ t) = true.
Proof.
  change ("0x" ++ t) with (String "0" (String "x" t)). cbn [String.prefix].
  destruct (Ascii.ascii_dec "0" "0"); [|congruence].
  destruct (Ascii.ascii_dec "x" "x"); [|congruence].
  by destruct t.
Qed.

(** What the session does after the key was accepted: one balance read for
    the wallet's address, then the price. *)
Lemma session_reads {ethers : EthersLib} {disp : Display} (w : World) (h : list Event)
    (wl : Wallet) (st : WalletState) (cache : option PriceCache)
    (mem : option PriceCache -> Mem) :
  let v := rpc w h (GetBalance (w_address wl)) in
  exists rest pc,
    run w h (rb ← rawCall (GetBalance (w_address wl));
             pc ← fetchEthPrice cache;
             let m' := mem (snd pc) in
             match rb with
             | VNum balance =>
                 Ret (connectedState wl (formatEther balance) (fst pc), m', inr tt)
             | VErr err => Ret (stopLoading st, m', inl err)
             | _ => Ret (stopLoading st, m', inl decode_error)
             end)
    = ((h ++ (GetBalance (w_address wl), v) :: rest)%list,
       inr (match v with
            | VNum balance => connectedState wl (formatEther balance) (fst pc)
            | _ => stopLoading st
            end,
            mem (snd pc),
            match decodeNum v with inr _ => inr tt | inl e => inl e end)).
Proof.
  intros v. unfold rawCall. rewrite run_mbind. cbn [run]. fold v. rewrite run_mbind.
  destruct (fetchEthPrice_total cache w (h ++ [(GetBalance (w_address wl), v)])%list)
    as (h3 & pc & Hrun).
  destruct (run_extends w (fetchEthPrice cache) (h ++ [(GetBalance (w_address wl), v)])%list)
    as [rest Hext].
  rewrite Hrun in Hext |- *. cbn [fst] in Hext. subst h3.
  exists rest, pc. rewrite <- app_assoc. cbn [app].
  destruct v; reflexivity.
Qed.

Lemma connect_accepted {wc : WebCrypto} {ethers : EthersLib} {disp : Display}
    (w : World) (h : list Event) (s password : string) (st : WalletState) (m : Mem)
    (wl : Wallet) :
  connectHotWallet s = inr wl ->
  let v := rpc w h (GetBalance (w_address wl)) in
  exists rest pc,
    run w h (connect s password st m)
    = ((h ++ (GetBalance (w_address wl), v) :: rest)%list,
       inr (match v with
            | VNum balance => connectedState wl (formatEther balance) (fst pc)
            | _ => stopLoading st
            end,
            mkMem (saveEncryptedKey (fst (encryptKey s password (rng m))) (localStorage m))
                  (snd pc) (snd (encryptKey s password (rng m))),
            match decodeNum v with inr _ => inr tt | inl e => inl e end)).
Proof.
  intros Hwl v. unfold connect. rewrite Hwl.
  destruct (encryptKey s password (rng m)) as [encrypted g'] eqn:Eenc.
  cbn [fst snd].
  apply (session_reads w h wl st (ethPriceCache m)
           (fun c => mkMem (saveEncryptedKey encrypted (localStorage m)) c g')).
Qed.

Lemma unlock_accepted {wc : WebCrypto} {ethers : EthersLib} {disp : Display}
    (w : World) (h : list Event) (password : string) (st : WalletState) (m : Mem)
    (blob key : string) (wl : Wallet) :
  loadEncryptedKey (localStorage m) = Some blob ->
  truthy blob = true ->
  decryptKey blob password = inr key ->
  connectHotWallet key = inr wl ->
  let v := rpc w h (GetBalance (w_address wl)) in
  exists rest pc,
    run w h (unlock password st m)
    = ((h ++ (GetBalance (w_address wl), v) :: rest)%list,
       inr (match v with
            | VNum balance => connectedState wl (formatEther balance) (fst pc)
            | _ => stopLoading st
            end,
            mkMem (localStorage m) (snd pc) (rng m),
            match decodeNum v with inr _ => inr tt | inl e => inl e end)).
Proof.
  intros Hload Htruthy Hdec Hwl v. unfold unlock.
  rewrite Hload, Htruthy, Hdec, Hwl. cbn [negb].
  apply (session_reads w h wl st (ethPriceCache m)
           (fun c => mkMem (localStorage m) c (rng m))).
Qed.

Lemma hexlify_length (k : string) : String.length (hexlify k) = String.length k.
Proof. induction k as [|c k IH]; simpl; [reflexivity | by rewrite IH]. Qed.

Lemma lower_hex_digit_idem (c : ascii) : lower_hex_digit (lower_hex_digit c) = lower_hex_digit c.
Proof.
  unfold lower_hex_digit.
  destruct ((65 <=? nat_of_ascii c) && (nat_of_ascii c <=? 70))%nat eqn:E; [|by rewrite E].
  apply andb_true_iff in E. destruct E as [E1 E2].
  apply Nat.leb_le in E1. apply Nat.leb_le in E2.
  rewrite nat_ascii_embedding by lia.
  replace ((65 <=? nat_of_ascii c + 32) && (nat_of_ascii c + 32 <=? 70))%nat with false;
    [reflexivity|].
  symmetry. apply andb_false_iff. right. apply Nat.leb_gt. lia.
Qed.

Lemma hexlify_idem (k : string) : hexlify (hexlify k) = hexlify k.
Proof.
  induction k as [|c k IH]; simpl; [reflexivity|].
  by rewrite lower_hex_digit_idem, IH.
Qed.

(** X18. What counts as a private key: surrounding white space and a missing
    [0x] prefix make no difference to [connectHotWallet]; it accepts exactly
    the inputs whose trimmed, prefixed form is [0x] followed by 64 hex digits
    and from which an address can be derived; an input of another form is
    rejected as "Invalid private key format" before the key reaches the
    address derivation; the wallet it returns has the address derived from
    that form and holds the key in lower case, 66 characters long. *)
Theorem private_key_normalisation {ethers : EthersLib} (s : string) :
  connectHotWallet (trim s) = connectHotWallet s
  /\ (String.prefix "0x" (trim s) = false ->
      connectHotWallet ("0x" ++ trim s) = connectHotWallet s)
  /\ (forall wl, connectHotWallet s = inr wl ->
        key_regex (normalizeKey s) = true
        /\ computeAddress (normalizeKey s) = inr (w_address wl)
        /\ w_privateKey wl = hexlify (normalizeKey s)
        /\ hexlify (w_privateKey wl) = w_privateKey wl
        /\ String.length (w_privateKey wl) = 66%nat)
  /\ (key_regex (normalizeKey s) = false ->
      connectHotWallet s = inl "Invalid private key format")
  /\ (forall a, key_regex (normalizeKey s) = true ->
        computeAddress (normalizeKey s) = inr a ->
        connectHotWallet s = inr (mkWallet a (hexlify (normalizeKey s)))).
Proof.
  split; [|split; [|split; [|split]]].
  - unfold connectHotWallet. by rewrite trim_idem.
  - intros Hp. unfold connectHotWallet.
    assert (Ht : trim ("0x" ++ trim s) = "0x" ++ trim s).
    { change ("0x" ++ trim s) with (String "0" (String "x" (trim s))).
      assert (Hx : trim_end (String "x" (trim s)) = String "x" (trim s)).
      { apply trim_end_cons; [reflexivity | unfold trim; apply trim_end_idem]. }
      unfold trim at 1. cbn [trim_start].
      change (is_space "0") with false. cbv iota.
      by apply trim_end_cons. }
    rewrite Ht, Hp, prefix_0x. reflexivity.
  - intros wl. unfold connectHotWallet. fold (normalizeKey s).
    destruct (key_regex (normalizeKey s)) eqn:Hk; [|discriminate]. cbn [negb].
    destruct (computeAddress (normalizeKey s)) as [e|a] eqn:Ha; [discriminate|].
    intros H. injection H as <-. cbn [w_address w_privateKey].
    split; [reflexivity|]. split; [reflexivity|]. split; [reflexivity|].
    split; [apply hexlify_idem|].
    rewrite hexlify_length. unfold key_regex in Hk.
    apply andb_true_iff in Hk. destruct Hk as [Hk _].
    apply andb_true_iff in Hk. destruct Hk as [_ Hk]. by apply Nat.eqb_eq.
  - intros Hk. unfold connectHotWallet. fold (normalizeKey s). by rewrite Hk.
  - intros a Hk Ha. unfold connectHotWallet. fold (normalizeKey s).
    by rewrite Hk, Ha.
Qed.

(** X19. A malformed key is refused before anything happens: [connect]
    rejects with "Invalid private key format" without a network call, without
    drawing entropy and without touching the storage or the price cache; the
    session only stops loading. *)
Theorem malformed_key_changes_nothing {wc : WebCrypto} {ethers : EthersLib}
    {disp : Display} (w : World) (h : list Event) (privateKey password : string)
    (st : WalletState) (m : Mem) :
  key_regex (normalizeKey privateKey) = false ->
  run w h (connect privateKey password st m)
  = (h, inr (stopLoading st, m, inl "Invalid private key format")).
Proof.
  intros Hk. unfold connect, connectHotWallet. fold (normalizeKey privateKey).
  rewrite Hk. reflexivity.
Qed.

Lemma malformed_key_changes_nothing_witness :
  let m := mkMem ∅ None zero_rng in
  run dead_world [] (connect "0x1234" "correct horse" disconnectedState m)
  = ([], inr (stopLoading disconnectedState, m, inl "Invalid private key format")).
Proof.
  intros m.
  apply (malformed_key_changes_nothing dead_world [] "0x1234" "correct horse"
           disconnectedState m).
  vm_compute. reflexivity.
Defined.

(** X20. [connect] stores the encrypted key before it reads the chain: with
    an accepted key the blob made from the raw input, the password and 28
    fresh random bytes is in the storage whatever the reads answer, every
    other storage key is kept, and the first call is the balance read for the
    wallet's address.  The session becomes connected exactly when that read
    answers a number; otherwise the promise rejects with the read's error and
    the session state, its stored flag included, is only taken out of
    loading. *)
Theorem connect_stores_before_it_reads {wc : WebCrypto} {ethers : EthersLib}
    {disp : Display} (w : World) (h : list Event) (privateKey password : string)
    (st : WalletState) (m : Mem) (wl : Wallet) :
  connectHotWallet privateKey = inr wl ->
  exists rest st' m' res,
    run w h (connect privateKey password st m)
    = ((h ++ (GetBalance (w_address wl), rpc w h (GetBalance (w_address wl))) :: rest)%list,
       inr (st', m', res))
    /\ loadEncryptedKey (localStorage m')
       = Some (fst (encryptKey privateKey password (rng m)))
    /\ (forall k, k <> STORAGE_KEY -> localStorage m' !! k = localStorage m !! k)
    /\ tape (rng m') = tape (rng m) /\ pos (rng m') = (pos (rng m) + 28)%nat
    /\ (forall balance, decodeNum (rpc w h (GetBalance (w_address wl))) = inr balance ->
          res = inr tt /\ ws_wallet st' = Some wl /\ ws_address st' = w_address wl
          /\ ws_isConnected st' = true /\ ws_hasStored st' = true
          /\ ws_isLoading st' = false)
    /\ (forall e, decodeNum (rpc w h (GetBalance (w_address wl))) = inl e ->
          res = inl e /\ st' = stopLoading st).
Proof.
  intros Hwl.
  destruct (connect_accepted w h privateKey password st m wl Hwl) as (rest & pc & Hrun).
  do 4 eexists. split; [exact Hrun|]. cbn [localStorage rng].
  split; [apply lookup_insert_eq|].
  split; [intros k Hk; unfold saveEncryptedKey; by apply lookup_insert_ne|].
  split; [reflexivity|]. split; [cbn; lia|].
  split.
  - intros balance Hb. destruct (rpc w h (GetBalance (w_address wl))); try discriminate Hb.
    repeat split.
  - intros e He. destruct (rpc w h (GetBalance (w_address wl))); try discriminate He;
      cbn in He |- *; inversion He; split; reflexivity.
Qed.

Lemma connect_stores_before_it_reads_witness :
  let m := mkMem ∅ None zero_rng in
  let wl := mkWallet WALLET_ADDRESS ("0x" ++ KEY64) in
  exists rest st' m' res,
    run dead_world [] (connect KEY64 "correct horse" disconnectedState m)
    = (([] ++ (GetBalance (w_address wl), rpc dead_world [] (GetBalance (w_address wl)))
           :: rest)%list,
       inr (st', m', res))
    /\ loadEncryptedKey (localStorage m')
       = Some (fst (encryptKey KEY64 "correct horse" (rng m)))
    /\ (forall k, k <> STORAGE_KEY -> localStorage m' !! k = localStorage m !! k)
    /\ tape (rng m') = tape (rng m) /\ pos (rng m') = (pos (rng m) + 28)%nat
    /\ (forall balance,
          decodeNum (rpc dead_world [] (GetBalance (w_address wl))) = inr balance ->
          res = inr tt /\ ws_wallet st' = Some wl /\ ws_address st' = w_address wl
          /\ ws_isConnected st' = true /\ ws_hasStored st' = true
          /\ ws_isLoading st' = false)
    /\ (forall e, decodeNum (rpc dead_world [] (GetBalance (w_address wl))) = inl e ->
          res = inl e /\ st' = stopLoading disconnectedState).
Proof.
  intros m wl.
  apply (connect_stores_before_it_reads dead_world [] KEY64 "correct horse"
           disconnectedState m wl).
  vm_compute. reflexivity.
Defined.

(** X21. Unlocking gives back the wallet that was connected: after a
    successful [connect] that left a stored key, [unlock] with the same
    password, in any later session and on any chain state, decrypts the key,
    reads the balance of the same address and, when that read answers,
    restores the same wallet; storage and entropy are left as they are.  The
    browser primitives are taken with their functional specifications
    [WebCryptoLaws]. *)
Theorem unlock_restores_the_wallet {wc : WebCrypto} {laws : WebCryptoLaws wc}
    {ethers : EthersLib} {disp : Display}
    (w : World) (h : list Event) (privateKey password : string)
    (st : WalletState) (m : Mem) (h1 : list Event) (st1 : WalletState) (m1 : Mem) :
  run w h (connect privateKey password st m) = (h1, inr (st1, m1, inr tt)) ->
  hasStoredKey (localStorage m1) = true ->
  exists wl,
    ws_wallet st1 = Some wl
    /\ forall w2 h2 st2,
         exists rest st3 m3 res,
           run w2 h2 (unlock password st2 m1)
           = ((h2 ++ (GetBalance (w_address wl), rpc w2 h2 (GetBalance (w_address wl)))
                  :: rest)%list,
              inr (st3, m3, res))
           /\ localStorage m3 = localStorage m1 /\ rng m3 = rng m1
           /\ (forall balance,
                 decodeNum (rpc w2 h2 (GetBalance (w_address wl))) = inr balance ->
                 res = inr tt /\ ws_wallet st3 = Some wl
                 /\ ws_address st3 = ws_address st1
                 /\ ws_shortAddress st3 = ws_shortAddress st1
                 /\ ws_isConnected st3 = true /\ ws_hasStored st3 = true)
           /\ (forall e,
                 decodeNum (rpc w2 h2 (GetBalance (w_address wl))) = inl e ->
                 res = inl e /\ st3 = stopLoading st2).
Proof.
  intros Hrun Hstored.
  destruct (connectHotWallet privateKey) as [e|wl] eqn:Hwl.
  { unfold connect in Hrun. rewrite Hwl in Hrun. cbn in Hrun. congruence. }
  destruct (connect_accepted w h privateKey password st m wl Hwl) as (rest & pc & Hrun').
  rewrite Hrun in Hrun'.
  injection Hrun' as Hh Hst Hm Hres.
  assert (Hv : exists b, rpc w h (GetBalance (w_address wl)) = VNum b).
  { destruct (rpc w h (GetBalance (w_address wl))); try discriminate Hres. eauto. }
  destruct Hv as [b Hv]. rewrite Hv in Hst.
  exists wl. split; [by subst st1|].
  intros w2 h2 st2.
  pose proof (decrypt_of_encrypt privateKey password (rng m)) as Hdec.
  assert (Hload : loadEncryptedKey (localStorage m1)
                  = Some (fst (encryptKey privateKey password (rng m)))).
  { subst m1. apply lookup_insert_eq. }
  assert (Htruthy : truthy (fst (encryptKey privateKey password (rng m))) = true).
  { unfold hasStoredKey in Hstored. unfold loadEncryptedKey in Hload.
    by rewrite Hload in Hstored. }
  destruct (unlock_accepted w2 h2 password st2 m1 _ _ wl Hload Htruthy Hdec Hwl)
    as (rest2 & pc2 & Hrun2).
  do 4 eexists. split; [exact Hrun2|]. cbn [localStorage rng].
  split; [reflexivity|]. split; [reflexivity|].
  split.
  - intros balance Hb. destruct (rpc w2 h2 (GetBalance (w_address wl))); try discriminate Hb.
    subst st1. repeat split.
  - intros e He. destruct (rpc w2 h2 (GetBalance (w_address wl))); try discriminate He;
      cbn in He |- *; inversion He; split; reflexivity.
Qed.

Lemma unlock_restores_the_wallet_witness :
  let m := mkMem ∅ None zero_rng in
  let out := snd (run wealthy_world [] (connect KEY64 "correct horse" disconnectedState m)) in
  let st1 := match out with inr (s, _, _) => s | inl _ => disconnectedState end in
  let m1 := match out with inr (_, m', _) => m' | inl _ => m end in
  exists wl,
    ws_wallet st1 = Some wl
    /\ forall w2 h2 st2,
         exists rest st3 m3 res,
           run w2 h2 (unlock "correct horse" st2 m1)
           = ((h2 ++ (GetBalance (w_address wl), rpc w2 h2 (GetBalance (w_address wl)))
                  :: rest)%list,
              inr (st3, m3, res))
           /\ localStorage m3 = localStorage m1 /\ rng m3 = rng m1
           /\ (forall balance,
                 decodeNum (rpc w2 h2 (GetBalance (w_address wl))) = inr balance ->
                 res = inr tt /\ ws_wallet st3 = Some wl
                 /\ ws_address st3 = ws_address st1
                 /\ ws_shortAddress st3 = ws_shortAddress st1
                 /\ ws_isConnected st3 = true /\ ws_hasStored st3 = true)
           /\ (forall e,
                 decodeNum (rpc w2 h2 (GetBalance (w_address wl))) = inl e ->
                 res = inl e /\ st3 = stopLoading st2).
Proof.
  intros m out st1 m1.
  apply (unlock_restores_the_wallet wealthy_world [] KEY64 "correct horse"
           disconnectedState m
           (fst (run wealthy_world [] (connect KEY64 "correct horse" disconnectedState m)))
           st1 m1).
  - vm_compute. reflexivity.
  - vm_compute. reflexivity.
Defined.

(** X22. [unlock] reads the chain only for the wallet of the key it decrypted
    from the stored blob.  When nothing is stored, the stored text is empty,
    decryption fails (wrong password, damaged blob) or the decrypted text is
    not an acceptable key, it rejects without a single call and leaves
    storage, price cache and entropy as they were, the session only stops
    loading; otherwise its first call is the balance read for the address of
    the decrypted key.  In no case does it change the storage or draw
    entropy. *)
Theorem unlock_needs_the_stored_key {wc : WebCrypto} {ethers : EthersLib}
    {disp : Display} (w : World) (h : list Event) (password : string)
    (st : WalletState) (m : Mem) :
  exists h' st' m' res,
    run w h (unlock password st m) = (h', inr (st', m', res))
    /\ localStorage m' = localStorage m /\ rng m' = rng m
    /\ ((h' = h /\ m' = m /\ st' = stopLoading st /\ (exists e, res = inl e)
         /\ match loadEncryptedKey (localStorage m) with
            | None => True
            | Some blob =>
                blob = ""
                \/ (exists e, decryptKey blob password = inl e)
                \/ (exists key e, decryptKey blob password = inr key
                                  /\ connectHotWallet key = inl e)
            end)
        \/ (exists blob key wl rest,
              loadEncryptedKey (localStorage m) = Some blob /\ blob <> ""
              /\ decryptKey blob password = inr key
              /\ connectHotWallet key = inr wl
              /\ h' = (h ++ (GetBalance (w_address wl),
                             rpc w h (GetBalance (w_address wl))) :: rest)%list)).
Proof.
  destruct (loadEncryptedKey (localStorage m)) as [blob|] eqn:Hload.
  2:{ exists h, (stopLoading st), m, (inl "No stored wallet").
      unfold unlock. rewrite Hload. split; [reflexivity|]. split; [reflexivity|].
      split; [reflexivity|]. left. repeat split. eauto. }
  destruct (truthy blob) eqn:Ht.
  2:{ exists h, (stopLoading st), m, (inl "No stored wallet").
      unfold unlock. rewrite Hload, Ht. split; [reflexivity|]. split; [reflexivity|].
      split; [reflexivity|]. left. repeat split; [eauto|].
      left. unfold truthy in Ht. apply negb_false_iff in Ht. by apply String.eqb_eq. }
  assert (Hne : blob <> "").
  { unfold truthy in Ht. apply negb_true_iff in Ht. by apply String.eqb_neq. }
  destruct (decryptKey blob password) as [e|key] eqn:Hdec.
  { exists h, (stopLoading st), m, (inl e).
    unfold unlock. rewrite Hload, Ht, Hdec. split; [reflexivity|]. split; [reflexivity|].
    split; [reflexivity|]. left. repeat split; eauto. }
  destruct (connectHotWallet key) as [e|wl] eqn:Hwl.
  { exists h, (stopLoading st), m, (inl e).
    unfold unlock. rewrite Hload, Ht, Hdec, Hwl. split; [reflexivity|].
    split; [reflexivity|]. split; [reflexivity|]. left. repeat split; eauto 10. }
  destruct (unlock_accepted w h password st m blob key wl Hload Ht Hdec Hwl)
    as (rest & pc & Hrun).
  do 4 eexists. split; [exact Hrun|]. cbn [localStorage rng].
  split; [reflexivity|]. split; [reflexivity|].
  right. exists blob, key, wl, rest. auto.
Qed.

(** X23. The storage functions are a one-slot store: what is saved is what
    is loaded, saving overwrites, clearing after saving is clearing, no other
    storage key is ever touched, and [hasStoredKey] is JavaScript truthiness
    of the slot, so an empty string counts as no key. *)
Theorem key_storage_is_one_slot (encrypted other : string) (ls : gmap string string) :
  loadEncryptedKey (saveEncryptedKey encrypted ls) = Some encrypted
  /\ saveEncryptedKey encrypted (saveEncryptedKey other ls) = saveEncryptedKey encrypted ls
  /\ clearStoredKey (saveEncryptedKey encrypted ls) = clearStoredKey ls
  /\ loadEncryptedKey (clearStoredKey ls) = None
  /\ (forall k, k <> STORAGE_KEY ->
        saveEncryptedKey encrypted ls !! k = ls !! k /\ clearStoredKey ls !! k = ls !! k)
  /\ (hasStoredKey (saveEncryptedKey encrypted ls) = true <-> encrypted <> "")
  /\ hasStoredKey (clearStoredKey ls) = false
  /\ (hasStoredKey ls = true <->
      exists blob, loadEncryptedKey ls = Some blob /\ blob <> "").
Proof.
  assert (Htruthy : forall s, truthy s = true <-> s <> "").
  { intros s. unfold truthy. rewrite negb_true_iff. apply String.eqb_neq. }
  unfold loadEncryptedKey, saveEncryptedKey, clearStoredKey, hasStoredKey.
  repeat split.
  - apply lookup_insert_eq.
  - apply insert_insert_eq.
  - apply delete_insert_eq.
  - apply lookup_delete_eq.
  - by apply lookup_insert_ne.
  - by apply lookup_delete_ne.
  - rewrite lookup_insert_eq. apply Htruthy.
  - rewrite lookup_insert_eq. apply Htruthy.
  - by rewrite lookup_delete_eq.
  - destruct (ls !! STORAGE_KEY) as [blob|]; [|discriminate].
    intros H. exists blob. split; [reflexivity | by apply Htruthy].
  - intros (blob & -> & Hb). by apply Htruthy.
Qed.

Lemma session_reads_outcome {ethers : EthersLib} {disp : Display} (w : World)
    (h : list Event) (wl : Wallet) (st : WalletState) (cache : option PriceCache)
    (mem : option PriceCache -> Mem) :
  exists h' st' m' res,
    run w h (rb ← rawCall (GetBalance (w_address wl));
             pc ← fetchEthPrice cache;
             let m' := mem (snd pc) in
             match rb with
             | VNum balance =>
                 Ret (connectedState wl (formatEther balance) (fst pc), m', inr tt)
             | VErr err => Ret (stopLoading st, m', inl err)
             | _ => Ret (stopLoading st, m', inl decode_error)
             end)
    = (h', inr (st', m', res))
    /\ ((st' = stopLoading st /\ exists e, res = inl e)
        \/ (res = inr tt /\ exists bal p, st' = connectedState wl bal p)).
Proof.
  destruct (session_reads w h wl st cache mem) as (rest & pc & Hrun).
  do 4 eexists. split; [exact Hrun|].
  destruct (rpc w h (GetBalance (w_address wl))); cbn; eauto.
Qed.

Lemma connect_outcome {wc : WebCrypto} {ethers : EthersLib} {disp : Display}
    (w : World) (h : list Event) (privateKey password : string) (st : WalletState)
    (m : Mem) :
  exists h' st' m' res,
    run w h (connect privateKey password st m) = (h', inr (st', m', res))
    /\ ((st' = stopLoading st /\ exists e, res = inl e)
        \/ (res = inr tt /\ exists wl bal p, st' = connectedState wl bal p)).
Proof.
  unfold connect. destruct (connectHotWallet privateKey) as [e|wl].
  { cbn. do 4 eexists. split; [reflexivity|]. left. eauto. }
  destruct (encryptKey privateKey password (rng m)) as [encrypted g'].
  destruct (session_reads_outcome w h wl st (ethPriceCache m)
              (fun c => mkMem (saveEncryptedKey encrypted (localStorage m)) c g'))
    as (h' & st' & m' & res & Hrun & Hout).
  exists h', st', m', res. split; [exact Hrun|].
  destruct Hout as [Hl | (Hr & bal & p & Hst)]; [by left | right; eauto].
Qed.

Lemma unlock_outcome {wc : WebCrypto} {ethers : EthersLib} {disp : Display}
    (w : World) (h : list Event) (password : string) (st : WalletState) (m : Mem) :
  exists h' st' m' res,
    run w h (unlock password st m) = (h', inr (st', m', res))
    /\ ((st' = stopLoading st /\ exists e, res = inl e)
        \/ (res = inr tt /\ exists wl bal p, st' = connectedState wl bal p)).
Proof.
  unfold unlock.
  destruct (loadEncryptedKey (localStorage m)) as [encrypted|];
    [|cbn; do 4 eexists; split; [reflexivity|]; left; eauto].
  destruct (truthy encrypted); cbn [negb];
    [|cbn; do 4 eexists; split; [reflexivity|]; left; eauto].
  destruct (decryptKey encrypted password) as [e|key];
    [cbn; do 4 eexists; split; [reflexivity|]; left; eauto|].
  destruct (connectHotWallet key) as [e|wl];
    [cbn; do 4 eexists; split; [reflexivity|]; left; eauto|].
  destruct (session_reads_outcome w h wl st (ethPriceCache m)
              (fun c => mkMem (localStorage m) c (rng m)))
    as (h' & st' & m' & res & Hrun & Hout).
  exists h', st', m', res. split; [exact Hrun|].
  destruct Hout as [Hl | (Hr & bal & p & Hst)]; [by left | right; eauto].
Qed.

(** X29. The session never shows a wallet it does not hold.  The state is
    consistent when it holds a wallet exactly if it is connected and then
    shows that wallet's address, and has an empty address otherwise.  The
    initial state is consistent, and [connect], [unlock], [disconnect] and
    [refreshBalance] keep it so on every chain; [connect] and [unlock] always
    settle, leave the loading flag off, and when they reject they leave the
    previous session, a connected wallet included, in place. *)
Theorem session_stays_consistent {wc : WebCrypto} {ethers : EthersLib} {disp : Display}
    (w : World) (h : list Event) (st : WalletState) (m : Mem) :
  session_consistent st ->
  session_consistent (initialState m)
  /\ session_consistent (fst (disconnect st m))
  /\ (forall privateKey password,
        exists h' st' m' res,
          run w h (connect privateKey password st m) = (h', inr (st', m', res))
          /\ session_consistent st' /\ ws_isLoading st' = false
          /\ (res = inr tt -> ws_isConnected st' = true)
          /\ (forall e, res = inl e -> st' = stopLoading st))
  /\ (forall password,
        exists h' st' m' res,
          run w h (unlock password st m) = (h', inr (st', m', res))
          /\ session_consistent st' /\ ws_isLoading st' = false
          /\ (res = inr tt -> ws_isConnected st' = true)
          /\ (forall e, res = inl e -> st' = stopLoading st))
  /\ (forall addr cache,
        exists h' st' cache',
          run w h (refreshBalance addr st cache) = (h', inr (st', cache'))
          /\ session_consistent st').
Proof.
  intros Hst.
  assert (Hsettle : forall st' (res : Error + unit),
    (st' = stopLoading st /\ exists e, res = inl e)
    \/ (res = inr tt /\ exists wl bal p, st' = connectedState wl bal p) ->
    session_consistent st' /\ ws_isLoading st' = false
    /\ (res = inr tt -> ws_isConnected st' = true)
    /\ (forall e, res = inl e -> st' = stopLoading st)).
  { intros st' res [(-> & e & ->) | (-> & wl & bal & p & ->)].
    - repeat split; [exact Hst | discriminate].
    - repeat split. discriminate. }
  split; [by cbv|]. split; [by cbv|].
  split; [|split].
  - intros privateKey password.
    destruct (connect_outcome w h privateKey password st m)
      as (h' & st' & m' & res & Hrun & Hout).
    exists h', st', m', res. split; [exact Hrun | by apply Hsettle].
  - intros password.
    destruct (unlock_outcome w h password st m) as (h' & st' & m' & res & Hrun & Hout).
    exists h', st', m', res. split; [exact Hrun | by apply Hsettle].
  - intros addr cache. unfold refreshBalance, rawCall.
    rewrite run_mbind. cbn [run]. rewrite run_mbind.
    destruct (fetchEthPrice_total cache w
                (h ++ [(GetBalance addr, rpc w h (GetBalance addr))])%list)
      as (h3 & [p cache'] & ->).
    destruct (rpc w h (GetBalance addr)); cbn; do 3 eexists;
      (split; [reflexivity | exact Hst]).
Qed.

Lemma session_stays_consistent_witness :
  let st := disconnectedState in
  let m := mkMem ∅ None zero_rng in
  session_consistent (initialState m)
  /\ session_consistent (fst (disconnect st m))
  /\ (forall privateKey password,
        exists h' st' m' res,
          run wealthy_world [] (connect privateKey password st m) = (h', inr (st', m', res))
          /\ session_consistent st' /\ ws_isLoading st' = false
          /\ (res = inr tt -> ws_isConnected st' = true)
          /\ (forall e, res = inl e -> st' = stopLoading st))
  /\ (forall password,
        exists h' st' m' res,
          run wealthy_world [] (unlock password st m) = (h', inr (st', m', res))
          /\ session_consistent st' /\ ws_isLoading st' = false
          /\ (res = inr tt -> ws_isConnected st' = true)
          /\ (forall e, res = inl e -> st' = stopLoading st))
  /\ (forall addr cache,
        exists h' st' cache',
          run wealthy_world [] (refreshBalance addr st cache) = (h', inr (st', cache'))
          /\ session_consistent st').
Proof.
  intros st m.
  apply (session_stays_consistent wealthy_world [] st m).
  vm_compute. auto.
Defined.

(** ** Token addresses and token metadata *)

Lemma substring_all (s : string) : String.substring 0 (String.length s) s = s.
Proof. induction s as [|c s IH]; simpl; [reflexivity | by rewrite IH]. Qed.

Lemma string_app_length (s t : string) :
  String.length (s ++ t) = (String.length s + String.length t)%nat.
Proof.
  induction s as [|c s IH]; [reflexivity|].
  change (String c s ++ t) with (String c (s ++ t)). cbn [String.length]. by rewrite IH.
Qed.

Lemma substring_app (n m : nat) (s t : string) :
  (n + m <= String.length s)%nat ->
  String.substring n m (s ++ t) = String.substring n m s.
Proof.
  revert n m. induction s as [|c s IH]; intros n m Hle.
  - cbn [String.length] in Hle. assert (n = 0%nat) as -> by lia.
    assert (m = 0%nat) as -> by lia. change ("" ++ t) with t. by destruct t.
  - change (String c s ++ t) with (String c (s ++ t)). cbn [String.length] in Hle.
    destruct n as [|n]; cbn [String.substring].
    + destruct m as [|m]; [reflexivity|]. f_equal. apply IH. lia.
    + apply IH. lia.
Qed.

Lemma substring0_length (n : nat) (s : string) :
  (n <= String.length s)%nat -> String.length (String.substring 0 n s) = n.
Proof.
  revert n. induction s as [|c s IH]; intros n Hle; cbn [String.length] in Hle.
  - assert (n = 0%nat) as -> by lia. reflexivity.
  - destruct n as [|n]; [reflexivity|]. cbn [String.substring String.length].
    f_equal. apply IH. lia.
Qed.

Lemma prefix_app (p s t : string) :
  String.prefix p s = true -> String.prefix p (s ++ t) = true.
Proof.
  revert s. induction p as [|a p IH]; intros s; [by destruct s, t|].
  destruct s as [|c s]; [discriminate|].
  change (String c s ++ t) with (String c (s ++ t)). cbn [String.prefix].
  destruct (Ascii.ascii_dec a c); [apply IH | discriminate].
Qed.

Lemma address_at_length (s : string) :
  address_at s = true -> (42 <= String.length s)%nat.
Proof.
  unfold address_at. intros H.
  apply andb_true_iff in H. destruct H as [H _].
  apply andb_true_iff in H. destruct H as [_ H]. by apply Nat.leb_le.
Qed.

Lemma address_at_app (s t : string) :
  address_at s = true -> address_at (s ++ t) = true.
Proof.
  intros H. pose proof (address_at_length s H) as Hlen.
  unfold address_at in H |- *.
  apply andb_true_iff in H. destruct H as [H Hhex].
  apply andb_true_iff in H. destruct H as [Hp _].
  rewrite (prefix_app _ _ t Hp), string_app_length, substring_app, Hhex by lia.
  cbn [andb]. rewrite andb_true_r. apply Nat.leb_le. lia.
Qed.

Lemma regex_match_unfold (input : string) :
  regex_match input
  = if address_at input then Some (String.substring 0 42 input)
    else match input with
         | EmptyString => None
         | String _ rest => regex_match rest
         end.
Proof. by destruct input. Qed.

Lemma regex_match_none (input : string) :
  regex_match input = None <->
  forall pre rest, input = pre ++ rest -> address_at rest = false.
Proof.
  induction input as [|c input IH]; rewrite regex_match_unfold.
  - split.
    + intros _ pre rest Heq. destruct pre; [|discriminate Heq].
      change ("" ++ rest) with rest in Heq. by subst rest.
    + intros H. by rewrite (H "" "" eq_refl).
  - destruct (address_at (String c input)) eqn:Hat.
    + split; [discriminate|]. intros H. specialize (H "" (String c input) eq_refl).
      congruence.
    + rewrite IH. split.
      * intros H pre rest Heq. destruct pre as [|d pre].
        -- change ("" ++ rest) with rest in Heq. by subst rest.
        -- change (String d pre ++ rest) with (String d (pre ++ rest)) in Heq.
           injection Heq as _ Heq. by apply (H pre).
      * intros H pre rest Heq. apply (H (String c pre)). by rewrite Heq.
Qed.

Lemma regex_match_some (input m : string) :
  regex_match input = Some m ->
  exists pre rest,
    input = pre ++ rest /\ address_at rest = true /\ m = String.substring 0 42 rest
    /\ forall pre1 rest1,
         input = pre1 ++ rest1 -> (String.length pre1 < String.length pre)%nat ->
         address_at rest1 = false.
Proof.
  induction input as [|c input IH]; rewrite regex_match_unfold.
  - change (address_at "") with false. discriminate.
  - destruct (address_at (String c input)) eqn:Hat.
    + intros H. injection H as <-. exists "", (String c input).
      repeat split; [exact Hat|]. intros pre1 rest1 _ Hlt. cbn [String.length] in Hlt. lia.
    + intros H. destruct (IH H) as (pre & rest & -> & Hr & -> & Hleft).
      exists (String c pre), rest. repeat split; [exact Hr|].
      intros pre1 rest1 Heq Hlt. destruct pre1 as [|d pre1].
      * change ("" ++ rest1) with rest1 in Heq. by subst rest1.
      * change (String d pre1 ++ rest1) with (String d (pre1 ++ rest1)) in Heq.
        injection Heq as _ Heq. apply (Hleft pre1 rest1 Heq).
        cbn [String.length] in Hlt. lia.
Qed.

(** X24. [extractTokenAddress] finds the leftmost [0x] followed by 40 hex
    digits: it answers null exactly when no position of the input starts
    such a match; otherwise the 42 characters at the first such position, and
    nothing else of the input, go to [ethers.getAddress], whose result, or
    error, is the function's. *)
Theorem token_address_is_leftmost_match {text : EthersText} (input : string) :
  (extractTokenAddress input = inr None <->
   forall pre rest, input = pre ++ rest -> address_at rest = false)
  /\ (extractTokenAddress input <> inr None ->
      exists pre rest,
        input = pre ++ rest /\ address_at rest = true
        /\ String.length (String.substring 0 42 rest) = 42%nat
        /\ (forall pre1 rest1,
              input = pre1 ++ rest1 -> (String.length pre1 < String.length pre)%nat ->
              address_at rest1 = false)
        /\ extractTokenAddress input
           = match getAddress (String.substring 0 42 rest) with
             | inl e => inl e
             | inr a => inr (Some a)
             end).
Proof.
  unfold extractTokenAddress.
  destruct (regex_match input) as [m|] eqn:Hm.
  - destruct (regex_match_some input m Hm) as (pre & rest & Heq & Hat & -> & Hleft).
    split.
    + split.
      * destruct (getAddress _); discriminate.
      * intros H. apply regex_match_none in H. congruence.
    + intros _. exists pre, rest. repeat split; try done.
      apply substring0_length, address_at_length, Hat.
  - split; [|congruence]. split; [intros _; by apply regex_match_none | reflexivity].
Qed.

(** X25. Two consequences for what a user may paste: an input shorter than
    42 characters never yields an address, and text after a match is
    ignored, so that a longer hex string (a transaction hash, a private key)
    is read as the address spelled by its first 42 characters. *)
Theorem token_address_ignores_the_tail {text : EthersText} (s tail : string) :
  address_at s = true ->
  extractTokenAddress (s ++ tail) = extractTokenAddress (String.substring 0 42 s)
  /\ forall short, (String.length short < 42)%nat -> extractTokenAddress short = inr None.
Proof.
  intros Hat. pose proof (address_at_length s Hat) as Hlen.
  assert (Hcut : String.substring 0 42 s ++ String.substring 42 (String.length s - 42) s = s).
  { clear Hat. revert Hlen. generalize 42%nat. induction s as [|c s IH]; intros n Hn.
    - cbn [String.length] in Hn. by assert (n = 0%nat) as -> by lia.
    - destruct n as [|n].
      + cbn [String.substring]. change ("" ++ ?x) with x. rewrite Nat.sub_0_r.
        f_equal. apply substring_all.
      + cbn [String.substring String.length] in *.
        change (String c ?a ++ ?b) with (String c (a ++ b)). f_equal.
        apply IH. lia. }
  split.
  - unfold extractTokenAddress.
    rewrite (regex_match_unfold (s ++ tail)), (address_at_app s tail Hat).
    rewrite substring_app by (cbn; lia).
    rewrite (regex_match_unfold (String.substring 0 42 s)).
    assert (Hat' : address_at (String.substring 0 42 s) = true).
    { unfold address_at in Hat |- *.
      apply andb_true_iff in Hat. destruct Hat as [H Hhex].
      apply andb_true_iff in H. destruct H as [Hp _].
      rewrite <- Hcut in Hp, Hhex.
      rewrite substring0_length by exact Hlen.
      rewrite substring_app in Hhex by (rewrite substring0_length; [cbn; lia | exact Hlen]).
      rewrite Hhex. cbn [Nat.leb andb]. rewrite !andb_true_r.
      clear - Hp Hlen. destruct s as [|a [|b s]]; cbn [String.length] in Hlen; try lia.
      cbn [String.substring] in Hp |- *.
      change (String a (String b ?x) ++ ?y) with (String a (String b (x ++ y))) in Hp.
      cbn [String.prefix] in Hp |- *.
      destruct (Ascii.ascii_dec "0" a); [|discriminate].
      destruct (Ascii.ascii_dec "x" b); [|discriminate].
      by destruct (String.substring 0 40 s). }
    rewrite Hat'.
    assert (Hsub : String.substring 0 42 (String.substring 0 42 s) = String.substring 0 42 s).
    { rewrite <- (substring0_length 42 s Hlen) at 1. apply substring_all. }
    by rewrite Hsub.
  - intros short Hshort. unfold extractTokenAddress.
    assert (Hnone : regex_match short = None).
    { apply regex_match_none. intros pre rest ->.
      destruct (address_at rest) eqn:Hr; [|reflexivity].
      apply address_at_length in Hr. rewrite string_app_length in Hshort. lia. }
    by rewrite Hnone.
Qed.

Lemma token_address_ignores_the_tail_witness :
  extractTokenAddress ("0x" ++ KEY64) = extractTokenAddress (String.substring 0 42 ("0x" ++ KEY64))
  /\ forall short, (String.length short < 42)%nat -> extractTokenAddress short = inr None.
Proof.
  change ("0x" ++ KEY64)
    with (String.substring 0 42 ("0x" ++ KEY64) ++ String.substring 42 24 ("0x" ++ KEY64)) at 1.
  apply (token_address_ignores_the_tail (String.substring 0 42 ("0x" ++ KEY64))
           (String.substring 42 24 ("0x" ++ KEY64))).
  vm_compute. reflexivity.
Defined.

Lemma readText_spec {text : EthersText} (str b32 : Error + string) (dflt : string)
    (r r32 : TokenRead) :
  exists tl,
    snd (readText str b32 dflt r r32) = r :: tl
    /\ (tl = [] \/ tl = [r32])
    /\ (tl = [r32] <-> exists e, str = inl e)
    /\ (forall s, str = inr s -> fst (readText str b32 dflt r r32) = s)
    /\ (forall e e', str = inl e -> b32 = inl e' -> fst (readText str b32 dflt r r32) = dflt)
    /\ (forall e raw, str = inl e -> b32 = inr raw ->
          fst (readText str b32 dflt r r32)
          = match decodeBytes32String raw with inr s => s | inl _ => dflt end).
Proof.
  unfold readText.
  destruct str as [e|s]; [destruct b32 as [e'|raw]|]; cbn [fst snd].
  - exists [r32]. repeat split; eauto; intros; congruence.
  - exists [r32]. repeat split; eauto; try (intros; congruence).
    intros ? ? _ [= <-]. reflexivity.
  - exists []. repeat split; eauto; try discriminate; try congruence.
    intros [e He]. discriminate He.
Qed.

(** X26. A token's metadata can always be shown: once the address passes
    [ethers.getAddress], [getTokenInfo] does not throw, whatever the contract
    answers.  On a cache miss it reads [decimals] first, then the name, then
    the symbol, between three and five reads in all; the [bytes32] variant of
    a read is tried exactly when the string variant failed, and its answer
    is used decoded; a string answer is used as it is; every read that
    fails, or does not decode, leaves the default: "Unknown", "???" and 18
    decimals.  The result is stored in the cache under the checksummed
    address. *)
Theorem token_info_never_fails {text : EthersText} (addr : string)
    (chain : address -> Erc20Answers) (tokenInfoCache : gmap string TokenInfo)
    (checksummed : address) :
  getAddress addr = inr checksummed ->
  tokenInfoCache !! checksummed = None ->
  let token := chain checksummed in
  exists info nameReads symbolReads,
    getTokenInfo addr chain tokenInfoCache
    = inr (info, <[checksummed := info]> tokenInfoCache,
           (ReadDecimals :: (ReadName :: nameReads) ++ ReadSymbol :: symbolReads)%list)
    /\ ti_address info = checksummed
    /\ (nameReads = [] \/ nameReads = [ReadName32])
    /\ (symbolReads = [] \/ symbolReads = [ReadSymbol32])
    /\ (nameReads = [ReadName32] <-> exists e, on_name token = inl e)
    /\ (symbolReads = [ReadSymbol32] <-> exists e, on_symbol token = inl e)
    /\ ti_decimals info = match on_decimals token with inr d => d | inl _ => 18 end
    /\ (forall s, on_name token = inr s -> ti_name info = s)
    /\ (forall s, on_symbol token = inr s -> ti_symbol info = s)
    /\ (forall e raw, on_name token = inl e -> on_name32 token = inr raw ->
          ti_name info
          = match decodeBytes32String raw with inr s => s | inl _ => "Unknown" end)
    /\ (forall e raw, on_symbol token = inl e -> on_symbol32 token = inr raw ->
          ti_symbol info
          = match decodeBytes32String raw with inr s => s | inl _ => "???" end)
    /\ (forall e e', on_name token = inl e -> on_name32 token = inl e' ->
          ti_name info = "Unknown")
    /\ (forall e e', on_symbol token = inl e -> on_symbol32 token = inl e' ->
          ti_symbol info = "???").
Proof.
  intros Hsum Hmiss token. unfold getTokenInfo. rewrite Hsum, Hmiss. fold token.
  destruct (readText_spec (on_name token) (on_name32 token) "Unknown" ReadName ReadName32)
    as (nr & Hnr & Hn1 & Hn2 & Hn3 & Hn4 & Hn5).
  destruct (readText_spec (on_symbol token) (on_symbol32 token) "???" ReadSymbol ReadSymbol32)
    as (sr & Hsr & Hs1 & Hs2 & Hs3 & Hs4 & Hs5).
  destruct (readText (on_name token) _ _ _ _) as [name nameReads].
  destruct (readText (on_symbol token) _ _ _ _) as [symbol symbolReads].
  cbn [fst snd] in *. subst nameReads symbolReads.
  exists (mkTokenInfo checksummed name symbol
            match on_decimals token with inr d => d | inl _ => 18 end), nr, sr.
  cbn [ti_address ti_name ti_symbol ti_decimals].
  repeat split; try done; try apply Hn2; try apply Hs2; eauto.
Qed.

Lemma token_info_never_fails_witness :
  exists info nameReads symbolReads,
    getTokenInfo TOKEN (fun _ => silent_token) ∅
    = inr (info, <[TOKEN := info]> ∅,
           (ReadDecimals :: (ReadName :: nameReads) ++ ReadSymbol :: symbolReads)%list)
    /\ ti_address info = TOKEN
    /\ (nameReads = [] \/ nameReads = [ReadName32])
    /\ (symbolReads = [] \/ symbolReads = [ReadSymbol32])
    /\ (nameReads = [ReadName32] <-> exists e, on_name silent_token = inl e)
    /\ (symbolReads = [ReadSymbol32] <-> exists e, on_symbol silent_token = inl e)
    /\ ti_decimals info = 18
    /\ (forall s, on_name silent_token = inr s -> ti_name info = s)
    /\ (forall s, on_symbol silent_token = inr s -> ti_symbol info = s)
    /\ (forall e raw, on_name silent_token = inl e -> on_name32 silent_token = inr raw ->
          ti_name info
          = match decodeBytes32String raw with inr s => s | inl _ => "Unknown" end)
    /\ (forall e raw, on_symbol silent_token = inl e -> on_symbol32 silent_token = inr raw ->
          ti_symbol info
          = match decodeBytes32String raw with inr s => s | inl _ => "???" end)
    /\ (forall e e', on_name silent_token = inl e -> on_name32 silent_token = inl e' ->
          ti_name info = "Unknown")
    /\ (forall e e', on_symbol silent_token = inl e -> on_symbol32 silent_token = inl e' ->
          ti_symbol info = "???").
Proof.
  apply (token_info_never_fails TOKEN (fun _ => silent_token) ∅ TOKEN).
  - reflexivity.
  - reflexivity.
Defined.

(** X27. Token metadata is read once: whatever a call of [getTokenInfo]
    returned is in the cache it leaves, under the checksummed address, so
    that any later call for an address with the same checksummed form returns
    the same record without a single read and without looking at the chain,
    defaults included; no other cache entry is changed. *)
Theorem token_info_is_cached {text : EthersText} (addr : string)
    (chain : address -> Erc20Answers) (tokenInfoCache cache' : gmap string TokenInfo)
    (info : TokenInfo) (reads : list TokenRead) :
  getTokenInfo addr chain tokenInfoCache = inr (info, cache', reads) ->
  exists checksummed,
    getAddress addr = inr checksummed
    /\ cache' !! checksummed = Some info
    /\ (forall k, k <> checksummed -> cache' !! k = tokenInfoCache !! k)
    /\ (reads = [] <-> tokenInfoCache !! checksummed = Some info)
    /\ forall addr2 chain2,
         getAddress addr2 = inr checksummed ->
         getTokenInfo addr2 chain2 cache' = inr (info, cache', []).
Proof.
  unfold getTokenInfo. destruct (getAddress addr) as [e|c] eqn:Hsum; [discriminate|].
  destruct (tokenInfoCache !! c) as [cached|] eqn:Hc.
  - intros H. injection H as <- <- <-. exists c.
    repeat split; try done.
    intros addr2 chain2 ->. by rewrite Hc.
  - destruct (readText _ _ _ _ _) as [name nameReads].
    destruct (readText _ _ _ _ _) as [symbol symbolReads].
    intros H. injection H as <- <- <-. exists c.
    split; [reflexivity|]. split; [apply lookup_insert_eq|].
    split; [intros k Hk; by apply lookup_insert_ne|].
    split; [split; [discriminate | rewrite Hc; discriminate]|].
    intros addr2 chain2 ->. by rewrite lookup_insert_eq.
Qed.

Lemma token_info_is_cached_witness :
  let info := mkTokenInfo TOKEN "Unknown" "???" 18 in
  exists checksummed,
    getAddress TOKEN = inr checksummed
    /\ (<[TOKEN := info]> ∅ : gmap string TokenInfo) !! checksummed = Some info
    /\ (forall k, k <> checksummed ->
          (<[TOKEN := info]> ∅ : gmap string TokenInfo) !! k
          = (∅ : gmap string TokenInfo) !! k)
    /\ ([ReadDecimals; ReadName; ReadName32; ReadSymbol; ReadSymbol32] = []
        <-> (∅ : gmap string TokenInfo) !! checksummed = Some info)
    /\ forall addr2 chain2,
         getAddress addr2 = inr checksummed ->
         getTokenInfo addr2 chain2 (<[TOKEN := info]> ∅) = inr (info, <[TOKEN := info]> ∅, []).
Proof.
  intros info.
  apply (token_info_is_cached TOKEN (fun _ => silent_token) ∅ (<[TOKEN := info]> ∅) info
           [ReadDecimals; ReadName; ReadName32; ReadSymbol; ReadSymbol32]).
  reflexivity.
Defined.

(** ** Endpoint configuration *)

(** X28. The fallback provider is configured with three endpoints of chain
    8453 in priority order 1, 2, 3, the first with weight 3 and a stall
    timeout of 3000 ms, the others with weight 1 and 2000 ms.  With an API
    key the first endpoint is the keyed Alchemy URL; without one it is the
    public Base endpoint, which then appears twice. *)
Theorem fallback_endpoints (ALCHEMY_KEY : string) :
  let cfgs := fallbackConfigs (BASE_RPC_URLS ALCHEMY_KEY) in
  map ep_priority cfgs = [1; 2; 3]
  /\ map ep_weight cfgs = [3; 1; 1]
  /\ map ep_stallTimeout cfgs = [3000; 2000; 2000]
  /\ map ep_chainId cfgs = [8453; 8453; 8453]
  /\ map ep_url cfgs = BASE_RPC_URLS ALCHEMY_KEY
  /\ (ALCHEMY_KEY = "" ->
      map ep_url cfgs
      = ["https://mainnet.base.org"; "https://mainnet.base.org"; "https://base.llamarpc.com"])
  /\ (ALCHEMY_KEY <> "" ->
      map ep_url cfgs
      = ["https://base-mainnet.g.alchemy.com/v2/" ++ ALCHEMY_KEY;
         "https://mainnet.base.org"; "https://base.llamarpc.com"]).
Proof.
  intros cfgs. subst cfgs. unfold BASE_RPC_URLS, ALCHEMY_RPC, truthy.
  repeat split.
  - intros ->. reflexivity.
  - intros Hne. apply String.eqb_neq in Hne. cbn [fallbackConfigs imap map ep_url].
    by rewrite Hne.
Qed.
